(** * Mentor-Dashboard: session-change reconciliation, verified

    A shallow embedding of the route handlers that reschedule sessions,
    swap mentors and maintain session-material link lists, together with
    the properties the specification states about them.

    Sources embedded here:
    - [src/app/api/mentor/session-material/route.ts]  (module [Material])
    - [src/app/api/cohort/session-update/route.ts]    (module [SessionUpdate])
    - the swap-mentor handler with the conflict scan   (module [SwapMentor])
    - the earlier swap-mentor handler (60 minute window) (module [SwapLegacy])

    Conventions.  JavaScript strings are [string]s of 8-bit code units;
    nullable columns and optional request fields are [option]s; numeric
    ids are [Z].  The schedule database is a finite map from table names to
    row lists.  Providers that live outside the repository (mail, chat,
    meeting API, the mentor and student directories) are fields of an
    environment record, so every statement quantifies over their answers. *)

From Stdlib Require Import ZArith Ascii String List Bool Lia.
From stdpp Require Import base option list gmap strings.

Local Open Scope string_scope.
Local Open Scope Z_scope.

(** ** JavaScript string primitives *)

Module Js.

(** [String.prototype.trim] strips WhiteSpace and LineTerminator code
    points; below U+0100 these are TAB, LF, VT, FF, CR, SP and NBSP. *)
Definition isWhiteSpace (c : ascii) : bool :=
  let n := N_of_ascii c in
  ((9 <=? n) && (n <=? 13) || (n =? 32) || (n =? 160))%N.

Fixpoint trimStart (s : string) : string :=
  match s with
  | EmptyString => EmptyString
  | String c s' => if isWhiteSpace c then trimStart s' else s
  end.

Fixpoint trimEnd (s : string) : string :=
  match s with
  | EmptyString => EmptyString
  | String c s' =>
      match trimEnd s' with
      | EmptyString => if isWhiteSpace c then EmptyString else String c EmptyString
      | r => String c r
      end
  end.

Definition trim (s : string) : string := trimEnd (trimStart s).

(** [s.split(sep)] for a one-character separator; never returns [[]]. *)
Fixpoint split (sep : ascii) (s : string) : list string :=
  match s with
  | EmptyString => [EmptyString]
  | String c s' =>
      if Ascii.eqb c sep then EmptyString :: split sep s'
      else match split sep s' with
           | h :: t => String c h :: t
           | [] => [String c EmptyString]
           end
  end.

(** [arr.join(sep)] *)
Fixpoint join (sep : string) (l : list string) : string :=
  match l with
  | [] => EmptyString
  | x :: r =>
      match r with
      | [] => x
      | _ :: _ => x +:+ sep +:+ join sep r
      end
  end.

(** [arr.includes(x)] on an array of strings *)
Definition includes (l : list string) (x : string) : bool :=
  bool_decide (x ∈ l).

(** truthiness of a string value: non-empty *)
Definition truthyS (s : string) : bool :=
  negb (String.eqb s EmptyString).

(** truthiness of a nullable string ([null], [undefined] and [''] are falsy) *)
Definition truthyOS (o : option string) : bool :=
  match o with Some s => truthyS s | None => false end.

(** truthiness of a nullable number ([null] and [0] are falsy) *)
Definition truthyOZ (o : option Z) : bool :=
  match o with Some z => negb (z =? 0) | None => false end.

(** the value of a nullable field when it is truthy *)
Definition ifTruthyS (o : option string) : option string :=
  match o with Some s => if truthyS s then Some s else None | None => None end.

Definition ifTruthyZ (o : option Z) : option Z :=
  match o with Some z => if z =? 0 then None else Some z | None => None end.

(** [a || b] on nullable strings and numbers *)
Definition orS (a b : option string) : option string :=
  if truthyOS a then a else b.

Definition orZ (a b : option Z) : option Z :=
  if truthyOZ a then a else b.

(** [a ?? b] *)
Definition nullish {A} (a b : option A) : option A :=
  match a with Some _ => a | None => b end.

Definition isUpper (c : ascii) : bool :=
  let n := N_of_ascii c in ((65 <=? n) && (n <=? 90))%N.

Definition isLower (c : ascii) : bool :=
  let n := N_of_ascii c in ((97 <=? n) && (n <=? 122))%N.

(** the class [[a-zA-Z]] *)
Definition isLetter (c : ascii) : bool := isUpper c || isLower c.

(** the class [\d] *)
Definition isDigit (c : ascii) : bool :=
  let n := N_of_ascii c in ((48 <=? n) && (n <=? 57))%N.

Definition toLowerChar (c : ascii) : ascii :=
  if isUpper c then ascii_of_N (N_of_ascii c + 32) else c.

Definition toUpperChar (c : ascii) : ascii :=
  if isLower c then ascii_of_N (N_of_ascii c - 32) else c.

Fixpoint toLowerCase (s : string) : string :=
  match s with
  | EmptyString => EmptyString
  | String c s' => String (toLowerChar c) (toLowerCase s')
  end.

(** [s.charAt(0).toUpperCase() + s.slice(1)] *)
Definition capitalize (s : string) : string :=
  match s with
  | EmptyString => EmptyString
  | String c s' => String (toUpperChar c) s'
  end.

(** [s.substring(0, n)] *)
Fixpoint substring0 (n : nat) (s : string) : string :=
  match n, s with
  | O, _ => EmptyString
  | S _, EmptyString => EmptyString
  | S n', String c s' => String c (substring0 n' s')
  end.

(** the longest prefix whose characters satisfy [p], and the rest *)
Fixpoint span (p : ascii -> bool) (s : string) : string * string :=
  match s with
  | EmptyString => (EmptyString, EmptyString)
  | String c s' =>
      if p c then let '(a, b) := span p s' in (String c a, b)
      else (EmptyString, s)
  end.

(** [s.startsWith(pre)]: the remainder after [pre], if [s] starts with it *)
Fixpoint stripPrefix (pre s : string) : option string :=
  match pre, s with
  | EmptyString, _ => Some s
  | String _ _, EmptyString => None
  | String a pre', String b s' =>
      if Ascii.eqb a b then stripPrefix pre' s' else None
  end.

(** [s.replace(pat, '')] with a string pattern: the first occurrence only *)
Fixpoint removeFirst (pat s : string) : string :=
  match stripPrefix pat s with
  | Some rest => rest
  | None =>
      match s with
      | EmptyString => EmptyString
      | String c s' => String c (removeFirst pat s')
      end
  end.

(** [s.includes(c)] for a single character *)
Fixpoint containsChar (c : ascii) (s : string) : bool :=
  match s with
  | EmptyString => false
  | String d s' => Ascii.eqb d c || containsChar c s'
  end.

End Js.

(** ** The schedule store

    One row of a [<cohort>_schedule] table, with the columns the handlers
    read or write.  Columns keep their database names. *)

Record Session := mkSession {
  id : Z;
  date : string;
  time : option string;
  subject_name : option string;
  session_type : option string;
  mentor_id : option Z;
  swapped_mentor_id : option Z;
  teams_meeting_link : option string;
  email_sent : option bool;
  whatsapp_sent : option bool;
  session_material : option string;
  initial_session_material : option string
}.

(** Row filters built with [.eq(column, value)]. *)
Inductive Selector :=
| ById (i : Z)
| ByDateTime (d t : string)
| ByDateMentor (d : string) (m : Z).

Definition matches (sel : Selector) (r : Session) : bool :=
  match sel with
  | ById i => bool_decide (id r = i)
  | ByDateTime d t => bool_decide (date r = d) && bool_decide (time r = Some t)
  | ByDateMentor d m => bool_decide (date r = d) && bool_decide (mentor_id r = Some m)
  end.

(** One [column: value] entry of an [.update({...})] object. *)
Inductive Assign :=
| set_session_material (v : string)
| set_initial_session_material (v : string)
| set_swapped_mentor_id (v : option Z)
| set_teams_meeting_link (v : option string)
| set_email_sent (v : bool)
| set_whatsapp_sent (v : bool).

Definition assign (a : Assign) (r : Session) : Session :=
  match a with
  | set_session_material v =>
      mkSession (id r) (date r) (time r) (subject_name r) (session_type r)
        (mentor_id r) (swapped_mentor_id r) (teams_meeting_link r)
        (email_sent r) (whatsapp_sent r) (Some v) (initial_session_material r)
  | set_initial_session_material v =>
      mkSession (id r) (date r) (time r) (subject_name r) (session_type r)
        (mentor_id r) (swapped_mentor_id r) (teams_meeting_link r)
        (email_sent r) (whatsapp_sent r) (session_material r) (Some v)
  | set_swapped_mentor_id v =>
      mkSession (id r) (date r) (time r) (subject_name r) (session_type r)
        (mentor_id r) v (teams_meeting_link r)
        (email_sent r) (whatsapp_sent r) (session_material r)
        (initial_session_material r)
  | set_teams_meeting_link v =>
      mkSession (id r) (date r) (time r) (subject_name r) (session_type r)
        (mentor_id r) (swapped_mentor_id r) v
        (email_sent r) (whatsapp_sent r) (session_material r)
        (initial_session_material r)
  | set_email_sent v =>
      mkSession (id r) (date r) (time r) (subject_name r) (session_type r)
        (mentor_id r) (swapped_mentor_id r) (teams_meeting_link r)
        (Some v) (whatsapp_sent r) (session_material r)
        (initial_session_material r)
  | set_whatsapp_sent v =>
      mkSession (id r) (date r) (time r) (subject_name r) (session_type r)
        (mentor_id r) (swapped_mentor_id r) (teams_meeting_link r)
        (email_sent r) (Some v) (session_material r)
        (initial_session_material r)
  end.

Definition applyPatch (patch : list Assign) (r : Session) : Session :=
  fold_left (fun acc a => assign a acc) patch r.

(** The database: table name to rows.  A table that is not in the map
    makes every query on it fail, as the client reports for a relation
    that does not exist; a write to an existing table applies to every
    row the filter selects.  The database itself is taken to be reliable:
    it does not lose a write to a table it has. *)
Abbreviation Store := (gmap string (list Session)).

(** [.from(t).select(..).<filters>] : [None] is the client's [error]. *)
Definition selectRows (st : Store) (t : string) (sel : Selector)
  : option (list Session) :=
  List.filter (matches sel) <$> st !! t.

(** [.single()]: exactly one row, otherwise an error. *)
Definition single (rows : option (list Session)) : option Session :=
  match rows with
  | Some [r] => Some r
  | _ => None
  end.

Definition updateRow (sel : Selector) (patch : list Assign) (r : Session) : Session :=
  if matches sel r then applyPatch patch r else r.

(** [.from(t).update(patch).<filters>] : [None] is the client's [error]. *)
Definition updateRows (st : Store) (t : string) (sel : Selector)
    (patch : list Assign) : option Store :=
  match st !! t with
  | Some rows => Some (<[t := List.map (updateRow sel patch) rows]> st)
  | None => None
  end.

(** ** Observable effects

    Every call that leaves the process is recorded, in program order. *)

Inductive Role :=
| Student | CurrentMentor | OriginalMentor | SwappedMentor
| OldSwappedMentor | OldMentor | NewMentor | Supermentor.

#[global] Instance Role_eq_dec : EqDecision Role.
Proof. solve_decision. Defined.

(** [sendEmail] resolves to a boolean or rejects. *)
Inductive SendOutcome := Sent (success : bool) | SendThrows.

Inductive Event :=
| EvUpdate (t : string) (sel : Selector) (patch : list Assign)
| EvEmail (who : Role) (to : string) (outcome : SendOutcome)
| EvWhatsApp (who : Role) (to : string) (success : bool)
| EvDeleteMeeting (link : string)
| EvCreateMeeting (subject startDateTime endDateTime : string)
    (attendeeEmails : list string).

Definition isSend (e : Event) : bool :=
  match e with
  | EvEmail _ _ _ | EvWhatsApp _ _ _ => true
  | _ => false
  end.

Definition isUpdate (e : Event) : bool :=
  match e with
  | EvUpdate _ _ _ => true
  | _ => false
  end.


Definition sentTo (who : Role) (e : Event) : bool :=
  match e with
  | EvEmail w _ _ | EvWhatsApp w _ _ => bool_decide (w = who)
  | _ => false
  end.

(** What a handler run leaves behind: the HTTP response, the database
    and the calls it made. *)
Record Outcome (R : Type) := mkOutcome {
  response : R;
  store_after : Store;
  trace : list Event
}.
Arguments mkOutcome {R} _ _ _.
Arguments response {R} _.
Arguments store_after {R} _.
Arguments trace {R} _.

(** ** Session materials: [src/app/api/mentor/session-material/route.ts] *)

Module Material.
Import Js.

(** [materials.split(',').map(link => link.trim()).filter(link => link.length > 0)] *)
Definition parseLinks (materials : string) : list string :=
  filter (fun link => (0 < String.length link)%nat) (trim <$> split "," materials).

(** [session.<column> || ''] *)
Definition orEmpty (column : option string) : string := default "" column.

(** Body of the POST loop: [if (trimmedLink && !allLinks.includes(trimmedLink)) push]. *)
Definition pushNewLink (allLinks : list string) (newLink : string) : list string :=
  let trimmedLink := trim newLink in
  if truthyS trimmedLink && negb (includes allLinks trimmedLink)
  then allLinks ++ [trimmedLink]
  else allLinks.

(** POST, lines 55-61: [allLinks = [...existingLinks]; for (newLink of newLinks) ...]. *)
Definition mergePost (existingLinks newLinks : list string) : list string :=
  fold_left pushNewLink newLinks existingLinks.

(** Body of the GET loop: [if (!allLinks.includes(link)) push]. *)
Definition pushLink (allLinks : list string) (link : string) : list string :=
  if negb (includes allLinks link) then allLinks ++ [link] else allLinks.

(** GET, lines 149-154: [allLinks = [...initialLinks]; for (link of sessionLinks) ...]. *)
Definition mergeGet (initialLinks sessionLinks : list string) : list string :=
  fold_left pushLink sessionLinks initialLinks.

Inductive MaterialColumn := InitialSessionMaterial | SessionMaterial.

Inductive Response :=
| Status400
| Status404
| Status500
| PostOk (materials : string) (linkCount : nat)
| GetOk (materials : string) (links : list string) (linkCount : nat)
    (initialLinks sessionLinks : list string)
| PutOk (deletedFrom : MaterialColumn).

Record PostRequest := mkPostRequest {
  post_tableName : option string;
  post_sessionId : option Z;
  post_date : option string;
  post_time : option string;
  post_newLinks : option (list string);
  post_mentorId : option Z
}.

(** The identifier cascade shared by the read and the write of POST:
    [sessionId], else [date && time], else [date && mentorId]. *)
Definition postSelector (req : PostRequest) : option Selector :=
  match ifTruthyZ (post_sessionId req) with
  | Some sessionId => Some (ById sessionId)
  | None =>
      match ifTruthyS (post_date req), ifTruthyS (post_time req) with
      | Some d, Some t => Some (ByDateTime d t)
      | _, _ =>
          match ifTruthyS (post_date req), ifTruthyZ (post_mentorId req) with
          | Some d, Some mentorId => Some (ByDateMentor d mentorId)
          | _, _ => None
          end
      end
  end.

Definition POST (req : PostRequest) (st : Store) : Outcome Response :=
  match ifTruthyS (post_tableName req), post_newLinks req with
  | Some tableName, Some newLinks =>
      if (List.length newLinks =? 0)%nat then mkOutcome Status400 st []
      else
        match postSelector req with
        | None => mkOutcome Status400 st []
        | Some sel =>
            match single (selectRows st tableName sel) with
            | None => mkOutcome Status404 st []
            | Some session =>
                let existingMaterials := orEmpty (session_material session) in
                let existingLinks := parseLinks existingMaterials in
                let allLinks := mergePost existingLinks newLinks in
                let updatedMaterials := join ", " allLinks in
                let patch := [set_session_material updatedMaterials] in
                match updateRows st tableName sel patch with
                | None => mkOutcome Status500 st [EvUpdate tableName sel patch]
                | Some st' =>
                    mkOutcome (PostOk updatedMaterials (List.length allLinks)) st'
                      [EvUpdate tableName sel patch]
                end
            end
        end
  | _, _ => mkOutcome Status400 st []
  end.

(** GET from line 134 on: the response built from the row that was read. *)
Definition getMaterials (session : Session) : Response :=
  let initialMaterials := orEmpty (initial_session_material session) in
  let initialLinks := parseLinks initialMaterials in
  let sessionMaterials := orEmpty (session_material session) in
  let sessionLinks := parseLinks sessionMaterials in
  let allLinks := mergeGet initialLinks sessionLinks in
  GetOk (join ", " allLinks) allLinks (List.length allLinks) initialLinks sessionLinks.

Record PutRequest := mkPutRequest {
  put_tableName : option string;
  put_date : option string;
  put_time : option string;
  put_linkToDelete : option string
}.

(** Lines 209-225: which column loses the link, and its new value. *)
Definition updateData (session : Session) (linkToDelete : string)
  : option (MaterialColumn * list Assign) :=
  let initialLinks := parseLinks (orEmpty (initial_session_material session)) in
  let sessionLinks := parseLinks (orEmpty (session_material session)) in
  if includes initialLinks linkToDelete then
    let updatedInitialLinks := filter (fun link => link ≠ linkToDelete) initialLinks in
    Some (InitialSessionMaterial,
          [set_initial_session_material (join ", " updatedInitialLinks)])
  else if includes sessionLinks linkToDelete then
    let updatedSessionLinks := filter (fun link => link ≠ linkToDelete) sessionLinks in
    Some (SessionMaterial, [set_session_material (join ", " updatedSessionLinks)])
  else None.

Definition PUT (req : PutRequest) (st : Store) : Outcome Response :=
  match ifTruthyS (put_tableName req), ifTruthyS (put_date req),
        ifTruthyS (put_time req), ifTruthyS (put_linkToDelete req) with
  | Some tableName, Some d, Some t, Some linkToDelete =>
      let sel := ByDateTime d t in
      match single (selectRows st tableName sel) with
      | None => mkOutcome Status404 st []
      | Some session =>
          match updateData session linkToDelete with
          | None => mkOutcome Status404 st []
          | Some (deletedFrom, patch) =>
              match updateRows st tableName sel patch with
              | None => mkOutcome Status500 st [EvUpdate tableName sel patch]
              | Some st' =>
                  mkOutcome (PutOk deletedFrom) st' [EvUpdate tableName sel patch]
              end
          end
      end
  | _, _, _, _ => mkOutcome Status400 st []
  end.

(** "Deduplicated, order-preserving": keep the first occurrence of every
    link.  This is the specification's [dedupe], not code of the route. *)
Fixpoint dedupe (l : list string) : list string :=
  match l with
  | [] => []
  | x :: r => x :: filter (fun y => y ≠ x) (dedupe r)
  end.

End Material.

(** ** Collaborators outside the repository *)

(** A row of ['Mentor Details']. *)
Record MentorRow := mkMentor {
  mentor_row_id : Z;
  mentor_Name : option string;
  mentor_Email_address : option string;
  mentor_Mobile_number : option string
}.

(** A row of [onboarding]. *)
Record StudentRow := mkStudent {
  student_Full_Name : option string;
  student_Email : option string;
  student_Phone_Number : option string
}.

(** A row of [supermentor_details]. *)
Record SupermentorRow := mkSupermentor {
  supermentor_name : option string;
  supermentor_email : option string;
  supermentor_phone_num : option string
}.

(** [createTeamsMeeting] resolves to a join URL or [null], or rejects. *)
Inductive CreateOutcome := JoinUrl (url : string) | NoJoinUrl | CreateThrows.

Record Env := mkEnv {
  (** Graph token; [None] when [getAccessToken] throws *)
  getAccessToken : option string;
  (** [deleteTeamsMeeting(accessToken, meetingLink)]; catches its own errors *)
  deleteTeamsMeeting : string -> string -> bool;
  (** [createTeamsMeeting(accessToken, subject, start, end, attendees)] *)
  createTeamsMeeting : string -> string -> string -> string -> list string -> CreateOutcome;
  (** ['Mentor Details'] by [mentor_id], [.single()] *)
  mentorDetails : Z -> option MentorRow;
  (** [onboarding] by cohort type and number; [None] when [data] is null *)
  onboarding : string -> string -> option (list StudentRow);
  (** [supermentor_details]; [None] when [data] is null *)
  supermentor_details : option (list SupermentorRow);
  (** [rpc('get_schedule_tables')]; [None] on error *)
  get_schedule_tables : option (list string);
  (** the mail provider, per recipient *)
  sendEmail : Role -> string -> SendOutcome;
  (** the chat provider, per recipient; catches its own errors *)
  sendWhatsAppMessage : Role -> string -> bool;
  (** the host's date parser: the time value of [new Date(s)], in
      milliseconds since the epoch; [None] is NaN, an Invalid Date *)
  Date_parse : string -> option Z;
  (** the offset of the process time zone, ECMA-262's [LocalTZA(t, isUTC)] *)
  LocalTZA : Z -> bool -> Z
}.

(** ** The orchestrator: [src/app/api/cohort/session-update/route.ts] *)

Module SessionUpdate.
Import Js.

(** [String(phone).replace(/\D/g, '')] *)
Fixpoint digitsOnly (s : string) : string :=
  match s with
  | EmptyString => EmptyString
  | String c s' => if isDigit c then String c (digitsOnly s') else digitsOnly s'
  end.

Definition formatPhoneForWhatsApp (phone : option string) : option string :=
  match ifTruthyS phone with
  | None => None
  | Some phone =>
      let phoneStr := digitsOnly phone in
      let phoneStr :=
        if (String.length phoneStr =? 10)%nat then "91" +:+ phoneStr else phoneStr in
      if (10 <=? String.length phoneStr)%nat && (String.length phoneStr <=? 15)%nat
      then Some phoneStr
      else None
  end.

Record CohortInfo := mkCohort { type : string; number : string }.

(** [name.match(/^([a-zA-Z]+)(\d+)_(\d+)$/)].  The three classes are
    pairwise disjoint from what follows them, so the greedy match is the
    only one: the longest letter run, the longest digit run, an
    underscore, and digits up to the end. *)
Definition matchCohort (name : string) : option (string * string * string) :=
  let '(typeRaw, rest1) := span isLetter name in
  let '(major, rest2) := span isDigit rest1 in
  match rest2 with
  | String "_" rest3 =>
      let '(minor, rest4) := span isDigit rest3 in
      if truthyS typeRaw && truthyS major && truthyS minor && negb (truthyS rest4)
      then Some (typeRaw, major, minor)
      else None
  | _ => None
  end.

Definition parseCohortFromTableName (tableName : string) : option CohortInfo :=
  let name := removeFirst "_schedule" tableName in
  match matchCohort name with
  | None => None
  | Some (typeRaw, major, minor) =>
      Some (mkCohort (capitalize typeRaw) (major +:+ "." +:+ minor))
  end.

(** *** The meeting window (lines 1272-1295 and 1361-1380)

    The end of the window comes out of a [Date]: time values are
    milliseconds since the epoch, [None] for NaN; parser and time zone
    are the host's. *)

Definition digitChar (n : Z) : ascii := ascii_of_N (Z.to_N (48 + n)).

(** two decimal digits, as [toTimeString] prints hours, minutes, seconds *)
Definition pad2 (n : Z) : string :=
  String (digitChar (n / 10)) (String (digitChar (n mod 10)) EmptyString).

(** [effectiveDate.split('T')[0]] when the string contains a ['T'] *)
Definition dateOnly (d : string) : string :=
  if containsChar "T" d
  then match split "T" d with h :: _ => h | [] => d end
  else d.

(** ECMA-262, 21.4.1: time values and their abstract operations *)
Definition msPerDay : Z := 86400000.
Definition msPerHour : Z := 3600000.
Definition msPerMinute : Z := 60000.
Definition msPerSecond : Z := 1000.

Definition Day (t : Z) : Z := t / msPerDay.
Definition HourFromTime (t : Z) : Z := (t / msPerHour) mod 24.
Definition MinFromTime (t : Z) : Z := (t / msPerMinute) mod 60.
Definition SecFromTime (t : Z) : Z := (t / msPerSecond) mod 60.
Definition msFromTime (t : Z) : Z := t mod msPerSecond.

Definition MakeTime (hour min sec ms : Z) : Z :=
  hour * msPerHour + min * msPerMinute + sec * msPerSecond + ms.

Definition MakeDate (day time : Z) : Z := day * msPerDay + time.

Definition TimeClip (time : Z) : option Z :=
  if Z.abs time <=? 8640000000000000 then Some time else None.

Record MeetingWindow := mkWindow {
  effectiveDate : string;
  effectiveTime : string;
  startDateTime : string;
  endDateTime : string
}.

Section HostDate.
Variable env : Env.

Definition LocalTime (t : Z) : Z := t + LocalTZA env t true.

Definition UTC (t : Z) : Z := t - LocalTZA env t false.

(** [startDate.getMinutes()] *)
Definition getMinutes (startDate : option Z) : option Z :=
  (fun t => MinFromTime (LocalTime t)) <$> startDate.

(** [startDate.setMinutes(min)]: the time value the Date then holds *)
Definition setMinutes (startDate min : option Z) : option Z :=
  match startDate, min with
  | Some t, Some m =>
      let t := LocalTime t in
      let date :=
        MakeDate (Day t) (MakeTime (HourFromTime t) m (SecFromTime t) (msFromTime t)) in
      TimeClip (UTC date)
  | _, _ => None
  end.

(** [startDate.toTimeString().slice(0, 8)]: the local clock reading
    [HH:MM:SS], or the first eight characters of ["Invalid Date"] *)
Definition toTimeString8 (startDate : option Z) : string :=
  match startDate with
  | Some tv =>
      let t := LocalTime tv in
      pad2 (HourFromTime t) +:+ ":" +:+ pad2 (MinFromTime t) +:+ ":"
        +:+ pad2 (SecFromTime t)
  | None => "Invalid "
  end.

(** Lines 1293-1295: [new Date(startDateTime)], then
    [setMinutes(getMinutes() + delta)], then [toTimeString().slice(0, 8)].
    The day the Date has moved to is dropped by the slice. *)
Definition timeStringAfter (startDateTime : string) (delta : Z) : string :=
  let startDate := Date_parse env startDateTime in
  let startDate :=
    setMinutes startDate ((fun minutes => minutes + delta) <$> getMinutes startDate) in
  toTimeString8 startDate.

(** [startDateTime] and [endDateTime] from a date and a time value *)
Definition meetingWindow (dateValue timeValue : string) : MeetingWindow :=
  let effectiveDate := dateOnly dateValue in
  let effectiveTime := substring0 5 timeValue in
  let startDateTime := effectiveDate +:+ "T" +:+ effectiveTime +:+ ":00" in
  let endDateTime := effectiveDate +:+ "T" +:+ timeStringAfter startDateTime 90 in
  mkWindow effectiveDate effectiveTime startDateTime endDateTime.

End HostDate.

(** *** [sendUpdateNotifications] *)

Inductive UpdateType := reschedule | mentor_removed | mentor_assigned | details_updated.

Record WhatsappCounts := mkWa {
  wa_students : nat;
  wa_mentor : bool;
  wa_supermentors : nat
}.

Record NotificationResult := mkResult {
  studentsSent : nat;
  mentorSent : bool;
  supermentorsSent : nat;
  whatsappSent : WhatsappCounts;
  oldMentorNotified : bool;
  newMentorNotified : bool;
  originalMentorNotified : bool;
  swappedMentorNotified : bool
}.

Definition emptyResult : NotificationResult :=
  mkResult 0 false 0 (mkWa 0 false 0) false false false false.

(** the fields a send can write *)
Inductive ResultField :=
| f_studentsSent | f_mentorSent | f_supermentorsSent
| f_wa_students | f_wa_mentor | f_wa_supermentors
| f_oldMentorNotified | f_newMentorNotified
| f_originalMentorNotified | f_swappedMentorNotified
| f_none.

(** [if (success) result.f++] for counters, [result.f = success] for flags *)
Definition record (f : ResultField) (success : bool) (r : NotificationResult)
  : NotificationResult :=
  let bump (n : nat) := if success then S n else n in
  let wa := whatsappSent r in
  match f with
  | f_studentsSent =>
      mkResult (bump (studentsSent r)) (mentorSent r) (supermentorsSent r) wa
        (oldMentorNotified r) (newMentorNotified r) (originalMentorNotified r)
        (swappedMentorNotified r)
  | f_mentorSent =>
      mkResult (studentsSent r) success (supermentorsSent r) wa
        (oldMentorNotified r) (newMentorNotified r) (originalMentorNotified r)
        (swappedMentorNotified r)
  | f_supermentorsSent =>
      mkResult (studentsSent r) (mentorSent r) (bump (supermentorsSent r)) wa
        (oldMentorNotified r) (newMentorNotified r) (originalMentorNotified r)
        (swappedMentorNotified r)
  | f_wa_students =>
      mkResult (studentsSent r) (mentorSent r) (supermentorsSent r)
        (mkWa (bump (wa_students wa)) (wa_mentor wa) (wa_supermentors wa))
        (oldMentorNotified r) (newMentorNotified r) (originalMentorNotified r)
        (swappedMentorNotified r)
  | f_wa_mentor =>
      mkResult (studentsSent r) (mentorSent r) (supermentorsSent r)
        (mkWa (wa_students wa) success (wa_supermentors wa))
        (oldMentorNotified r) (newMentorNotified r) (originalMentorNotified r)
        (swappedMentorNotified r)
  | f_wa_supermentors =>
      mkResult (studentsSent r) (mentorSent r) (supermentorsSent r)
        (mkWa (wa_students wa) (wa_mentor wa) (bump (wa_supermentors wa)))
        (oldMentorNotified r) (newMentorNotified r) (originalMentorNotified r)
        (swappedMentorNotified r)
  | f_oldMentorNotified =>
      mkResult (studentsSent r) (mentorSent r) (supermentorsSent r) wa
        success (newMentorNotified r) (originalMentorNotified r)
        (swappedMentorNotified r)
  | f_newMentorNotified =>
      mkResult (studentsSent r) (mentorSent r) (supermentorsSent r) wa
        (oldMentorNotified r) success (originalMentorNotified r)
        (swappedMentorNotified r)
  | f_originalMentorNotified =>
      mkResult (studentsSent r) (mentorSent r) (supermentorsSent r) wa
        (oldMentorNotified r) (newMentorNotified r) success
        (swappedMentorNotified r)
  | f_swappedMentorNotified =>
      mkResult (studentsSent r) (mentorSent r) (supermentorsSent r) wa
        (oldMentorNotified r) (newMentorNotified r) (originalMentorNotified r)
        success
  | f_none => r
  end.

(** A step of the dispatcher: it updates the running result and emits
    the calls it made. *)
Definition Step := NotificationResult -> NotificationResult * list Event.

Definition skip : Step := fun r => (r, []).

Definition andThen (a b : Step) : Step :=
  fun r =>
    let '(r1, e1) := a r in
    let '(r2, e2) := b r1 in
    (r2, (e1 ++ e2)%list).

Notation "a >=> b" := (andThen a b) (at level 62, right associativity).

Definition forEach {A} (f : A -> Step) (l : list A) : Step :=
  fold_right (fun x k => f x >=> k) skip l.

Section Dispatch.
Variable env : Env.

(** [try { success = await sendEmailWithDelay(..); <record> } catch { log }] *)
Definition tryEmail (who : Role) (to : string) (f : ResultField) : Step :=
  fun r =>
    let outcome := sendEmail env who to in
    (match outcome with
     | Sent success => record f success r
     | SendThrows => r
     end, [EvEmail who to outcome]).

(** [try { success = await sendWhatsAppWithDelay(..); <record> } catch { log }] *)
Definition tryWhatsApp (who : Role) (to : string) (f : ResultField) : Step :=
  fun r =>
    let success := sendWhatsAppMessage env who to in
    (record f success r, [EvWhatsApp who to success]).

(** [if (phone) { try whatsapp }] after [formatPhoneForWhatsApp] *)
Definition whatsAppIfPhone (who : Role) (rawPhone : option string) (f : ResultField) : Step :=
  match formatPhoneForWhatsApp rawPhone with
  | Some phone => tryWhatsApp who phone f
  | None => skip
  end.

(** One mentor block: [if (m && m['Email address']) { email; whatsapp }] *)
Definition notifyMentor (who : Role) (m : option MentorRow)
    (emailField waField : ResultField) : Step :=
  match m with
  | Some row =>
      match ifTruthyS (mentor_Email_address row) with
      | Some address =>
          tryEmail who address emailField >=>
          whatsAppIfPhone who (mentor_Mobile_number row) waField
      | None => skip
      end
  | None => skip
  end.

Definition notifyStudent (student : StudentRow) : Step :=
  (match ifTruthyS (student_Email student) with
   | Some email => tryEmail Student email f_studentsSent
   | None => skip
   end) >=>
  whatsAppIfPhone Student (student_Phone_Number student) f_wa_students.

Definition notifySupermentor (supermentor : SupermentorRow) : Step :=
  (match ifTruthyS (supermentor_email supermentor) with
   | Some email => tryEmail Supermentor email f_supermentorsSent
   | None => skip
   end) >=>
  whatsAppIfPhone Supermentor (supermentor_phone_num supermentor) f_wa_supermentors.

(** The call parameters.  The dates, times and the new link only fill the
    message templates; they are kept to mirror the call site. *)
Record Params := mkParams {
  p_tableName : string;
  p_session : Session;
  p_oldDate : string;
  p_oldTime : string;
  p_newDate : string;
  p_newTime : string;
  p_updateType : UpdateType;
  p_oldMentorId : option Z;
  p_newMentorId : option Z;
  p_newMeetingLink : option string;
  p_changedField : option string
}.

(** [updateType === 'reschedule' || updateType === 'details_updated'] *)
Definition forStudents (updateType : UpdateType) : bool :=
  match updateType with
  | reschedule | details_updated => true
  | mentor_removed | mentor_assigned => false
  end.

(** [if (idIsTruthy && guard) lookup else null] *)
Definition lookupMentor (guard : bool) (mentorId : option Z) : option MentorRow :=
  if guard then
    match ifTruthyZ mentorId with
    | Some i => mentorDetails env i
    | None => None
    end
  else None.

Definition sendUpdateNotifications (params : Params)
  : NotificationResult * list Event :=
  let session := p_session params in
  let updateType := p_updateType params in
  let oldMentorId := p_oldMentorId params in
  let newMentorId := p_newMentorId params in
  let isSwapChange := bool_decide (p_changedField params = Some "swapped_mentor_id") in
  match parseCohortFromTableName (p_tableName params) with
  | None => (emptyResult, [])
  | Some cohortInfo =>
      let students := onboarding env (type cohortInfo) (number cohortInfo) in
      let effectiveMentorId := nullish (swapped_mentor_id session) (mentor_id session) in
      let currentMentor := lookupMentor true effectiveMentorId in
      let originalMentor := lookupMentor isSwapChange (mentor_id session) in
      let swappedMentor := lookupMentor isSwapChange newMentorId in
      let oldSwappedMentor := lookupMentor isSwapChange oldMentorId in
      let oldMentor :=
        lookupMentor (bool_decide (oldMentorId ≠ effectiveMentorId) && negb isSwapChange)
          oldMentorId in
      let newMentor :=
        lookupMentor
          (bool_decide (newMentorId ≠ orZ oldMentorId (mentor_id session))
           && negb isSwapChange)
          newMentorId in
      let supermentors := supermentor_details env in
      ((* 1. students *)
       (match students with
        | Some students =>
            if (0 <? List.length students)%nat && forStudents updateType
            then forEach notifyStudent students
            else skip
        | None => skip
        end) >=>
       (* 2. swap notifications, or the current mentor *)
       (if isSwapChange then
          notifyMentor OriginalMentor originalMentor f_originalMentorNotified f_none >=>
          notifyMentor SwappedMentor swappedMentor f_swappedMentorNotified f_none >=>
          (if bool_decide (mentor_row_id <$> oldSwappedMentor ≠ mentor_row_id <$> swappedMentor)
           then notifyMentor OldSwappedMentor oldSwappedMentor f_none f_none
           else skip)
        else notifyMentor CurrentMentor currentMentor f_mentorSent f_wa_mentor) >=>
       (* 3. old mentor, 4. new mentor *)
       notifyMentor OldMentor oldMentor f_oldMentorNotified f_none >=>
       notifyMentor NewMentor newMentor f_newMentorNotified f_none >=>
       (* 5. supermentors *)
       (match supermentors with
        | Some supermentors => forEach notifySupermentor supermentors
        | None => skip
        end)) emptyResult
  end.

End Dispatch.

(** *** The [POST] handler

    With typed request fields nothing escapes the inner [try] blocks, so
    the outer [catch] (status 500) is never reached and has no
    constructor in [Response]. *)

Record Request := mkRequest {
  tableName : option string;
  sessionId : option Z;
  oldDate : option string;
  oldTime : option string;
  newDate : option string;
  newTime : option string;
  skipMeetingRegeneration : bool;
  changedField : option string;
  oldValue : option Z;
  newValue : option Z;
  oldMentorId : option Z;
  newMentorId : option Z;
  oldSessionType : option string;
  newSessionType : option string;
  isNewSession : bool
}.

Record Results := mkResults {
  meetingDeleted : bool;
  meetingCreated : bool;
  newMeetingLink : option string;
  meetingLinkCleared : bool;
  notificationsSent : NotificationResult
}.

Inductive Response :=
| Status400
| Status404
| Status200 (results : Results).

(** [v && v.toLowerCase() === 'contest'] *)
Definition isContestType (v : option string) : bool :=
  match ifTruthyS v with
  | Some s => String.eqb (toLowerCase s) "contest"
  | None => false
  end.

Definition isField (req : Request) (name : string) : bool :=
  bool_decide (changedField req = Some name).

Definition mentorChanged (req : Request) : bool :=
  isField req "mentor_id" || isField req "swapped_mentor_id".

Definition effectiveOldMentorId (req : Request) : option Z :=
  orZ (oldMentorId req) (if mentorChanged req then oldValue req else None).

Definition effectiveNewMentorId (req : Request) : option Z :=
  orZ (newMentorId req) (if mentorChanged req then newValue req else None).

(** [a || b] where [b] is never null *)
Definition orElse (a : option string) (b : string) : string :=
  default b (ifTruthyS a).

Section Handler.
Variable env : Env.

(** the meeting subject line *)
Definition meetingSubject (cohortInfo : option CohortInfo) (session : Session) : string :=
  match cohortInfo with
  | Some c =>
      "Cohort " +:+ type c +:+ " " +:+ number c +:+ " - "
        +:+ orElse (subject_name session) "Session"
  | None => "Cohort - " +:+ orElse (subject_name session) "Session"
  end.

(** the attendee list: the effective mentor's address, then the students' *)
Definition attendeeEmails (cohortInfo : option CohortInfo) (session : Session)
  : list string :=
  let mentorId := orZ (swapped_mentor_id session) (mentor_id session) in
  let mentorPart :=
    match ifTruthyZ mentorId with
    | Some i =>
        match mentorDetails env i with
        | Some mentor =>
            match ifTruthyS (mentor_Email_address mentor) with
            | Some address => [address]
            | None => []
            end
        | None => []
        end
    | None => []
    end in
  let studentPart :=
    match cohortInfo with
    | Some c =>
        match onboarding env (type c) (number c) with
        | Some students => omap (fun s => ifTruthyS (student_Email s)) students
        | None => []
        end
    | None => []
    end in
  (mentorPart ++ studentPart)%list.

(** What step 1 hands on: the four [results] fields, the database and
    the calls made. *)
Record MeetingStep := mkMeetingStep {
  ms_deleted : bool;
  ms_created : bool;
  ms_newLink : option string;
  ms_cleared : bool;
  ms_store : Store;
  ms_events : list Event
}.

Definition noMeetingAction (st : Store) : MeetingStep :=
  mkMeetingStep false false None false st [].

(** An update whose error is not inspected: on error the rows stay. *)
Definition updateIgnoringError (st : Store) (t : string) (sel : Selector)
    (patch : list Assign) : Store :=
  default st (updateRows st t sel patch).

(** [createTeamsMeeting(..)] and, when it yields a link, the write of
    [teams_meeting_link]; shared by the two creating branches. *)
Definition createAndStore (st : Store) (t : string) (i : Z) (session : Session)
    (accessToken : string) (w : MeetingWindow) (deleted : bool)
    (before : list Event) : MeetingStep :=
  let cohortInfo := parseCohortFromTableName t in
  let subject := meetingSubject cohortInfo session in
  let attendees := attendeeEmails cohortInfo session in
  let call := EvCreateMeeting subject (startDateTime w) (endDateTime w) attendees in
  match createTeamsMeeting env accessToken subject (startDateTime w) (endDateTime w)
          attendees with
  | JoinUrl newLink =>
      if truthyS newLink then
        let patch := [set_teams_meeting_link (Some newLink)] in
        mkMeetingStep deleted true (Some newLink) false
          (updateIgnoringError st t (ById i) patch)
          (before ++ [call; EvUpdate t (ById i) patch])
      else mkMeetingStep deleted false None false st (before ++ [call])
  | NoJoinUrl | CreateThrows =>
      mkMeetingStep deleted false None false st (before ++ [call])
  end.

(** Step 1: the meeting link. *)
Definition handleMeeting (req : Request) (t : string) (i : Z) (session : Session)
    (st : Store) : MeetingStep :=
  let currentIsContest := isContestType (session_type session) in
  let changedToContest := isContestType (newSessionType req) in
  let isContest := currentIsContest || changedToContest in
  if isContest then
    match ifTruthyS (teams_meeting_link session) with
    | Some link =>
        if changedToContest then
          match getAccessToken env with
          | Some accessToken =>
              let deleted := deleteTeamsMeeting env accessToken link in
              let patch := [set_teams_meeting_link None] in
              mkMeetingStep deleted false None true
                (updateIgnoringError st t (ById i) patch)
                [EvDeleteMeeting link; EvUpdate t (ById i) patch]
          | None => noMeetingAction st
          end
        else noMeetingAction st
    | None => noMeetingAction st
    end
  else
    match ifTruthyS (teams_meeting_link session) with
    | Some link =>
        if negb (skipMeetingRegeneration req) then
          match getAccessToken env with
          | Some accessToken =>
              let deleted := deleteTeamsMeeting env accessToken link in
              let w := meetingWindow env (orElse (newDate req) (date session))
                         (orElse (orS (newTime req) (time session)) "19:00") in
              createAndStore st t i session accessToken w deleted [EvDeleteMeeting link]
          | None => noMeetingAction st
          end
        else noMeetingAction st
    | None =>
        if isNewSession req then
          match getAccessToken env with
          | Some accessToken =>
              let w := meetingWindow env (date session) (orElse (time session) "19:00") in
              createAndStore st t i session accessToken w false []
          | None => noMeetingAction st
          end
        else noMeetingAction st
    end.

(** Step 2, first half: the message variant. *)
Definition updateTypeOf (req : Request) : UpdateType :=
  if isField req "date" || isField req "time" then reschedule
  else if isField req "mentor_id" || isField req "swapped_mentor_id" then details_updated
  else if isField req "subject_name" || isField req "session_type"
          || isField req "subject_topic" then details_updated
  else reschedule.

(** [isSwapChange || session.email_sent === true || session.whatsapp_sent === true] *)
Definition shouldSendNotifications (req : Request) (session : Session) : bool :=
  isField req "swapped_mentor_id"
  || bool_decide (email_sent session = Some true)
  || bool_decide (whatsapp_sent session = Some true).

Definition notificationParams (req : Request) (t : string) (session : Session)
    (link : option string) : Params :=
  mkParams t session
    (orElse (oldDate req) (date session))
    (orElse (orS (oldTime req) (time session)) "19:00")
    (orElse (newDate req) (date session))
    (orElse (orS (newTime req) (time session)) "19:00")
    (updateTypeOf req)
    (effectiveOldMentorId req) (effectiveNewMentorId req)
    link (changedField req).

(** Step 3: [if (email_sent === true || whatsapp_sent === true) update flags]. *)
Definition flagsWereSet (session : Session) : bool :=
  bool_decide (email_sent session = Some true)
  || bool_decide (whatsapp_sent session = Some true).

Definition resetPatch : list Assign := [set_email_sent false; set_whatsapp_sent false].

(** Step 2, second half: dispatch behind the gate. *)
Definition dispatch (req : Request) (t : string) (session : Session)
    (link : option string) : NotificationResult * list Event :=
  if shouldSendNotifications req session
  then sendUpdateNotifications env (notificationParams req t session link)
  else (emptyResult, []).

Definition resetFlags (t : string) (i : Z) (session : Session) (st : Store)
  : Store * list Event :=
  if flagsWereSet session
  then (updateIgnoringError st t (ById i) resetPatch, [EvUpdate t (ById i) resetPatch])
  else (st, []).

Definition POST (req : Request) (st : Store) : Outcome Response :=
  match ifTruthyS (tableName req), ifTruthyZ (sessionId req) with
  | Some t, Some i =>
      match single (selectRows st t (ById i)) with
      | None => mkOutcome Status404 st []
      | Some session =>
          (* Step 1 *)
          let ms := handleMeeting req t i session st in
          (* Step 2 *)
          let sent := dispatch req t session (ms_newLink ms) in
          (* Step 3 *)
          let reset := resetFlags t i session (ms_store ms) in
          mkOutcome
            (Status200 (mkResults (ms_deleted ms) (ms_created ms) (ms_newLink ms)
                          (ms_cleared ms) sent.1))
            reset.1
            (ms_events ms ++ sent.2 ++ reset.2)
      end
  | _, _ => mkOutcome Status400 st []
  end.

End Handler.

End SessionUpdate.

(** ** The swap-mentor handler with the conflict scan *)

Module SwapMentor.
Import Js.

Record Request := mkRequest {
  tableName : option string;
  sessionId : option Z;
  swappedMentorId : option Z;
  swappedByName : option string
}.

Record ConflictDetails := mkConflict {
  conflict_tableName : string;
  conflict_batchName : string;
  conflict_subjectName : string
}.

Inductive Response :=
| Status400
| Status404
| Status409 (conflictDetails : list ConflictDetails)
| Status500
| Status200 (swapped : bool) (newMeetingLink : option string)
    (notifications : option SessionUpdate.NotificationResult).

(** [checkTableName.match(/^([a-zA-Z]+)(\d+)_(\d+)_schedule$/)] *)
Definition matchBatch (checkTableName : string) : option (string * string * string) :=
  let '(letters, rest1) := span isLetter checkTableName in
  let '(major, rest2) := span isDigit rest1 in
  match rest2 with
  | String "_" rest3 =>
      let '(minor, rest4) := span isDigit rest3 in
      if truthyS letters && truthyS major && truthyS minor
         && String.eqb rest4 "_schedule"
      then Some (letters, major, minor)
      else None
  | _ => None
  end.

Definition batchNameOf (checkTableName : string) : string :=
  match matchBatch checkTableName with
  | Some (letters, major, minor) =>
      capitalize letters +:+ " " +:+ major +:+ "." +:+ minor
  | None => removeFirst "_schedule" checkTableName
  end.

(** line 69: the row is the session being swapped *)
Definition isSameSession (checkTableName tableName : string) (sessionId : Z)
    (conflict : Session) : bool :=
  bool_decide (checkTableName = tableName) && bool_decide (id conflict = sessionId).

(** lines 73-79: the candidate is committed to this row *)
Definition isBusy (swappedMentorId : Z) (conflict : Session) : bool :=
  let isOriginalMentor := bool_decide (mentor_id conflict = Some swappedMentorId) in
  let isSwappedMentor := bool_decide (swapped_mentor_id conflict = Some swappedMentorId) in
  let isSwappedAway :=
    isOriginalMentor && bool_decide (swapped_mentor_id conflict ≠ None) in
  (isOriginalMentor && negb isSwappedAway) || isSwappedMentor.

(** one turn of the inner loop: [continue] on the session itself,
    otherwise report the row when the candidate is busy in it *)
Definition isConflict (checkTableName tableName : string) (sessionId : Z)
    (swappedMentorId : Z) (conflict : Session) : bool :=
  if isSameSession checkTableName tableName sessionId conflict then false
  else isBusy swappedMentorId conflict.

(** the inner loop returns at the first such row *)
Definition firstConflict (checkTableName tableName : string) (sessionId : Z)
    (swappedMentorId : Z) (conflicts : list Session) : option Session :=
  List.find (isConflict checkTableName tableName sessionId swappedMentorId) conflicts.

Definition conflictDetailsOf (checkTableName : string) (conflict : Session)
  : ConflictDetails :=
  mkConflict checkTableName (batchNameOf checkTableName)
    (SessionUpdate.orElse (subject_name conflict) "Session").

(** the rows of one table at the session's date and time; [None] is a
    query error, after which the table is skipped *)
Definition rowsAt (st : Store) (checkTableName sessionDate : string)
    (sessionTime : option string) : option (list Session) :=
  match sessionTime with
  | Some sessionTime => selectRows st checkTableName (ByDateTime sessionDate sessionTime)
  | None => None
  end.

(** the outer loop over the schedule tables, in registry order *)
Fixpoint scanTables (st : Store) (tableName : string) (sessionId : Z)
    (session : Session) (swappedMentorId : Z) (tables : list string)
  : option ConflictDetails :=
  match tables with
  | [] => None
  | checkTableName :: rest =>
      match rowsAt st checkTableName (date session) (time session) with
      | None => scanTables st tableName sessionId session swappedMentorId rest
      | Some conflicts =>
          match firstConflict checkTableName tableName sessionId swappedMentorId
                  conflicts with
          | Some conflict => Some (conflictDetailsOf checkTableName conflict)
          | None => scanTables st tableName sessionId session swappedMentorId rest
          end
      end
  end.

Section Handler.
Variable env : Env.

(** lines 39-106: the Conflict Detector *)
Definition checkConflicts (st : Store) (tableName : string) (sessionId : Z)
    (session : Session) (swappedMentorId : option Z) : option ConflictDetails :=
  match ifTruthyZ swappedMentorId with
  | Some candidate =>
      match get_schedule_tables env with
      | Some tables => scanTables st tableName sessionId session candidate tables
      | None => None
      end
  | None => None
  end.

(** the body of the request sent to [/api/cohort/session-update] *)
Definition sessionUpdateRequest (t : string) (i : Z) (session : Session)
    (candidate : Z) : SessionUpdate.Request :=
  let oldSwappedMentorId := swapped_mentor_id session in
  SessionUpdate.mkRequest (Some t) (Some i)
    (Some (date session)) (time session) (Some (date session)) (time session)
    (negb (truthyOS (teams_meeting_link session)))
    (Some "swapped_mentor_id") None None
    (orZ oldSwappedMentorId (mentor_id session)) (Some candidate)
    None None false.

(** The handler.  Its request to [/api/cohort/session-update] is
    modelled as a call of that handler on the database as it then is; an
    answer other than 200 is logged and the swap still succeeds. *)
Definition POST (req : Request) (st : Store) : Outcome Response :=
  match ifTruthyS (tableName req), ifTruthyZ (sessionId req) with
  | Some t, Some i =>
      match single (selectRows st t (ById i)) with
      | None => mkOutcome Status404 st []
      | Some session =>
          match checkConflicts st t i session (swappedMentorId req) with
          | Some details => mkOutcome (Status409 [details]) st []
          | None =>
              (* Step 1 *)
              let patch := [set_swapped_mentor_id (ifTruthyZ (swappedMentorId req))] in
              match updateRows st t (ById i) patch with
              | None => mkOutcome Status500 st [EvUpdate t (ById i) patch]
              | Some st1 =>
                  (* Step 2 *)
                  match ifTruthyZ (swappedMentorId req) with
                  | Some candidate =>
                      let sub :=
                        SessionUpdate.POST env
                          (sessionUpdateRequest t i session candidate) st1 in
                      match response sub with
                      | SessionUpdate.Status200 results =>
                          mkOutcome
                            (Status200 true (SessionUpdate.newMeetingLink results)
                               (Some (SessionUpdate.notificationsSent results)))
                            (store_after sub)
                            (EvUpdate t (ById i) patch :: trace sub)
                      | _ =>
                          mkOutcome (Status200 true None None) (store_after sub)
                            (EvUpdate t (ById i) patch :: trace sub)
                      end
                  | None =>
                      mkOutcome (Status200 false None None) st1
                        [EvUpdate t (ById i) patch]
                  end
              end
          end
      end
  | _, _ => mkOutcome Status400 st []
  end.

End Handler.

End SwapMentor.

(** ** The earlier swap-mentor handler: its meeting window *)

Module SwapLegacy.

(** [const sessionDuration = 60 // 1 hour default] *)
Definition sessionDuration : Z := 60.

(** [new Date(new Date(startDateTime).getTime() + sessionDuration * 60000)]:
    the end instant in epoch milliseconds, from the start instant. *)
Definition endTime (startTime : Z) : Z := startTime + sessionDuration * 60000.

(** This handler's own [formatPhoneForWhatsApp] (lines 9-29): ten digits
    get the prefix 91, a leading 0 is replaced by 91, a leading [+] is
    dropped; the length must then lie between 10 and 15. *)
Definition formatPhoneForWhatsApp (phone : option string) : option string :=
  match Js.ifTruthyS phone with
  | None => None
  | Some phone =>
      let cleaned := SessionUpdate.digitsOnly phone in
      let cleaned :=
        if (String.length cleaned =? 10)%nat then "91" +:+ cleaned
        else match Js.stripPrefix "0" cleaned with
             | Some rest => "91" +:+ rest
             | None =>
                 match Js.stripPrefix "+" cleaned with
                 | Some rest => rest
                 | None => cleaned
                 end
             end in
      if (String.length cleaned <? 10)%nat || (15 <? String.length cleaned)%nat
      then None
      else Some cleaned
  end.

(** [emailAlreadySent || whatsappAlreadySent] *)
Definition shouldSendNotifications (session : Session) : bool :=
  bool_decide (email_sent session = Some true)
  || bool_decide (whatsapp_sent session = Some true).

(** The condition around all of this handler's notifications, those to
    the students included:
    [if (swappedMentorId && newMentor && shouldSendNotifications)]. *)
Definition notifies (swappedMentorId : option Z) (newMentor : option MentorRow)
    (session : Session) : bool :=
  Js.truthyOZ swappedMentorId
  && bool_decide (is_Some newMentor)
  && shouldSendNotifications session.

End SwapLegacy.

(** ** Auxiliary predicates and sample inputs *)

Section Auxiliary.
Import Js.

(** a string that does not begin with white space *)
Definition startsClean (s : string) : Prop :=
  match s with
  | EmptyString => True
  | String c _ => isWhiteSpace c = false
  end.

(** What every parsed link looks like: no comma, nothing to trim, not empty. *)
Definition linkOk (link : string) : Prop :=
  containsChar "," link = false /\ trim link = link /\ link <> EmptyString.

(** The specification's busy rule, in its own words: the row's mentor is
    the candidate and nobody covers the row, or the candidate covers it. *)
Definition busyRule (candidate : Z) (row : Session) : Prop :=
  (mentor_id row = Some candidate /\ swapped_mentor_id row = None)
  \/ swapped_mentor_id row = Some candidate.

(** the candidate is committed, in a table the registry lists, to a row
    at the session's date and time that is not the session itself *)
Definition busyElsewhere (env : Env) (st : Store) (tableName : string)
    (sessionId : Z) (session : Session) (candidate : Z) : Prop :=
  exists tables checkTableName rows sessionTime row,
    get_schedule_tables env = Some tables
    /\ checkTableName ∈ tables
    /\ st !! checkTableName = Some rows
    /\ time session = Some sessionTime
    /\ row ∈ rows
    /\ date row = date session
    /\ time row = Some sessionTime
    /\ ~ (checkTableName = tableName /\ id row = sessionId)
    /\ busyRule candidate row.

(** an update that writes a notification flag *)
Definition writesFlags (e : Event) : bool :=
  match e with
  | EvUpdate _ _ patch =>
      existsb (fun a => match a with
                        | set_email_sent _ | set_whatsapp_sent _ => true
                        | _ => false
                        end) patch
  | _ => false
  end.

(** a dispatcher step whose calls are all sends *)
Definition onlySends (step : SessionUpdate.Step) : Prop :=
  forall r, Forall (fun e => isSend e = true) (step r).2.

(** a call step 1 can make: meeting deletion, meeting creation, or a
    write of the meeting link alone *)
Definition isMeetingEvent (e : Event) : Prop :=
  match e with
  | EvDeleteMeeting _ | EvCreateMeeting _ _ _ _ => True
  | EvUpdate _ _ [set_teams_meeting_link _] => True
  | _ => False
  end.

(** the row is the old one, or the old one with a new meeting link *)
Definition linkRewritten (session s1 : Session) : Prop :=
  s1 = session \/ exists v, s1 = assign (set_teams_meeting_link v) session.

End Auxiliary.

(** ** Reading a meeting window

    Not code of the route: the terms in which the length of a window
    and the behaviour of the host are stated. *)

Section WindowMeasure.
Import Js SessionUpdate.

Definition digitValue (c : ascii) : option Z :=
  if isDigit c then Some (Z.of_N (N_of_ascii c) - 48) else None.

(** The minute of the day that a reading [HH:MM] spells: two digits
    each, up to [23:59], or [24:00]. *)
Definition minuteOfDay (hhmm : string) : option Z :=
  match hhmm with
  | String h1 (String h2 (String colon (String m1 (String m2 EmptyString)))) =>
      match digitValue h1, digitValue h2, digitValue m1, digitValue m2 with
      | Some a, Some b, Some c, Some d =>
          let h := 10 * a + b in
          let m := 10 * c + d in
          if Ascii.eqb colon ":"
             && (((h <=? 23) && (m <=? 59)) || ((h =? 24) && (m =? 0)))
          then Some (60 * h + m)
          else None
      | _, _, _, _ => None
      end
  | _ => None
  end.

Fixpoint dropChars (n : nat) (s : string) : string :=
  match n, s with
  | O, _ => s
  | S _, EmptyString => EmptyString
  | S n', String _ s' => dropChars n' s'
  end.

(** the minute of the day that a reading [HH:MM:00] spells *)
Definition clockMinute (clock : string) : option Z :=
  if String.eqb (dropChars 5 clock) ":00" then minuteOfDay (substring0 5 clock)
  else None.

(** Minutes from the start to the end of a window, as its two datetimes
    spell them: both are read after the window's date and ['T'], as
    clock readings of that one day.  The calendar event takes the two
    strings as they are, in one fixed zone (lines 358-365). *)
Definition windowMinutes (w : MeetingWindow) : option Z :=
  match stripPrefix (effectiveDate w +:+ "T") (startDateTime w),
        stripPrefix (effectiveDate w +:+ "T") (endDateTime w) with
  | Some startClock, Some endClock =>
      match clockMinute startClock, clockMinute endClock with
      | Some s, Some e => Some (e - s)
      | _, _ => None
      end
  | _, _ => None
  end.

(** [new Date(s)] is the moment at which the local time value is
    [local] *)
Definition readsAs (env : Env) (s : string) (local : Z) : Prop :=
  Date_parse env s = Some (UTC env local)
  /\ LocalTime env (UTC env local) = local.

(** the local time value [local] exists in the zone (it does not fall
    into a gap of the offset) and lies in the range of a Date *)
Definition steadyAt (env : Env) (local : Z) : Prop :=
  LocalTime env (UTC env local) = local
  /\ Z.abs (UTC env local) <= 8640000000000000.

End WindowMeasure.

Module Samples.
Import Material.

Definition asha : MentorRow :=
  mkMentor 7 (Some "Asha") (Some "asha@example.org") (Some "98765 43210").

Definition ravi : MentorRow :=
  mkMentor 42 (Some "Ravi") (Some "ravi@example.org") None.

(** two decimal digits at position [pos] *)
Definition twoDigits (s : string) (pos : nat) : option Z :=
  match String.get pos s, String.get (S pos) s with
  | Some a, Some b =>
      match digitValue a, digitValue b with
      | Some x, Some y => Some (10 * x + y)
      | _, _ => None
      end
  | _, _ => None
  end.

Definition charAt (s : string) (pos : nat) (c : ascii) : bool :=
  match String.get pos s with
  | Some d => Ascii.eqb d c
  | None => false
  end.

(** the day number of a civil date, counted from 1 January 1970 *)
Definition daysFromCivil (y m d : Z) : Z :=
  let y' := if m <=? 2 then y - 1 else y in
  let era := y' / 400 in
  let yoe := y' - era * 400 in
  let doy := (153 * ((m + 9) mod 12) + 2) / 5 + d - 1 in
  let doe := yoe * 365 + yoe / 4 - yoe / 100 + doy in
  era * 146097 + doe - 719468.

(** The local time value that [YYYY-MM-DDTHH:mm:ss] spells, the
    date-time format of ECMA-262 without an offset. *)
Definition isoLocal (s : string) : option Z :=
  match twoDigits s 0, twoDigits s 2, twoDigits s 5, twoDigits s 8,
        twoDigits s 11, twoDigits s 14, twoDigits s 17 with
  | Some c, Some y, Some month, Some day, Some hour, Some min, Some sec =>
      if (String.length s =? 19)%nat
         && charAt s 4 "-" && charAt s 7 "-" && charAt s 10 "T"
         && charAt s 13 ":" && charAt s 16 ":"
         && (1 <=? month) && (month <=? 12) && (1 <=? day) && (day <=? 31)
         && (((hour <=? 23) && (min <=? 59) && (sec <=? 59))
             || ((hour =? 24) && (min =? 0) && (sec =? 0)))
      then Some (SessionUpdate.MakeDate (daysFromCivil (100 * c + y) month day)
                   (SessionUpdate.MakeTime hour min sec 0))
      else None
  | _, _, _, _, _, _, _ => None
  end.

(** the offset of India, five and a half hours at every moment *)
Definition indiaOffset : Z := 19800000.

(** Every provider answers and delivers.  The host runs in the zone of
    India and reads the date-time format as local time; the samples
    hand it nothing else, and any other string is an Invalid Date. *)
Definition sampleEnv : Env :=
  mkEnv (Some "token") (fun _ _ => true)
    (fun _ _ _ _ _ => JoinUrl "https://teams.example/new")
    (fun i => if i =? 7 then Some asha else if i =? 42 then Some ravi else None)
    (fun _ _ => Some [mkStudent (Some "Stu") (Some "stu@example.org") None])
    (Some [mkSupermentor (Some "Admin") (Some "admin@example.org") None])
    (Some ["basic6_0_schedule"; "adv3_1_schedule"])
    (fun _ _ => Sent true) (fun _ _ => true)
    (fun s => (fun local => local - indiaOffset) <$> isoLocal s)
    (fun _ _ => indiaOffset).

(** two sessions at the same date and time in different tables; no
    notification has gone out for the first one yet *)
Definition rowBasic : Session :=
  mkSession 1 "2024-02-01" (Some "09:00:00") (Some "Graphs") (Some "normal")
    (Some 8) None (Some "https://teams.example/old") (Some false) (Some false)
    None None.

Definition rowAdv : Session :=
  mkSession 5 "2024-02-01" (Some "09:00:00") (Some "Trees") (Some "normal")
    (Some 7) None None (Some true) (Some true) None None.

Definition swapStore : Store :=
  {[ "basic6_0_schedule" := [rowBasic]; "adv3_1_schedule" := [rowAdv] ]}.

(** mentor 7 teaches [rowAdv] at that time: swapping 7 into [rowBasic] collides *)
Definition collidingSwap : SwapMentor.Request :=
  SwapMentor.mkRequest (Some "basic6_0_schedule") (Some 1) (Some 7) None.

(** mentor 42 is free at that time *)
Definition freeSwap : SwapMentor.Request :=
  SwapMentor.mkRequest (Some "basic6_0_schedule") (Some 1) (Some 42) None.

Definition putRow : Session :=
  mkSession 3 "2024-03-05" (Some "18:00:00") (Some "Graphs") None (Some 7) None None
    None None (Some "https://a.io/1, https://b.io/2") (Some "https://a.io/1, https://c.io/3").

Definition putStore : Store := {[ "basic6_0_schedule" := [putRow] ]}.

(** a row without materials, and two appends; the first one carries a
    link with a comma inside *)
Definition rowBlank : Session :=
  mkSession 9 "2024-03-06" (Some "18:00:00") (Some "Heaps") None (Some 7) None None
    None None None None.

Definition blankStore : Store := {[ "basic6_0_schedule" := [rowBlank] ]}.

Definition postCommaLink : PostRequest :=
  mkPostRequest (Some "basic6_0_schedule") (Some 9) None None (Some ["a,b"; "a"]) None.

Definition postAnother : PostRequest :=
  mkPostRequest (Some "basic6_0_schedule") (Some 9) None None (Some ["c"]) None.

(** a row whose two columns repeat a link *)
Definition rowRepeated : Session :=
  mkSession 9 "2024-03-06" (Some "18:00:00") (Some "Heaps") None (Some 7) None None
    None None (Some "a, a") (Some "a, a").

Definition putReq : PutRequest :=
  mkPutRequest (Some "basic6_0_schedule") (Some "2024-03-05") (Some "18:00:00")
    (Some "https://a.io/1").

(** a reschedule of a session that was announced, in a table whose name
    carries no cohort number *)
Definition rowDemo : Session :=
  mkSession 1 "2024-02-01" (Some "09:00:00") (Some "Graphs") (Some "normal")
    (Some 7) None None (Some true) (Some true) None None.

Definition demoStore : Store := {[ "demo_schedule" := [rowDemo] ]}.

Definition demoReschedule : SessionUpdate.Request :=
  SessionUpdate.mkRequest (Some "demo_schedule") (Some 1)
    (Some "2024-01-30") (Some "09:00:00") (Some "2024-02-01") (Some "09:00:00")
    false (Some "date") None None None None None None false.




(** a late session with a meeting, moved to another day *)
Definition rowLate : Session :=
  mkSession 4 "2024-01-10" (Some "23:00:00") (Some "Night class") (Some "normal")
    (Some 7) None (Some "https://teams.example/late") (Some false) (Some false)
    None None.

Definition lateStore : Store := {[ "basic6_0_schedule" := [rowLate] ]}.

Definition lateReschedule : SessionUpdate.Request :=
  SessionUpdate.mkRequest (Some "basic6_0_schedule") (Some 4)
    (Some "2024-01-09") (Some "23:00:00") (Some "2024-01-10") (Some "23:00:00")
    false (Some "date") None None None None None None false.

End Samples.

(** ** Further predicates *)

Section MorePredicates.
Import Js.

(** every character of the string satisfies the test *)
Fixpoint allChars (p : ascii -> bool) (s : string) : bool :=
  match s with
  | EmptyString => true
  | String c s' => p c && allChars p s'
  end.

(** the string is empty or begins with a character that fails the test *)
Definition stopsAt (p : ascii -> bool) (s : string) : Prop :=
  match s with
  | EmptyString => True
  | String c _ => p c = false
  end.

(** a non-empty run of characters of one class *)
Definition run (p : ascii -> bool) (s : string) : Prop :=
  allChars p s = true /\ s <> EmptyString.

End MorePredicates.

Section Frames.

(** the two rows agree on every column but the meeting link and the two
    notification flags *)
Definition onlyLinkAndFlags (r r' : Session) : Prop :=
  id r' = id r /\ date r' = date r /\ time r' = time r
  /\ subject_name r' = subject_name r /\ session_type r' = session_type r
  /\ mentor_id r' = mentor_id r /\ swapped_mentor_id r' = swapped_mentor_id r
  /\ session_material r' = session_material r
  /\ initial_session_material r' = initial_session_material r.

(** the later database differs from the earlier one at most in the rows
    of table [t] whose id is [i]; no row appears, disappears or changes
    its id *)
Definition touchesOnly (t : string) (i : Z) (st st' : Store) : Prop :=
  forall t',
    (t' <> t -> st' !! t' = st !! t')
    /\ match st !! t', st' !! t' with
       | Some rows, Some rows' =>
           Forall2 (fun r r' => id r' = id r /\ (id r <> i -> r' = r)) rows rows'
       | None, None => True
       | _, _ => False
       end.

(** a call to the meeting provider *)
Definition isMeetingCall (e : Event) : bool :=
  match e with
  | EvDeleteMeeting _ | EvCreateMeeting _ _ _ _ => true
  | _ => false
  end.

(** a dispatcher step whose calls all satisfy [P] *)
Definition emits (P : Event -> Prop) (step : SessionUpdate.Step) : Prop :=
  forall r, Forall P (step r).2.

(** the role a send addresses *)
Definition roleOf (e : Event) : option Role :=
  match e with
  | EvEmail who _ _ | EvWhatsApp who _ _ => Some who
  | _ => None
  end.

(** a mail that the provider accepted for [who] *)
Definition mailed (who : Role) (e : Event) : bool :=
  match e with
  | EvEmail w _ (Sent true) => bool_decide (w = who)
  | _ => false
  end.

(** a chat message that the provider accepted for [who] *)
Definition chatted (who : Role) (e : Event) : bool :=
  match e with
  | EvWhatsApp w _ true => bool_decide (w = who)
  | _ => false
  end.

Definition countIf (f : Event -> bool) (l : list Event) : nat :=
  List.length (List.filter f l).

End Frames.

Module MoreSamples.
Import Samples.

(** the meeting provider refuses the token; everything else answers *)
Definition envNoToken : Env :=
  mkEnv None (deleteTeamsMeeting sampleEnv) (createTeamsMeeting sampleEnv)
    (mentorDetails sampleEnv) (onboarding sampleEnv) (supermentor_details sampleEnv)
    (get_schedule_tables sampleEnv) (sendEmail sampleEnv) (sendWhatsAppMessage sampleEnv)
    (Date_parse sampleEnv) (LocalTZA sampleEnv).

(** an announced session with a meeting, moved from 10 January, 10:00 *)
Definition rowAnnounced : Session :=
  mkSession 1 "2024-01-12" (Some "14:00:00") (Some "Graphs") (Some "normal")
    (Some 7) None (Some "https://teams.example/old") (Some true) (Some false)
    None None.

Definition announcedStore : Store :=
  {[ "basic6_0_schedule" := [rowAnnounced]; "adv3_1_schedule" := [rowAdv] ]}.

Definition announcedReschedule : SessionUpdate.Request :=
  SessionUpdate.mkRequest (Some "basic6_0_schedule") (Some 1)
    (Some "2024-01-10") (Some "10:00") (Some "2024-01-12") (Some "14:00")
    false (Some "date") None None None None None None false.

End MoreSamples.

Section Recipients.
Import Js SessionUpdate.

(** every send of the event's kind goes to a role that satisfies [rule] *)
Definition addressed (rule : Role -> Prop) (e : Event) : Prop :=
  forall who, roleOf e = Some who -> rule who.

(** What must hold of the call for a role to be written to, as the
    guards of [sendUpdateNotifications] have it. *)
Definition recipientRule (params : Params) (who : Role) : Prop :=
  let session := p_session params in
  let isSwapChange := p_changedField params = Some "swapped_mentor_id" in
  let effectiveMentorId := nullish (swapped_mentor_id session) (mentor_id session) in
  match who with
  | Student =>
      p_updateType params = reschedule \/ p_updateType params = details_updated
  | CurrentMentor => ~ isSwapChange /\ is_Some (ifTruthyZ effectiveMentorId)
  | OriginalMentor => isSwapChange /\ is_Some (ifTruthyZ (mentor_id session))
  | SwappedMentor => isSwapChange /\ is_Some (ifTruthyZ (p_newMentorId params))
  | OldSwappedMentor =>
      isSwapChange /\ is_Some (ifTruthyZ (p_oldMentorId params))
      /\ p_oldMentorId params <> p_newMentorId params
  | OldMentor =>
      ~ isSwapChange /\ is_Some (ifTruthyZ (p_oldMentorId params))
      /\ p_oldMentorId params <> effectiveMentorId
  | NewMentor =>
      ~ isSwapChange /\ is_Some (ifTruthyZ (p_newMentorId params))
      /\ p_newMentorId params <> orZ (p_oldMentorId params) (mentor_id session)
  | Supermentor => True
  end.

End Recipients.

Section Tally.
Import SessionUpdate.

(** the four counters of a result *)
Definition tally (r : NotificationResult) : nat * nat * nat * nat :=
  (studentsSent r, supermentorsSent r,
   wa_students (whatsappSent r), wa_supermentors (whatsappSent r)).

(** the accepted sends of a trace, per counter *)
Definition tallyOf (l : list Event) : nat * nat * nat * nat :=
  (countIf (mailed Student) l, countIf (mailed Supermentor) l,
   countIf (chatted Student) l, countIf (chatted Supermentor) l).

Definition addTally (a b : nat * nat * nat * nat) : nat * nat * nat * nat :=
  let '(a1, a2, a3, a4) := a in
  let '(b1, b2, b3, b4) := b in
  (a1 + b1, a2 + b2, a3 + b3, a4 + b4)%nat.

(** a step that moves the counters by exactly its accepted sends *)
Definition counting (step : Step) : Prop :=
  forall r, tally (step r).1 = addTally (tally r) (tallyOf (step r).2).

(** the result field a mail to the role is recorded in *)
Definition mailField (who : Role) (f : ResultField) : bool :=
  match who, f with
  | Student, f_studentsSent | Supermentor, f_supermentorsSent => true
  | Student, _ | Supermentor, _ => false
  | _, (f_mentorSent | f_oldMentorNotified | f_newMentorNotified
        | f_originalMentorNotified | f_swappedMentorNotified | f_none) => true
  | _, _ => false
  end.

(** the result field a chat message to the role is recorded in *)
Definition chatField (who : Role) (f : ResultField) : bool :=
  match who, f with
  | Student, f_wa_students | Supermentor, f_wa_supermentors => true
  | Student, _ | Supermentor, _ => false
  | _, (f_wa_mentor | f_none) => true
  | _, _ => false
  end.

End Tally.

Section ScanOrder.

(** table [c] holds a row that collides with the candidate: at the
    session's date and time, not the session itself, busy by the rule *)
Definition hasConflict (st : Store) (tableName : string) (sessionId : Z)
    (session : Session) (candidate : Z) (c : string) : Prop :=
  exists rows sessionTime row,
    st !! c = Some rows
    /\ time session = Some sessionTime
    /\ row ∈ rows
    /\ date row = date session
    /\ time row = Some sessionTime
    /\ ~ (c = tableName /\ id row = sessionId)
    /\ busyRule candidate row.

End ScanOrder.

Section MaterialViews.
Import Js Material.

(** the merged list a GET response carries *)
Definition linksOf (r : Response) : list string :=
  match r with
  | GetOk _ links _ _ _ => links
  | _ => []
  end.

(** the links a GET response reports for [session_material] *)
Definition sessionLinksOf (r : Response) : list string :=
  match r with
  | GetOk _ _ _ _ sessionLinks => sessionLinks
  | _ => []
  end.

(** the links POST took from the request: trimmed, and not blank *)
Definition offered (newLinks : list string) (link : string) : Prop :=
  link <> EmptyString /\ exists newLink, newLink ∈ newLinks /\ link = trim newLink.

(** no link of the request holds a comma once trimmed *)
Definition commaFree (newLinks : list string) : Prop :=
  Forall (fun newLink => containsChar "," (trim newLink) = false) newLinks.

End MaterialViews.

(** * Properties *)

(** ** Facts about the string primitives *)

Section JsFacts.
Import Js.

Lemma truthyS_true (s : string) : truthyS s = true <-> s <> EmptyString.
Proof.
  unfold truthyS. destruct (String.eqb_spec s EmptyString); simpl; split;
    congruence.
Qed.

Lemma ifTruthyS_Some (o : option string) (s : string) :
  ifTruthyS o = Some s <-> o = Some s /\ s <> EmptyString.
Proof.
  unfold ifTruthyS. destruct o as [x|]; [|split; [discriminate | intros [? _]; discriminate]].
  destruct (truthyS x) eqn:E.
  - apply truthyS_true in E. split; [intros [= <-]; auto | intros [[= <-] _]; auto].
  - split; [discriminate|]. intros [[= <-] Hne]. apply truthyS_true in Hne. congruence.
Qed.

Lemma ifTruthyZ_Some (o : option Z) (z : Z) :
  ifTruthyZ o = Some z <-> o = Some z /\ z <> 0.
Proof.
  unfold ifTruthyZ. destruct o as [x|]; [|split; [discriminate | intros [? _]; discriminate]].
  destruct (Z.eqb_spec x 0).
  - split; [discriminate|]. intros [[= <-] Hne]. contradiction.
  - split; [intros [= <-]; auto | intros [[= <-] _]; auto].
Qed.

Lemma length_pos_nonempty (s : string) : (0 < String.length s)%nat <-> s <> EmptyString.
Proof. destruct s; simpl; split; try congruence; try lia. Qed.

Lemma includes_true (l : list string) (x : string) : includes l x = true <-> x ∈ l.
Proof. unfold includes. apply bool_decide_eq_true. Qed.

Lemma includes_false (l : list string) (x : string) : includes l x = false <-> x ∉ l.
Proof. unfold includes. apply bool_decide_eq_false. Qed.

(** *** [trim] *)

Lemma trimStart_clean (s : string) : startsClean (trimStart s).
Proof.
  induction s as [|c s IH]; simpl; [exact I|].
  destruct (isWhiteSpace c) eqn:E; [exact IH | exact E].
Qed.

Lemma trimStart_id (s : string) : startsClean s -> trimStart s = s.
Proof. destruct s as [|c s]; simpl; [reflexivity|]. intros ->. reflexivity. Qed.

Lemma trimEnd_clean (s : string) : startsClean s -> startsClean (trimEnd s).
Proof.
  destruct s as [|c s]; simpl; [intros H; exact H|]. intros Hc.
  destruct (trimEnd s); simpl; [rewrite Hc; simpl|]; exact Hc.
Qed.

Lemma trimEnd_idem (s : string) : trimEnd (trimEnd s) = trimEnd s.
Proof.
  induction s as [|c s IH]; simpl; [reflexivity|].
  destruct (trimEnd s) as [|d r] eqn:E.
  - destruct (isWhiteSpace c) eqn:Ec; simpl; [reflexivity|]. rewrite Ec. reflexivity.
  - simpl in *. rewrite IH. reflexivity.
Qed.

Lemma trim_idem (s : string) : trim (trim s) = trim s.
Proof.
  unfold trim. rewrite (trimStart_id (trimEnd (trimStart s))).
  - apply trimEnd_idem.
  - apply trimEnd_clean, trimStart_clean.
Qed.

Lemma trim_space (s : string) : trim (String " " s) = trim s.
Proof. reflexivity. Qed.

(** *** Characters that a string does not contain *)

Lemma containsChar_trimStart (c : ascii) (s : string) :
  containsChar c s = false -> containsChar c (trimStart s) = false.
Proof.
  induction s as [|d s IH]; simpl; [reflexivity|]. intros H.
  apply orb_false_iff in H as [H1 H2].
  destruct (isWhiteSpace d); [auto|]. simpl. rewrite H1, H2. reflexivity.
Qed.

Lemma containsChar_trimEnd (c : ascii) (s : string) :
  containsChar c s = false -> containsChar c (trimEnd s) = false.
Proof.
  induction s as [|d s IH]; simpl; [reflexivity|]. intros H.
  apply orb_false_iff in H as [H1 H2]. specialize (IH H2).
  destruct (trimEnd s) as [|e r].
  - destruct (isWhiteSpace d); simpl; [reflexivity|]. rewrite H1. reflexivity.
  - simpl in *. rewrite H1. exact IH.
Qed.

Lemma containsChar_trim (c : ascii) (s : string) :
  containsChar c s = false -> containsChar c (trim s) = false.
Proof. intros H. apply containsChar_trimEnd, containsChar_trimStart, H. Qed.

(** *** [split] and [join] *)

Lemma split_nonempty (sep : ascii) (s : string) : split sep s <> [].
Proof.
  destruct s as [|c s]; simpl; [discriminate|].
  destruct (Ascii.eqb c sep); [discriminate|]. destruct (split sep s); discriminate.
Qed.

Lemma split_pieces (sep : ascii) (s : string) :
  Forall (fun piece => containsChar sep piece = false) (split sep s).
Proof.
  induction s as [|c s IH]; simpl.
  - repeat constructor.
  - destruct (Ascii.eqb c sep) eqn:E.
    + constructor; [reflexivity | exact IH].
    + destruct (split sep s) as [|h t]; [repeat constructor; simpl; rewrite E; reflexivity|].
      inversion IH; subst. constructor; [simpl; rewrite E; simpl; assumption | assumption].
Qed.

Lemma split_without (sep : ascii) (x : string) :
  containsChar sep x = false -> split sep x = [x].
Proof.
  induction x as [|c x IH]; simpl; [reflexivity|]. intros H.
  apply orb_false_iff in H as [H1 H2]. rewrite H1, (IH H2). reflexivity.
Qed.

Lemma split_append (sep : ascii) (x s : string) :
  containsChar sep x = false ->
  split sep (x +:+ String sep s) = x :: split sep s.
Proof.
  induction x as [|c x IH]; simpl.
  - intros _. rewrite Ascii.eqb_refl. reflexivity.
  - intros H. apply orb_false_iff in H as [H1 H2]. rewrite H1, (IH H2). reflexivity.
Qed.

End JsFacts.

(** ** Session materials *)

Section MaterialFacts.
Import Js Material.

Lemma parseLinks_elem (materials link : string) :
  link ∈ parseLinks materials <->
  link <> EmptyString /\ exists piece, piece ∈ split "," materials /\ link = trim piece.
Proof.
  unfold parseLinks. rewrite list_elem_of_filter, length_pos_nonempty, list_elem_of_fmap.
  split.
  - intros [Hne (piece & -> & Hin)]. eauto.
  - intros [Hne (piece & Hin & ->)]. eauto.
Qed.

Lemma parseLinks_ok (materials : string) : Forall linkOk (parseLinks materials).
Proof.
  apply Forall_forall. intros link Hin.
  apply parseLinks_elem in Hin as [Hne (piece & Hin & ->)].
  repeat split; [|apply trim_idem|exact Hne].
  apply containsChar_trim.
  pose proof (split_pieces "," materials) as Hall.
  rewrite Forall_forall in Hall. apply Hall, Hin.
Qed.

Lemma parseLinks_empty : parseLinks "" = [].
Proof. reflexivity. Qed.

(** the pieces of a joined list, trimmed, are the list again *)
Lemma trim_split_join (x : string) (l : list string) :
  Forall linkOk (x :: l) ->
  trim <$> split "," (join ", " (x :: l)) = x :: l.
Proof.
  revert x. induction l as [|y l IH]; intros x Hall.
  - inversion Hall as [|? ? (Hc & Ht & _) _]; subst. simpl join.
    rewrite (split_without _ _ Hc). simpl. rewrite Ht. reflexivity.
  - inversion Hall as [|? ? (Hc & Ht & _) Hrest]; subst.
    change (join ", " (x :: y :: l))
      with (x +:+ String "," (String " " (join ", " (y :: l)))).
    rewrite (split_append _ _ _ Hc). rewrite fmap_cons, Ht. f_equal.
    specialize (IH y Hrest).
    change (split "," (String " " (join ", " (y :: l))))
      with (match split "," (join ", " (y :: l)) with
            | h :: t => String " " h :: t
            | [] => [String " " EmptyString]
            end).
    destruct (split "," (join ", " (y :: l))) as [|h t] eqn:E.
    + exfalso. exact (split_nonempty _ _ E).
    + rewrite fmap_cons in *. rewrite trim_space. exact IH.
Qed.

Lemma filter_all {A} (P : A -> Prop) `{!forall x, Decision (P x)} (l : list A) :
  Forall P l -> filter P l = l.
Proof.
  induction 1 as [|x l Hx _ IH]; [reflexivity|].
  rewrite filter_cons_True by assumption. f_equal. exact IH.
Qed.

(** parsing undoes joining, on lists of parsed links *)
Lemma parseLinks_join (l : list string) :
  Forall linkOk l -> parseLinks (join ", " l) = l.
Proof.
  intros Hall. destruct l as [|x l]; [reflexivity|].
  unfold parseLinks. rewrite (trim_split_join x l Hall).
  apply filter_all. eapply Forall_impl; [exact Hall|].
  intros link (_ & _ & Hne). apply length_pos_nonempty, Hne.
Qed.

Lemma linkOk_filter (P : string -> Prop) `{!forall x, Decision (P x)} (l : list string) :
  Forall linkOk l -> Forall linkOk (filter P l).
Proof.
  rewrite !Forall_forall. intros Hall x Hx. apply list_elem_of_filter in Hx as [_ Hx]. auto.
Qed.

(** *** The merge loops *)

Lemma dedupe_elem (l : list string) (x : string) : x ∈ dedupe l <-> x ∈ l.
Proof.
  induction l as [|y l IH]; simpl; [reflexivity|].
  rewrite !elem_of_cons, list_elem_of_filter, IH.
  destruct (decide (x = y)); tauto.
Qed.

Lemma dedupe_NoDup (l : list string) : NoDup (dedupe l).
Proof.
  induction l as [|y l IH]; simpl; [constructor|].
  constructor; [|apply NoDup_filter, IH].
  rewrite list_elem_of_filter. intros [Hne _]. apply Hne. reflexivity.
Qed.

Lemma dedupe_id (l : list string) : NoDup l -> dedupe l = l.
Proof.
  induction 1 as [|x l Hx _ IH]; simpl; [reflexivity|].
  rewrite IH. f_equal. apply filter_all, Forall_forall. intros y Hy ->. contradiction.
Qed.

Lemma dedupe_filter (P : string -> Prop) `{!forall x, Decision (P x)} (l : list string) :
  dedupe (filter P l) = filter P (dedupe l).
Proof.
  induction l as [|x l IH]; simpl; [reflexivity|].
  rewrite !filter_cons. destruct (decide (P x)) as [Hx|Hx]; simpl.
  - rewrite IH. f_equal. rewrite !list_filter_filter.
    apply list_filter_iff. intros y. tauto.
  - rewrite IH, list_filter_filter. apply list_filter_iff.
    intros y. split; [intros Hy; split; [exact Hy | intros ->; contradiction] | tauto].
Qed.

(** GET merge: the left list as it is, then the links of the right list
    that are new, each once, in order of first occurrence. *)
Lemma mergeGet_spec (initialLinks sessionLinks : list string) :
  mergeGet initialLinks sessionLinks
  = (initialLinks ++ dedupe (filter (fun link => link ∉ initialLinks) sessionLinks))%list.
Proof.
  unfold mergeGet. revert initialLinks.
  induction sessionLinks as [|b B IH]; intros A; simpl.
  - rewrite app_nil_r. reflexivity.
  - destruct (includes A b) eqn:E.
    + assert (pushLink A b = A) as -> by (unfold pushLink; rewrite E; reflexivity).
      apply includes_true in E. rewrite IH, filter_cons_False by tauto. reflexivity.
    + assert (pushLink A b = (A ++ [b])%list) as ->
        by (unfold pushLink; rewrite E; reflexivity).
      apply includes_false in E. rewrite IH, filter_cons_True by assumption. simpl.
      rewrite <- app_assoc. simpl. do 2 f_equal.
      rewrite dedupe_filter, dedupe_filter, list_filter_filter.
      apply list_filter_iff. intros y. rewrite elem_of_app, list_elem_of_singleton.
      tauto.
Qed.

Lemma pushNewLink_pushLink (allLinks : list string) (newLink : string) :
  pushNewLink allLinks newLink
  = if truthyS (trim newLink) then pushLink allLinks (trim newLink) else allLinks.
Proof. unfold pushNewLink, pushLink. destruct (truthyS (trim newLink)); reflexivity. Qed.

(** POST merge: the GET merge of the trimmed, non-blank new links. *)
Lemma mergePost_mergeGet (existingLinks newLinks : list string) :
  mergePost existingLinks newLinks
  = mergeGet existingLinks (filter (fun link => link <> EmptyString) (trim <$> newLinks)).
Proof.
  unfold mergePost, mergeGet. revert existingLinks.
  induction newLinks as [|b B IH]; intros A; [reflexivity|].
  rewrite fmap_cons, filter_cons. cbn [fold_left]. rewrite pushNewLink_pushLink.
  destruct (truthyS (trim b)) eqn:E.
  - apply truthyS_true in E. rewrite decide_True by assumption. cbn [fold_left]. apply IH.
  - rewrite decide_False; [apply IH|].
    intros Hne. apply truthyS_true in Hne. congruence.
Qed.

Lemma mergeGet_NoDup (initialLinks sessionLinks : list string) :
  NoDup (mergeGet initialLinks sessionLinks) <-> NoDup initialLinks.
Proof.
  rewrite mergeGet_spec, NoDup_app. split; [tauto|]. intros HA.
  split; [exact HA|]. split; [|apply dedupe_NoDup].
  intros x Hx Hx'. apply dedupe_elem, list_elem_of_filter in Hx' as [Hnot _]. contradiction.
Qed.

Lemma filter_none {A} (P : A -> Prop) `{!forall x, Decision (P x)} (l : list A) :
  Forall (fun x => ~ P x) l -> filter P l = [].
Proof.
  induction 1 as [|x l Hx _ IH]; [reflexivity|].
  rewrite filter_cons_False by assumption. exact IH.
Qed.

(** nothing is added when every right-hand link is already on the left *)
Lemma mergeGet_known (initialLinks sessionLinks : list string) :
  (forall link, link ∈ sessionLinks -> link ∈ initialLinks) ->
  mergeGet initialLinks sessionLinks = initialLinks.
Proof.
  intros Hsub. rewrite mergeGet_spec, filter_none; [apply app_nil_r|].
  apply Forall_forall. intros x Hx Hnot. apply Hnot, Hsub, Hx.
Qed.

Lemma mergePost_known (existingLinks newLinks : list string) :
  (forall link, link ∈ newLinks -> trim link ∈ existingLinks) ->
  mergePost existingLinks newLinks = existingLinks.
Proof.
  intros Hsub. rewrite mergePost_mergeGet. apply mergeGet_known.
  intros link Hin. apply list_elem_of_filter in Hin as [_ Hin].
  apply list_elem_of_fmap in Hin as (raw & -> & Hraw). auto.
Qed.

End MaterialFacts.

(** ** The store *)

Section StoreFacts.

Lemma assign_keys (a : Assign) (r : Session) :
  id (assign a r) = id r /\ date (assign a r) = date r
  /\ time (assign a r) = time r /\ mentor_id (assign a r) = mentor_id r.
Proof. destruct a; simpl; auto. Qed.

Lemma applyPatch_keys (patch : list Assign) (r : Session) :
  id (applyPatch patch r) = id r /\ date (applyPatch patch r) = date r
  /\ time (applyPatch patch r) = time r
  /\ mentor_id (applyPatch patch r) = mentor_id r.
Proof.
  unfold applyPatch. revert r. induction patch as [|a patch IH]; intros r; simpl; [auto|].
  destruct (IH (assign a r)) as (H1 & H2 & H3 & H4).
  destruct (assign_keys a r) as (K1 & K2 & K3 & K4).
  rewrite H1, H2, H3, H4. auto.
Qed.

(** no write changes a column that a filter reads *)
Lemma matches_applyPatch (sel : Selector) (patch : list Assign) (r : Session) :
  matches sel (applyPatch patch r) = matches sel r.
Proof.
  destruct (applyPatch_keys patch r) as (H1 & H2 & H3 & H4).
  destruct sel; simpl; rewrite ?H1, ?H2, ?H3, ?H4; reflexivity.
Qed.

Lemma filter_updateRow (sel : Selector) (patch : list Assign) (rows : list Session) :
  List.filter (matches sel) (List.map (updateRow sel patch) rows)
  = List.map (applyPatch patch) (List.filter (matches sel) rows).
Proof.
  induction rows as [|r rows IH]; [reflexivity|].
  cbn [List.map List.filter]. rewrite IH. unfold updateRow.
  destruct (matches sel r) eqn:E.
  - rewrite matches_applyPatch, E. reflexivity.
  - rewrite E. reflexivity.
Qed.

Lemma single_Some (rows : option (list Session)) (s : Session) :
  single rows = Some s <-> rows = Some [s].
Proof.
  destruct rows as [[|r [|r' l]]|]; simpl; split; try discriminate; congruence.
Qed.

(** A write through the filter that selected exactly one row succeeds,
    and the same filter then selects that row, patched. *)
Lemma update_single (st : Store) (t : string) (sel : Selector)
    (patch : list Assign) (s : Session) :
  single (selectRows st t sel) = Some s ->
  exists st',
    updateRows st t sel patch = Some st'
    /\ single (selectRows st' t sel) = Some (applyPatch patch s)
    /\ forall t', t' <> t -> st' !! t' = st !! t'.
Proof.
  intros Hs. apply single_Some in Hs. unfold selectRows, updateRows in *.
  destruct (st !! t) as [rows|] eqn:E; [|discriminate]. simpl in Hs.
  injection Hs as Hs. eexists. split; [reflexivity|]. split.
  - rewrite lookup_insert_eq. simpl. rewrite filter_updateRow, Hs. reflexivity.
  - intros t' Hne. apply lookup_insert_ne. congruence.
Qed.

Lemma updateIgnoringError_single (st : Store) (t : string) (sel : Selector)
    (patch : list Assign) (s : Session) :
  single (selectRows st t sel) = Some s ->
  single (selectRows (SessionUpdate.updateIgnoringError st t sel patch) t sel)
  = Some (applyPatch patch s).
Proof.
  intros Hs. destruct (update_single st t sel patch s Hs) as (st' & Hu & Hs' & _).
  unfold SessionUpdate.updateIgnoringError. rewrite Hu. exact Hs'.
Qed.

End StoreFacts.

(** ** Claims about the session materials *)

Section MaterialClaims.
Import Js Material Samples.

(** C7 (as amended).  Either merge copies the left list as it is and
    appends, each once and in order of first occurrence, the right-hand
    links that the left list does not have (for POST: the trimmed,
    non-blank ones); so the result repeats no link exactly when the
    left list repeats none.  For a link list [L] without repeated
    entries, merging [L] with itself therefore gives [dedupe L] (which
    is [L]): the GET merge always, the POST merge when the links are
    trimmed and non-empty, as stored links are. *)
Theorem merge_self_is_dedupe (L R : list string) :
  mergeGet L R = (L ++ dedupe (filter (fun link => link ∉ L) R))%list
  /\ mergePost L R
     = (L ++ dedupe (filter (fun link => link ∉ L)
                       (filter (fun link => link <> EmptyString) (trim <$> R))))%list
  /\ (NoDup (mergeGet L R) <-> NoDup L)
  /\ (NoDup (mergePost L R) <-> NoDup L)
  /\ (NoDup L ->
      mergeGet L L = dedupe L
      /\ NoDup (mergeGet L L)
      /\ (Forall (fun link => trim link = link /\ link <> EmptyString) L ->
          mergePost L L = dedupe L)).
Proof.
  split; [apply mergeGet_spec|].
  split; [rewrite mergePost_mergeGet; apply mergeGet_spec|].
  split; [apply mergeGet_NoDup|].
  split; [rewrite mergePost_mergeGet; apply mergeGet_NoDup|].
  intros Hnd. rewrite (dedupe_id L Hnd). split; [|split].
  - apply mergeGet_known. auto.
  - apply mergeGet_NoDup, Hnd.
  - intros Hall. apply mergePost_known. intros link Hin.
    rewrite Forall_forall in Hall. destruct (Hall link Hin) as [-> _]. exact Hin.
Qed.

Lemma merge_self_is_dedupe_witness :
  mergeGet ["a"; "b"] ["b"; "c"; "c"] = ["a"; "b"; "c"]
  /\ mergePost ["a"; "b"] [" c "; "b"; ""; "c"] = ["a"; "b"; "c"]
  /\ mergeGet ["a"; "b"] ["a"; "b"] = dedupe ["a"; "b"]
  /\ mergePost ["a"; "b"] ["a"; "b"] = dedupe ["a"; "b"].
Proof.
  destruct (merge_self_is_dedupe ["a"; "b"] ["b"; "c"; "c"]) as (Hget & _ & _ & _ & Hself).
  destruct (merge_self_is_dedupe ["a"; "b"] [" c "; "b"; ""; "c"]) as (_ & Hpost & _).
  destruct Hself as (Hg & _ & Hp); [compute_done|].
  split; [rewrite Hget; reflexivity|]. split; [rewrite Hpost; reflexivity|].
  split; [exact Hg|]. apply Hp. repeat constructor; discriminate.
Defined.

(** C7 as stated fails: a list that repeats a link is copied with its
    repetition, by the GET merge and by the POST merge.  The GET response
    for a row whose columns hold ["a, a"] lists the link twice, and two
    appends through POST leave ["a, b, a, c"] in the column. *)
Lemma merge_self_keeps_repetition :
  let L := parseLinks "a, a" in
  L = ["a"; "a"]
  /\ mergeGet L L <> dedupe L
  /\ mergePost L L <> dedupe L
  /\ ~ NoDup (mergeGet L L)
  /\ getMaterials rowRepeated = GetOk "a, a" ["a"; "a"] 2 ["a"; "a"] ["a"; "a"]
  /\ response (POST postAnother (store_after (POST postCommaLink blankStore)))
     = PostOk "a, b, a, c" 4.
Proof.
  vm_compute. repeat split; try discriminate.
  intros H. inversion H as [|? ? Hnot _]; subst. apply Hnot. constructor.
Qed.

End MaterialClaims.

Section PutClaim.
Import Js Material Samples.

Lemma updateData_initial (session : Session) (linkToDelete : string) :
  linkToDelete ∈ parseLinks (orEmpty (initial_session_material session)) ->
  updateData session linkToDelete
  = Some (InitialSessionMaterial,
          [set_initial_session_material
             (join ", " (filter (fun link => link <> linkToDelete)
                           (parseLinks (orEmpty (initial_session_material session)))))]).
Proof. intros Hin. unfold updateData. apply includes_true in Hin. rewrite Hin. reflexivity. Qed.

Lemma updateData_session (session : Session) (linkToDelete : string) :
  linkToDelete ∉ parseLinks (orEmpty (initial_session_material session)) ->
  linkToDelete ∈ parseLinks (orEmpty (session_material session)) ->
  updateData session linkToDelete
  = Some (SessionMaterial,
          [set_session_material
             (join ", " (filter (fun link => link <> linkToDelete)
                           (parseLinks (orEmpty (session_material session)))))]).
Proof.
  intros Hout Hin. unfold updateData.
  apply includes_false in Hout. apply includes_true in Hin. rewrite Hout, Hin. reflexivity.
Qed.

Lemma updateData_none (session : Session) (linkToDelete : string) :
  linkToDelete ∉ parseLinks (orEmpty (initial_session_material session)) ->
  linkToDelete ∉ parseLinks (orEmpty (session_material session)) ->
  updateData session linkToDelete = None.
Proof.
  intros H1 H2. unfold updateData.
  apply includes_false in H1. apply includes_false in H2. rewrite H1, H2. reflexivity.
Qed.

(** the rewritten column parses to the old links without the deleted one,
    so its value has changed *)
Lemma rewritten_column (column : option string) (linkToDelete : string) :
  linkToDelete ∈ parseLinks (orEmpty column) ->
  let v := join ", " (filter (fun link => link <> linkToDelete) (parseLinks (orEmpty column))) in
  parseLinks v = filter (fun link => link <> linkToDelete) (parseLinks (orEmpty column))
  /\ (linkToDelete ∉ parseLinks v)
  /\ Some v <> column.
Proof.
  intros Hin v.
  assert (Hparse : parseLinks v
                   = filter (fun link => link <> linkToDelete) (parseLinks (orEmpty column))).
  { apply parseLinks_join, linkOk_filter, parseLinks_ok. }
  assert (Hgone : linkToDelete ∉ parseLinks v).
  { rewrite Hparse, list_elem_of_filter. tauto. }
  repeat split; [exact Hparse | exact Hgone |].
  intros Heq. apply Hgone. rewrite <- Heq in Hin. exact Hin.
Qed.

(** C10.  A PUT whose link is found writes exactly one material column:
    [initial_session_material] whenever the link is among its links (also
    when [session_material] has it too), otherwise [session_material].
    The row afterwards differs from the row before in that column only,
    and the column no longer lists the link.  A link in neither column
    gives 404 and no write. *)
Theorem put_rewrites_one_column (req : PutRequest) (st : Store)
    (t d tm linkToDelete : string) (session : Session) :
  ifTruthyS (put_tableName req) = Some t ->
  ifTruthyS (put_date req) = Some d ->
  ifTruthyS (put_time req) = Some tm ->
  ifTruthyS (put_linkToDelete req) = Some linkToDelete ->
  single (selectRows st t (ByDateTime d tm)) = Some session ->
  let initialLinks := parseLinks (orEmpty (initial_session_material session)) in
  let sessionLinks := parseLinks (orEmpty (session_material session)) in
  let keep := fun link : string => link <> linkToDelete in
  let out := PUT req st in
  let rowAfter := single (selectRows (store_after out) t (ByDateTime d tm)) in
  (linkToDelete ∈ initialLinks ->
   exists v,
     response out = PutOk InitialSessionMaterial
     /\ trace out = [EvUpdate t (ByDateTime d tm) [set_initial_session_material v]]
     /\ rowAfter = Some (assign (set_initial_session_material v) session)
     /\ parseLinks v = filter keep initialLinks
     /\ Some v <> initial_session_material session)
  /\ (linkToDelete ∉ initialLinks -> linkToDelete ∈ sessionLinks ->
      exists v,
        response out = PutOk SessionMaterial
        /\ trace out = [EvUpdate t (ByDateTime d tm) [set_session_material v]]
        /\ rowAfter = Some (assign (set_session_material v) session)
        /\ parseLinks v = filter keep sessionLinks
        /\ Some v <> session_material session)
  /\ (linkToDelete ∉ initialLinks -> linkToDelete ∉ sessionLinks ->
      response out = Status404 /\ store_after out = st /\ trace out = []).
Proof.
  intros Ht Hd Htm Hl Hs initialLinks sessionLinks keep out rowAfter.
  subst out rowAfter. unfold PUT. rewrite Ht, Hd, Htm, Hl. cbv zeta. rewrite Hs.
  split; [|split].
  - intros Hin. rewrite (updateData_initial _ _ Hin).
    destruct (update_single st t (ByDateTime d tm)
                [set_initial_session_material
                   (join ", " (filter keep initialLinks))] session Hs)
      as (st' & Hu & Hs' & _).
    fold initialLinks keep. rewrite Hu. simpl.
    destruct (rewritten_column (initial_session_material session) linkToDelete Hin)
      as (Hp & _ & Hne).
    eexists. repeat split; [exact Hs' | exact Hp | exact Hne].
  - intros Hout Hin. rewrite (updateData_session _ _ Hout Hin).
    destruct (update_single st t (ByDateTime d tm)
                [set_session_material (join ", " (filter keep sessionLinks))] session Hs)
      as (st' & Hu & Hs' & _).
    fold sessionLinks keep. rewrite Hu. simpl.
    destruct (rewritten_column (session_material session) linkToDelete Hin)
      as (Hp & _ & Hne).
    eexists. repeat split; [exact Hs' | exact Hp | exact Hne].
  - intros H1 H2. rewrite (updateData_none _ _ H1 H2). simpl. auto.
Qed.

(** whichever column is written, the other keeps its value *)
Lemma assign_material_frame (v : string) (session : Session) :
  session_material (assign (set_initial_session_material v) session)
  = session_material session
  /\ initial_session_material (assign (set_session_material v) session)
     = initial_session_material session.
Proof. split; reflexivity. Qed.

Lemma put_rewrites_one_column_witness :
  response (PUT putReq putStore) = PutOk InitialSessionMaterial
  /\ single (selectRows (store_after (PUT putReq putStore)) "basic6_0_schedule"
               (ByDateTime "2024-03-05" "18:00:00"))
     = Some (assign (set_initial_session_material "https://c.io/3") putRow).
Proof.
  destruct (put_rewrites_one_column putReq putStore "basic6_0_schedule"
              "2024-03-05" "18:00:00" "https://a.io/1" putRow
              eq_refl eq_refl eq_refl eq_refl eq_refl) as (Hinit & _ & _).
  destruct Hinit as (v & Hr & _ & Hrow & _ & _); [compute_done|].
  split; [exact Hr|]. vm_compute. reflexivity.
Defined.

End PutClaim.

(** ** The conflict scan and the conflict gate *)

Section SwapClaims.
Import Js SwapMentor.

Lemma isBusy_rule (candidate : Z) (row : Session) :
  isBusy candidate row = true <-> busyRule candidate row.
Proof.
  unfold isBusy, busyRule.
  destruct (decide (mentor_id row = Some candidate)) as [Hm|Hm];
    destruct (decide (swapped_mentor_id row = Some candidate)) as [Hs|Hs];
    destruct (decide (swapped_mentor_id row = None)) as [Hn|Hn];
    rewrite ?(bool_decide_eq_true_2 _ Hm), ?(bool_decide_eq_false_2 _ Hm),
      ?(bool_decide_eq_true_2 _ Hs), ?(bool_decide_eq_false_2 _ Hs);
    try (rewrite (bool_decide_eq_false_2 (swapped_mentor_id row <> None))
          by (intros Hc; apply Hc, Hn));
    try (rewrite (bool_decide_eq_true_2 (swapped_mentor_id row <> None)) by exact Hn);
    simpl; split; try discriminate; try tauto; try congruence.
Qed.

Lemma isSameSession_false (checkTableName tableName : string) (sessionId : Z)
    (row : Session) :
  isSameSession checkTableName tableName sessionId row = false
  <-> ~ (checkTableName = tableName /\ id row = sessionId).
Proof.
  unfold isSameSession. rewrite andb_false_iff, !bool_decide_eq_false.
  destruct (decide (checkTableName = tableName)); tauto.
Qed.

End SwapClaims.

Section ConflictGate.
Import Js SwapMentor Samples.

Lemma find_hit {A} (f : A -> bool) (l : list A) (x : A) :
  In x l -> f x = true -> exists y, List.find f l = Some y.
Proof.
  intros Hin Hf. destruct (List.find f l) as [y|] eqn:E; [eauto|].
  rewrite (List.find_none f l E x Hin) in Hf. discriminate.
Qed.

(** the scan reports a hit whenever some listed table holds a busy row *)
Lemma scanTables_hit (st : Store) (tableName : string) (sessionId : Z)
    (session : Session) (candidate : Z) (tables : list string)
    (checkTableName sessionTime : string) (rows : list Session) (row : Session) :
  checkTableName ∈ tables ->
  st !! checkTableName = Some rows ->
  time session = Some sessionTime ->
  row ∈ rows ->
  date row = date session ->
  time row = Some sessionTime ->
  ~ (checkTableName = tableName /\ id row = sessionId) ->
  busyRule candidate row ->
  exists details,
    scanTables st tableName sessionId session candidate tables = Some details.
Proof.
  intros Hin Hrows Htime Hrow Hd Ht Hother Hbusy.
  induction tables as [|c rest IH]; [inversion Hin|].
  simpl. destruct (rowsAt st c (date session) (time session)) as [conflicts|] eqn:Eat.
  - destruct (firstConflict c tableName sessionId candidate conflicts) as [hit|] eqn:Ef;
      [eauto|].
    apply elem_of_cons in Hin as [<-|Hin]; [|auto].
    exfalso. unfold rowsAt in Eat. rewrite Htime in Eat. unfold selectRows in Eat.
    rewrite Hrows in Eat. simpl in Eat. injection Eat as <-.
    unfold firstConflict in Ef.
    assert (Hmatch : In row (List.filter (matches (ByDateTime (date session) sessionTime)) rows)).
    { apply List.filter_In. split; [apply list_elem_of_In, Hrow|].
      simpl. rewrite Hd, Ht. rewrite !bool_decide_eq_true_2 by reflexivity. reflexivity. }
    assert (Hc : isConflict checkTableName tableName sessionId candidate row = true).
    { unfold isConflict. apply isSameSession_false in Hother. rewrite Hother.
      apply isBusy_rule, Hbusy. }
    destruct (find_hit _ _ _ Hmatch Hc) as [y Hy]. congruence.
  - apply elem_of_cons in Hin as [<-|Hin]; [|auto].
    exfalso. unfold rowsAt in Eat. rewrite Htime in Eat. unfold selectRows in Eat.
    rewrite Hrows in Eat. discriminate.
Qed.

Lemma scanTables_sound (st : Store) (tableName : string) (sessionId : Z)
    (session : Session) (candidate : Z) (tables : list string)
    (details : ConflictDetails) :
  scanTables st tableName sessionId session candidate tables = Some details ->
  exists checkTableName rows sessionTime row,
    checkTableName ∈ tables
    /\ st !! checkTableName = Some rows
    /\ time session = Some sessionTime
    /\ row ∈ rows
    /\ date row = date session
    /\ time row = Some sessionTime
    /\ ~ (checkTableName = tableName /\ id row = sessionId)
    /\ busyRule candidate row
    /\ details = conflictDetailsOf checkTableName row.
Proof.
  induction tables as [|c rest IH]; [discriminate|]. simpl.
  assert (Hrest : scanTables st tableName sessionId session candidate rest = Some details ->
                  exists checkTableName rows sessionTime row,
                    checkTableName ∈ c :: rest
                    /\ st !! checkTableName = Some rows
                    /\ time session = Some sessionTime
                    /\ row ∈ rows
                    /\ date row = date session
                    /\ time row = Some sessionTime
                    /\ ~ (checkTableName = tableName /\ id row = sessionId)
                    /\ busyRule candidate row
                    /\ details = conflictDetailsOf checkTableName row).
  { intros H. destruct (IH H) as (ck & rows & tm & row & Hin & Hrest).
    exists ck, rows, tm, row. split; [apply elem_of_cons; right; exact Hin | exact Hrest]. }
  destruct (rowsAt st c (date session) (time session)) as [conflicts|] eqn:Eat; [|exact Hrest].
  destruct (firstConflict c tableName sessionId candidate conflicts) as [hit|] eqn:Ef;
    [|exact Hrest].
  intros [= <-]. unfold rowsAt in Eat.
  destruct (time session) as [tm|] eqn:Etm; [|discriminate].
  unfold selectRows in Eat. destruct (st !! c) as [rows|] eqn:Erows; [|discriminate].
  simpl in Eat. injection Eat as <-.
  apply List.find_some in Ef as [Hin Hc].
  apply List.filter_In in Hin as [Hin Hm]. simpl in Hm.
  apply andb_true_iff in Hm as [Hd Ht]. apply bool_decide_eq_true in Hd, Ht.
  unfold isConflict in Hc.
  destruct (isSameSession c tableName sessionId hit) eqn:Eself; [discriminate|].
  exists c, rows, tm, hit. repeat split; auto.
  - apply elem_of_cons. left. reflexivity.
  - apply list_elem_of_In, Hin.
  - apply isSameSession_false, Eself.
  - apply isBusy_rule, Hc.
Qed.

(** what a hit of the detector means *)
Lemma detector_hit_iff_busy (env : Env) (st : Store) (tableName : string)
    (sessionId : Z) (session : Session) (swappedMentorId : option Z) :
  (exists details, checkConflicts env st tableName sessionId session swappedMentorId
                   = Some details)
  <-> exists candidate,
        ifTruthyZ swappedMentorId = Some candidate
        /\ busyElsewhere env st tableName sessionId session candidate.
Proof.
  unfold checkConflicts, busyElsewhere. split.
  - intros [details H].
    destruct (ifTruthyZ swappedMentorId) as [candidate|]; [|discriminate].
    destruct (get_schedule_tables env) as [tables|]; [|discriminate].
    apply scanTables_sound in H
      as (ck & rows & tm & row & H1 & H2 & H3 & H4 & H5 & H6 & H7 & H8 & _).
    exists candidate. split; [reflexivity|]. exists tables, ck, rows, tm, row. auto 10.
  - intros (candidate & -> & tables & ck & rows & tm & row & -> & H1 & H2 & H3 & H4
            & H5 & H6 & H7 & H8).
    eapply scanTables_hit; eauto.
Qed.

(** C2.  The Conflict Detector reports a truthy candidate exactly when
    a table of the registry holds, at the session's date and time, a row
    other than the session being edited in which the candidate is busy.
    Busy is decided row by row under the rule: the row is the
    candidate's own and uncovered, or the candidate covers it.  So an
    owner who is swapped away from every such row (another mentor covers
    it) is reported free, and once the swap on such a row is cleared the
    detector reports the owner again. *)
Theorem detector_busy_rule (env : Env) (st : Store) (tableName : string)
    (sessionId : Z) (session : Session) (candidate : Z) :
  candidate <> 0 ->
  ((exists details,
      checkConflicts env st tableName sessionId session (Some candidate) = Some details)
   <-> busyElsewhere env st tableName sessionId session candidate)
  /\ (forall checkTableName row,
        ~ (checkTableName = tableName /\ id row = sessionId) ->
        (isConflict checkTableName tableName sessionId candidate row = true
         <-> (mentor_id row = Some candidate /\ swapped_mentor_id row = None)
             \/ swapped_mentor_id row = Some candidate)
        /\ (forall other, mentor_id row = Some candidate ->
              swapped_mentor_id row = Some other -> other <> candidate ->
              isConflict checkTableName tableName sessionId candidate row = false)
        /\ (mentor_id row = Some candidate ->
              isConflict checkTableName tableName sessionId candidate
                (assign (set_swapped_mentor_id None) row) = true))
  /\ ((forall tables checkTableName rows sessionTime row,
         get_schedule_tables env = Some tables -> checkTableName ∈ tables ->
         st !! checkTableName = Some rows -> time session = Some sessionTime ->
         row ∈ rows -> date row = date session -> time row = Some sessionTime ->
         ~ (checkTableName = tableName /\ id row = sessionId) ->
         swapped_mentor_id row <> Some candidate
         /\ (mentor_id row = Some candidate -> swapped_mentor_id row <> None)) ->
       checkConflicts env st tableName sessionId session (Some candidate) = None)
  /\ (forall tables checkTableName rows sessionTime row st',
        get_schedule_tables env = Some tables -> checkTableName ∈ tables ->
        st !! checkTableName = Some rows -> time session = Some sessionTime ->
        row ∈ rows -> date row = date session -> time row = Some sessionTime ->
        ~ (checkTableName = tableName /\ id row = sessionId) ->
        mentor_id row = Some candidate ->
        updateRows st checkTableName (ById (id row)) [set_swapped_mentor_id None]
        = Some st' ->
        exists details,
          checkConflicts env st' tableName sessionId session (Some candidate)
          = Some details).
Proof.
  intros Hcand.
  assert (Htruthy : ifTruthyZ (Some candidate) = Some candidate)
    by (apply ifTruthyZ_Some; auto).
  assert (Hiff : forall st0,
             (exists details,
                checkConflicts env st0 tableName sessionId session (Some candidate)
                = Some details)
             <-> busyElsewhere env st0 tableName sessionId session candidate).
  { intros st0. rewrite detector_hit_iff_busy. split.
    - intros (c & Hc & Hbusy). rewrite Htruthy in Hc. injection Hc as <-. exact Hbusy.
    - intros Hbusy. exists candidate. auto. }
  split; [apply Hiff|]. split; [|split].
  - intros checkTableName row Hother. pose proof Hother as Hself.
    apply isSameSession_false in Hself. unfold isConflict. rewrite Hself.
    split; [apply isBusy_rule|]. split.
    + intros other Hm Hs Hne. apply not_true_is_false. rewrite isBusy_rule.
      unfold busyRule. rewrite Hs. intros [[_ ?]|?]; congruence.
    + intros Hm.
      assert (Hself' : isSameSession checkTableName tableName sessionId
                         (assign (set_swapped_mentor_id None) row) = false)
        by (apply isSameSession_false; exact Hother).
      rewrite Hself'. apply isBusy_rule. left. split; [exact Hm | reflexivity].
  - intros Hfree.
    destruct (checkConflicts env st tableName sessionId session (Some candidate))
      as [details|] eqn:E; [|reflexivity].
    assert (Hbusy : busyElsewhere env st tableName sessionId session candidate)
      by (apply Hiff; eauto).
    destruct Hbusy as (tables & c & rows & tm & row & H1 & H2 & H3 & H4 & H5 & H6 & H7
                       & H8 & Hrule).
    destruct (Hfree tables c rows tm row H1 H2 H3 H4 H5 H6 H7 H8) as [Hcover Hown].
    destruct Hrule as [[Hm Hn]|Hs]; [destruct (Hown Hm Hn) | destruct (Hcover Hs)].
  - intros tables c rows tm row st' H1 H2 H3 H4 H5 H6 H7 H8 Hm Hup.
    apply Hiff. unfold updateRows in Hup. rewrite H3 in Hup. injection Hup as <-.
    exists tables, c, (List.map (updateRow (ById (id row)) [set_swapped_mentor_id None]) rows),
      tm, (assign (set_swapped_mentor_id None) row).
    split; [exact H1|]. split; [exact H2|]. split; [apply lookup_insert_eq|].
    split; [exact H4|]. split.
    { apply list_elem_of_In, List.in_map_iff. exists row.
      split; [|apply list_elem_of_In, H5].
      unfold updateRow. simpl. rewrite bool_decide_eq_true_2 by reflexivity. reflexivity. }
    split; [exact H6|]. split; [exact H7|]. split; [exact H8|].
    left. split; [exact Hm | reflexivity].
Qed.

Lemma detector_busy_rule_witness :
  (exists details,
     checkConflicts sampleEnv swapStore "basic6_0_schedule" 1 rowBasic (Some 7)
     = Some details)
  /\ (isConflict "adv3_1_schedule" "basic6_0_schedule" 1 7 rowAdv = true
      <-> (mentor_id rowAdv = Some 7 /\ swapped_mentor_id rowAdv = None)
          \/ swapped_mentor_id rowAdv = Some 7).
Proof.
  assert (Hcand : 7 <> 0) by discriminate.
  destruct (detector_busy_rule sampleEnv swapStore "basic6_0_schedule" 1 rowBasic 7 Hcand)
    as (Hdetector & Hrow & _).
  split.
  - apply Hdetector.
    exists ["basic6_0_schedule"; "adv3_1_schedule"], "adv3_1_schedule", [rowAdv],
      "09:00:00", rowAdv.
    repeat split; try reflexivity; try compute_done.
    all: first [ intros [Hname _]; discriminate Hname | left; split; reflexivity ].
  - apply (Hrow "adv3_1_schedule" rowAdv). intros [Hname _]. discriminate Hname.
Defined.

(** C1.  When the Conflict Detector reports a hit, the swap request is
    answered with that conflict (409), no store update is issued, and the
    database, hence the session record with its [swapped_mentor_id], is
    what it was before. *)
Theorem conflict_gate (env : Env) (req : Request) (st : Store) (t : string)
    (i : Z) (session : Session) (details : ConflictDetails) :
  ifTruthyS (tableName req) = Some t ->
  ifTruthyZ (sessionId req) = Some i ->
  single (selectRows st t (ById i)) = Some session ->
  checkConflicts env st t i session (swappedMentorId req) = Some details ->
  let out := POST env req st in
  response out = Status409 [details]
  /\ store_after out = st
  /\ trace out = []
  /\ Forall (fun e => isUpdate e = false) (trace out)
  /\ single (selectRows (store_after out) t (ById i)) = Some session.
Proof.
  intros Ht Hi Hs Hhit out. subst out.
  unfold POST. rewrite Ht, Hi, Hs, Hhit. simpl. repeat split; auto.
Qed.

Lemma conflict_gate_witness :
  response (POST sampleEnv collidingSwap swapStore)
  = Status409 [mkConflict "adv3_1_schedule" "Adv 3.1" "Trees"]
  /\ store_after (POST sampleEnv collidingSwap swapStore) = swapStore
  /\ trace (POST sampleEnv collidingSwap swapStore) = []
  /\ Forall (fun e => isUpdate e = false) (trace (POST sampleEnv collidingSwap swapStore))
  /\ single (selectRows (store_after (POST sampleEnv collidingSwap swapStore))
               "basic6_0_schedule" (ById 1)) = Some rowBasic.
Proof.
  apply (conflict_gate sampleEnv collidingSwap swapStore "basic6_0_schedule" 1
           rowBasic (mkConflict "adv3_1_schedule" "Adv 3.1" "Trees"));
    reflexivity.
Defined.

(** the hit of the sample is the busy row of the other table *)
Lemma sample_collision_is_busy :
  busyElsewhere sampleEnv swapStore "basic6_0_schedule" 1 rowBasic 7.
Proof.
  exists ["basic6_0_schedule"; "adv3_1_schedule"], "adv3_1_schedule", [rowAdv],
    "09:00:00", rowAdv.
  repeat split; try reflexivity; try compute_done.
  all: first [ intros [Hname _]; discriminate Hname | left; split; reflexivity ].
Qed.

End ConflictGate.

(** ** The dispatcher emits sends only *)

Section DispatchFacts.
Import Js SessionUpdate.
Variable env : Env.

Lemma skip_sends : onlySends skip.
Proof. intros r. constructor. Qed.

Lemma andThen_sends (a b : Step) : onlySends a -> onlySends b -> onlySends (a >=> b).
Proof.
  intros Ha Hb r. unfold andThen. specialize (Ha r).
  destruct (a r) as [r1 e1]. specialize (Hb r1). destruct (b r1) as [r2 e2].
  simpl in *. apply Forall_app. split; assumption.
Qed.

Lemma forEach_sends {A} (f : A -> Step) (l : list A) :
  (forall x, onlySends (f x)) -> onlySends (forEach f l).
Proof.
  intros Hf. induction l as [|x l IH]; simpl; [apply skip_sends|].
  apply andThen_sends; [apply Hf | exact IH].
Qed.

Lemma tryEmail_sends (who : Role) (to : string) (f : ResultField) :
  onlySends (tryEmail env who to f).
Proof. intros r. repeat constructor. Qed.

Lemma tryWhatsApp_sends (who : Role) (to : string) (f : ResultField) :
  onlySends (tryWhatsApp env who to f).
Proof. intros r. repeat constructor. Qed.

Lemma whatsAppIfPhone_sends (who : Role) (rawPhone : option string) (f : ResultField) :
  onlySends (whatsAppIfPhone env who rawPhone f).
Proof.
  unfold whatsAppIfPhone. destruct (formatPhoneForWhatsApp rawPhone);
    [apply tryWhatsApp_sends | apply skip_sends].
Qed.

Lemma notifyMentor_sends (who : Role) (m : option MentorRow) (f g : ResultField) :
  onlySends (notifyMentor env who m f g).
Proof.
  unfold notifyMentor. destruct m as [row|]; [|apply skip_sends].
  destruct (ifTruthyS (mentor_Email_address row)); [|apply skip_sends].
  apply andThen_sends; [apply tryEmail_sends | apply whatsAppIfPhone_sends].
Qed.

Lemma notifyStudent_sends (student : StudentRow) : onlySends (notifyStudent env student).
Proof.
  unfold notifyStudent. apply andThen_sends; [|apply whatsAppIfPhone_sends].
  destruct (ifTruthyS (student_Email student)); [apply tryEmail_sends | apply skip_sends].
Qed.

Lemma notifySupermentor_sends (supermentor : SupermentorRow) :
  onlySends (notifySupermentor env supermentor).
Proof.
  unfold notifySupermentor. apply andThen_sends; [|apply whatsAppIfPhone_sends].
  destruct (ifTruthyS (supermentor_email supermentor));
    [apply tryEmail_sends | apply skip_sends].
Qed.

Lemma sendUpdateNotifications_sends (params : Params) :
  Forall (fun e => isSend e = true) (sendUpdateNotifications env params).2.
Proof.
  unfold sendUpdateNotifications.
  destruct (parseCohortFromTableName (p_tableName params)) as [cohortInfo|];
    [|constructor].
  cbv zeta.
  match goal with |- Forall _ (?step emptyResult).2 => enough (onlySends step) by auto end.
  repeat apply andThen_sends.
  - destruct (onboarding env _ _) as [students|]; [|apply skip_sends].
    destruct (_ && _); [|apply skip_sends].
    apply forEach_sends, notifyStudent_sends.
  - destruct (bool_decide (p_changedField params = Some "swapped_mentor_id")).
    + repeat apply andThen_sends; try apply notifyMentor_sends.
      destruct (bool_decide _); [apply notifyMentor_sends | apply skip_sends].
    + apply notifyMentor_sends.
  - apply notifyMentor_sends.
  - apply notifyMentor_sends.
  - destruct (supermentor_details env); [|apply skip_sends].
    apply forEach_sends, notifySupermentor_sends.
Qed.

(** an unparsable table name ends the dispatcher before anything is sent *)
Lemma sendUpdateNotifications_unparsed (params : Params) :
  parseCohortFromTableName (p_tableName params) = None ->
  sendUpdateNotifications env params = (emptyResult, []).
Proof. intros H. unfold sendUpdateNotifications. rewrite H. reflexivity. Qed.

Lemma filter_isSend_sends (l : list Event) :
  Forall (fun e => isSend e = true) l -> List.filter isSend l = l.
Proof.
  induction 1 as [|e l He _ IH]; simpl; [reflexivity|]. rewrite He, IH. reflexivity.
Qed.

Lemma filter_isSend_none (l : list Event) :
  Forall (fun e => isSend e = false) l -> List.filter isSend l = [].
Proof.
  induction 1 as [|e l He _ IH]; simpl; [reflexivity|]. rewrite He, IH. reflexivity.
Qed.

End DispatchFacts.

(** ** The orchestrator, step by step *)

Section OrchestratorFacts.
Import Js SessionUpdate.
Variable env : Env.

Lemma isMeetingEvent_not_send (e : Event) : isMeetingEvent e -> isSend e = false.
Proof. destruct e; simpl; auto; contradiction. Qed.

Lemma isMeetingEvent_keeps_flags (e : Event) : isMeetingEvent e -> writesFlags e = false.
Proof.
  destruct e as [t sel patch| | | |]; simpl; auto.
  destruct patch as [|[] [|]]; simpl; auto; contradiction.
Qed.

Lemma createAndStore_events (st : Store) (t : string) (i : Z) (session : Session)
    (accessToken : string) (w : MeetingWindow) (deleted : bool) (before : list Event) :
  Forall isMeetingEvent before ->
  Forall isMeetingEvent (ms_events (createAndStore env st t i session accessToken w deleted before)).
Proof.
  intros Hb. unfold createAndStore.
  destruct (createTeamsMeeting env _ _ _ _ _) as [newLink| |]; simpl;
    try (destruct (truthyS newLink); simpl);
    apply Forall_app; split; auto; repeat constructor.
Qed.

Lemma createAndStore_row (st : Store) (t : string) (i : Z) (session : Session)
    (accessToken : string) (w : MeetingWindow) (deleted : bool) (before : list Event) :
  single (selectRows st t (ById i)) = Some session ->
  exists s1,
    single (selectRows (ms_store (createAndStore env st t i session accessToken w deleted before))
              t (ById i)) = Some s1
    /\ linkRewritten session s1.
Proof.
  intros Hs. unfold createAndStore.
  destruct (createTeamsMeeting env _ _ _ _ _) as [newLink| |]; simpl;
    try (destruct (truthyS newLink); simpl);
    try (exists session; split; [exact Hs | left; reflexivity]).
  eexists. split; [apply updateIgnoringError_single, Hs|]. right. eexists. reflexivity.
Qed.

Lemma handleMeeting_events (req : Request) (t : string) (i : Z) (session : Session)
    (st : Store) :
  Forall isMeetingEvent (ms_events (handleMeeting env req t i session st)).
Proof.
  unfold handleMeeting, noMeetingAction.
  repeat match goal with
         | |- context [match ?x with _ => _ end] => destruct x; simpl
         end;
    try apply createAndStore_events; repeat constructor.
Qed.

Lemma handleMeeting_row (req : Request) (t : string) (i : Z) (session : Session)
    (st : Store) :
  single (selectRows st t (ById i)) = Some session ->
  exists s1,
    single (selectRows (ms_store (handleMeeting env req t i session st)) t (ById i)) = Some s1
    /\ linkRewritten session s1.
Proof.
  intros Hs. unfold handleMeeting, noMeetingAction.
  repeat match goal with
         | |- context [match ?x with _ => _ end] => destruct x; simpl
         end;
    try (apply createAndStore_row; exact Hs);
    try (exists session; split; [exact Hs | left; reflexivity]).
  eexists. split; [apply updateIgnoringError_single, Hs|]. right. eexists. reflexivity.
Qed.

Lemma linkRewritten_flags (session s1 : Session) :
  linkRewritten session s1 ->
  email_sent s1 = email_sent session /\ whatsapp_sent s1 = whatsapp_sent session.
Proof. intros [->|[v ->]]; split; reflexivity. Qed.

(** a well-formed request on an existing session runs the three steps *)
Lemma POST_runs (req : Request) (st : Store) (t : string) (i : Z) (session : Session) :
  ifTruthyS (tableName req) = Some t ->
  ifTruthyZ (sessionId req) = Some i ->
  single (selectRows st t (ById i)) = Some session ->
  POST env req st
  = let ms := handleMeeting env req t i session st in
    let sent := dispatch env req t session (ms_newLink ms) in
    let reset := resetFlags t i session (ms_store ms) in
    mkOutcome
      (Status200 (mkResults (ms_deleted ms) (ms_created ms) (ms_newLink ms)
                    (ms_cleared ms) sent.1))
      reset.1 (ms_events ms ++ sent.2 ++ reset.2).
Proof. intros Ht Hi Hs. unfold POST. rewrite Ht, Hi, Hs. reflexivity. Qed.

Lemma dispatch_sends (req : Request) (t : string) (session : Session)
    (link : option string) :
  Forall (fun e => isSend e = true) (dispatch env req t session link).2.
Proof.
  unfold dispatch. destruct (shouldSendNotifications req session);
    [apply sendUpdateNotifications_sends | constructor].
Qed.

Lemma resetFlags_not_send (t : string) (i : Z) (session : Session) (st : Store) :
  Forall (fun e => isSend e = false) (resetFlags t i session st).2.
Proof. unfold resetFlags. destruct (flagsWereSet session); repeat constructor. Qed.

(** the sends of a run are exactly those of the dispatch step *)
Lemma POST_sends (req : Request) (st : Store) (t : string) (i : Z) (session : Session) :
  ifTruthyS (tableName req) = Some t ->
  ifTruthyZ (sessionId req) = Some i ->
  single (selectRows st t (ById i)) = Some session ->
  List.filter isSend (trace (POST env req st))
  = (dispatch env req t session
       (ms_newLink (handleMeeting env req t i session st))).2.
Proof.
  intros Ht Hi Hs. rewrite (POST_runs req st t i session Ht Hi Hs). cbv zeta. simpl.
  rewrite !List.filter_app.
  rewrite (filter_isSend_none (ms_events _)).
  - rewrite (filter_isSend_sends _ (dispatch_sends _ _ _ _)).
    rewrite (filter_isSend_none _ (resetFlags_not_send _ _ _ _)).
    rewrite app_nil_r. reflexivity.
  - eapply Forall_impl; [apply handleMeeting_events|]. apply isMeetingEvent_not_send.
Qed.

End OrchestratorFacts.

(** ** Claims about the orchestrator *)

Section OrchestratorClaims.
Import Js SessionUpdate Samples.

Lemma flagsWereSet_true (session : Session) :
  flagsWereSet session = true
  <-> email_sent session = Some true \/ whatsapp_sent session = Some true.
Proof. unfold flagsWereSet. rewrite orb_true_iff, !bool_decide_eq_true. reflexivity. Qed.

Lemma shouldSendNotifications_true (req : Request) (session : Session) :
  shouldSendNotifications req session = true
  <-> changedField req = Some "swapped_mentor_id"
      \/ email_sent session = Some true \/ whatsapp_sent session = Some true.
Proof.
  unfold shouldSendNotifications, isField.
  rewrite !orb_true_iff, !bool_decide_eq_true. tauto.
Qed.

(** C3.  If [email_sent] or [whatsapp_sent] was true on the session, then
    after the run both are false in the stored row, whatever the mail
    and chat providers answered and whether or not the dispatch ran; the
    write that resets them is the last call of the run, so every send
    precedes it, and no earlier call writes a flag. *)
Theorem flags_reset_after_dispatch (env : Env) (req : Request) (st : Store)
    (t : string) (i : Z) (session : Session) :
  ifTruthyS (tableName req) = Some t ->
  ifTruthyZ (sessionId req) = Some i ->
  single (selectRows st t (ById i)) = Some session ->
  email_sent session = Some true \/ whatsapp_sent session = Some true ->
  let out := POST env req st in
  exists rowAfter before,
    single (selectRows (store_after out) t (ById i)) = Some rowAfter
    /\ email_sent rowAfter = Some false
    /\ whatsapp_sent rowAfter = Some false
    /\ trace out = (before ++ [EvUpdate t (ById i) resetPatch])%list
    /\ List.filter isSend before = List.filter isSend (trace out)
    /\ Forall (fun e => writesFlags e = false) before.
Proof.
  intros Ht Hi Hs Hflag out. subst out.
  rewrite (POST_runs env req st t i session Ht Hi Hs). cbv zeta. simpl.
  destruct (handleMeeting_row env req t i session st Hs) as (s1 & Hs1 & _).
  apply flagsWereSet_true in Hflag. unfold resetFlags. rewrite Hflag. simpl.
  exists (applyPatch resetPatch s1),
    (ms_events (handleMeeting env req t i session st)
     ++ (dispatch env req t session
           (ms_newLink (handleMeeting env req t i session st))).2)%list.
  split; [apply updateIgnoringError_single, Hs1|].
  split; [reflexivity|]. split; [reflexivity|].
  split; [rewrite app_assoc; reflexivity|]. split.
  - rewrite app_assoc, (List.filter_app isSend _ [_]). simpl. rewrite app_nil_r. reflexivity.
  - apply Forall_app. split.
    + eapply Forall_impl; [apply handleMeeting_events|]. apply isMeetingEvent_keeps_flags.
    + eapply Forall_impl; [apply dispatch_sends|]. intros [] He; simpl in *; congruence.
Qed.

Lemma flags_reset_after_dispatch_witness :
  exists rowAfter before,
    single (selectRows (store_after (POST sampleEnv demoReschedule demoStore))
              "demo_schedule" (ById 1)) = Some rowAfter
    /\ email_sent rowAfter = Some false
    /\ whatsapp_sent rowAfter = Some false
    /\ trace (POST sampleEnv demoReschedule demoStore)
       = (before ++ [EvUpdate "demo_schedule" (ById 1) resetPatch])%list
    /\ List.filter isSend before
       = List.filter isSend (trace (POST sampleEnv demoReschedule demoStore))
    /\ Forall (fun e => writesFlags e = false) before.
Proof.
  apply (flags_reset_after_dispatch sampleEnv demoReschedule demoStore
           "demo_schedule" 1 rowDemo); try reflexivity.
  left. reflexivity.
Defined.

(** C4.  On a request whose session is found, the dispatcher is run
    exactly when the changed field is [swapped_mentor_id] or one of the
    two flags of the fetched session is true: then the sends of the run
    and the reported counts are those of [sendUpdateNotifications] on the
    request; otherwise the run makes no send at all and reports the
    empty counts. *)
Theorem dispatch_gate (env : Env) (req : Request) (st : Store)
    (t : string) (i : Z) (session : Session) :
  ifTruthyS (tableName req) = Some t ->
  ifTruthyZ (sessionId req) = Some i ->
  single (selectRows st t (ById i)) = Some session ->
  let out := POST env req st in
  let gate :=
    changedField req = Some "swapped_mentor_id"
    \/ email_sent session = Some true \/ whatsapp_sent session = Some true in
  exists results,
    response out = Status200 results
    /\ (gate ->
        (notificationsSent results, List.filter isSend (trace out))
        = sendUpdateNotifications env
            (notificationParams req t session (newMeetingLink results)))
    /\ (~ gate ->
        notificationsSent results = emptyResult
        /\ List.filter isSend (trace out) = []).
Proof.
  intros Ht Hi Hs out gate.
  pose proof (POST_sends env req st t i session Ht Hi Hs) as Hsends.
  subst out. rewrite Hsends. rewrite (POST_runs env req st t i session Ht Hi Hs).
  cbv zeta. simpl. eexists. split; [reflexivity|]. simpl. unfold dispatch.
  destruct (shouldSendNotifications req session) eqn:E.
  - split; [intros _; symmetry; apply surjective_pairing|].
    intros Hno. exfalso. apply Hno, shouldSendNotifications_true, E.
  - split; [|intros _; split; reflexivity].
    intros Hyes. apply shouldSendNotifications_true in Hyes. congruence.
Qed.

Lemma dispatch_gate_witness :
  exists results,
    response (POST sampleEnv demoReschedule demoStore) = Status200 results
    /\ (changedField demoReschedule = Some "swapped_mentor_id"
        \/ email_sent rowDemo = Some true \/ whatsapp_sent rowDemo = Some true ->
        (notificationsSent results,
         List.filter isSend (trace (POST sampleEnv demoReschedule demoStore)))
        = sendUpdateNotifications sampleEnv
            (notificationParams demoReschedule "demo_schedule" rowDemo
               (newMeetingLink results)))
    /\ (~ (changedField demoReschedule = Some "swapped_mentor_id"
           \/ email_sent rowDemo = Some true \/ whatsapp_sent rowDemo = Some true) ->
        notificationsSent results = emptyResult
        /\ List.filter isSend (trace (POST sampleEnv demoReschedule demoStore)) = []).
Proof.
  apply (dispatch_gate sampleEnv demoReschedule demoStore "demo_schedule" 1 rowDemo);
    reflexivity.
Defined.

End OrchestratorClaims.

Section ContestClaim.
Import Js SessionUpdate Samples.


Lemma resetFlags_row (t : string) (i : Z) (session s1 : Session) (st : Store) :
  single (selectRows st t (ById i)) = Some s1 ->
  exists s2,
    single (selectRows (resetFlags t i session st).1 t (ById i)) = Some s2
    /\ teams_meeting_link s2 = teams_meeting_link s1.
Proof.
  intros Hs. unfold resetFlags. destruct (flagsWereSet session); simpl.
  - eexists. split; [apply updateIgnoringError_single, Hs | reflexivity].
  - eauto.
Qed.





End ContestClaim.

Section CohortClaim.
Import Js SessionUpdate Samples.

(** C8 (as amended).  When the table name does not parse, the dispatcher
    returns before anyone is contacted: no student, no mentor and no
    administrator gets a message, and the counts reported are the empty
    ones.  The run still answers 200. *)
Theorem unparsed_cohort_blocks_all (env : Env) (req : Request) (st : Store)
    (t : string) (i : Z) (session : Session) :
  ifTruthyS (tableName req) = Some t ->
  ifTruthyZ (sessionId req) = Some i ->
  single (selectRows st t (ById i)) = Some session ->
  parseCohortFromTableName t = None ->
  let out := POST env req st in
  List.filter isSend (trace out) = []
  /\ exists results,
       response out = Status200 results
       /\ notificationsSent results = emptyResult.
Proof.
  intros Ht Hi Hs Hp out.
  assert (Hd : forall link, dispatch env req t session link = (emptyResult, [])).
  { intros link. unfold dispatch. destruct (shouldSendNotifications req session);
      [|reflexivity]. apply sendUpdateNotifications_unparsed. exact Hp. }
  subst out. split.
  - rewrite (POST_sends env req st t i session Ht Hi Hs), Hd. reflexivity.
  - rewrite (POST_runs env req st t i session Ht Hi Hs). cbv zeta. simpl.
    eexists. split; [reflexivity|]. simpl. rewrite Hd. reflexivity.
Qed.

Lemma unparsed_cohort_blocks_all_witness :
  List.filter isSend (trace (POST sampleEnv demoReschedule demoStore)) = []
  /\ exists results,
       response (POST sampleEnv demoReschedule demoStore) = Status200 results
       /\ notificationsSent results = emptyResult.
Proof.
  apply (unparsed_cohort_blocks_all sampleEnv demoReschedule demoStore
           "demo_schedule" 1 rowDemo); reflexivity.
Defined.

(** C8 as stated fails: the session was announced, its mentor has an
    address and an administrator exists, yet with the table name
    [demo_schedule] the only call of the run is the flag reset. *)
Lemma unparsed_cohort_reaches_nobody :
  parseCohortFromTableName "demo_schedule" = None
  /\ mentorDetails sampleEnv 7 = Some asha
  /\ supermentor_details sampleEnv
     = Some [mkSupermentor (Some "Admin") (Some "admin@example.org") None]
  /\ trace (POST sampleEnv demoReschedule demoStore)
     = [EvUpdate "demo_schedule" (ById 1) resetPatch]
  /\ ~ exists e,
         In e (trace (POST sampleEnv demoReschedule demoStore))
         /\ (sentTo CurrentMentor e = true \/ sentTo Supermentor e = true).
Proof.
  repeat split; try reflexivity.
  intros (e & Hin & Hsent). vm_compute in Hin.
  destruct Hin as [<-|[]]. destruct Hsent; discriminate.
Qed.

(** the events of a sequence are those of its parts, in order *)
Lemma andThen_events (a b : Step) (r : NotificationResult) :
  ((a >=> b) r).2 = ((a r).2 ++ (b (a r).1).2)%list.
Proof.
  unfold andThen. destruct (a r) as [r1 e1]. simpl. destruct (b r1) as [r2 e2].
  reflexivity.
Qed.

(** On a swap the students are written to whatever the flags say: when
    the cohort resolves, the first student with an address is mailed. *)
Lemma swap_mails_students (env : Env) (req : Request) (st : Store)
    (t : string) (i : Z) (session : Session) (cohortInfo : CohortInfo)
    (student : StudentRow) (others : list StudentRow) (email : string) :
  ifTruthyS (tableName req) = Some t ->
  ifTruthyZ (sessionId req) = Some i ->
  single (selectRows st t (ById i)) = Some session ->
  changedField req = Some "swapped_mentor_id" ->
  parseCohortFromTableName t = Some cohortInfo ->
  onboarding env (type cohortInfo) (number cohortInfo) = Some (student :: others) ->
  ifTruthyS (student_Email student) = Some email ->
  In (EvEmail Student email (sendEmail env Student email)) (trace (POST env req st)).
Proof.
  intros Ht Hi Hs Hf Hp Hst He.
  assert (Hin : In (EvEmail Student email (sendEmail env Student email))
                  (List.filter isSend (trace (POST env req st)))).
  { rewrite (POST_sends env req st t i session Ht Hi Hs). unfold dispatch.
    assert (Hgate : shouldSendNotifications req session = true)
      by (apply shouldSendNotifications_true; left; exact Hf).
    rewrite Hgate. unfold sendUpdateNotifications. simpl p_tableName. rewrite Hp.
    cbv zeta. simpl p_updateType.
    assert (Hu : updateTypeOf req = details_updated).
    { unfold updateTypeOf, isField. rewrite Hf. reflexivity. }
    rewrite Hu, Hst. rewrite andThen_events. apply in_or_app. left.
    simpl. rewrite andThen_events. apply in_or_app. left.
    unfold notifyStudent. rewrite andThen_events. apply in_or_app. left.
    rewrite He. simpl. left. reflexivity. }
  apply List.filter_In in Hin. tauto.
Qed.

(** the earlier swap handler sends nothing before the first announcement *)
Lemma legacy_swap_waits_for_announcement (swappedMentorId : option Z)
    (newMentor : option MentorRow) (session : Session) :
  email_sent session <> Some true ->
  whatsapp_sent session <> Some true ->
  SwapLegacy.notifies swappedMentorId newMentor session = false.
Proof.
  intros He Hw. unfold SwapLegacy.notifies, SwapLegacy.shouldSendNotifications.
  rewrite (bool_decide_eq_false_2 _ He), (bool_decide_eq_false_2 _ Hw).
  apply andb_false_r.
Qed.

(** C5 evaluated on the code.  The session has both flags false and is
    swapped to a free mentor; the student of the cohort is mailed all
    the same, through the swap handler and through the orchestrator
    called on its own. *)
Theorem swap_before_announcement_mails_students :
  email_sent rowBasic = Some false
  /\ whatsapp_sent rowBasic = Some false
  /\ In (EvEmail Student "stu@example.org" (Sent true))
       (trace (SwapMentor.POST sampleEnv freeSwap swapStore))
  /\ In (EvEmail Student "stu@example.org" (Sent true))
       (trace (POST sampleEnv
                 (SwapMentor.sessionUpdateRequest "basic6_0_schedule" 1 rowBasic 42)
                 swapStore)).
Proof. vm_compute. intuition. Qed.

End CohortClaim.

(** ** The meeting window *)

Section WindowClaim.
Import Js SessionUpdate Samples.

Lemma digitValue_range (c : ascii) (n : Z) : digitValue c = Some n -> 0 <= n <= 9.
Proof.
  unfold digitValue, isDigit. destruct (_ && _)%N eqn:E; [|discriminate].
  intros [= <-]. apply andb_true_iff in E as [E1 E2].
  apply N.leb_le in E1, E2. lia.
Qed.

Lemma digitValue_digitChar (n : Z) : 0 <= n <= 9 -> digitValue (digitChar n) = Some n.
Proof.
  intros Hn. unfold digitValue, digitChar, isDigit.
  rewrite N_ascii_embedding by lia.
  assert (Hlo : (48 <=? Z.to_N (48 + n))%N = true) by (apply N.leb_le; lia).
  assert (Hhi : (Z.to_N (48 + n) <=? 57)%N = true) by (apply N.leb_le; lia).
  rewrite Hlo, Hhi. simpl. f_equal. lia.
Qed.

Lemma minuteOfDay_range (hhmm : string) (start : Z) :
  minuteOfDay hhmm = Some start -> 0 <= start <= 1440.
Proof.
  destruct hhmm as [|h1 [|h2 [|colon [|m1 [|m2 [|]]]]]]; try discriminate. simpl.
  destruct (digitValue h1) as [a|] eqn:Ea; [|discriminate].
  destruct (digitValue h2) as [b|] eqn:Eb; [|discriminate].
  destruct (digitValue m1) as [c|] eqn:Ec; [|discriminate].
  destruct (digitValue m2) as [d|] eqn:Ed; [|discriminate].
  apply digitValue_range in Ea, Eb, Ec, Ed.
  destruct (_ && _) eqn:E; [|discriminate]. intros [= <-].
  apply andb_true_iff in E as [_ E]. apply orb_true_iff in E as [E|E];
    apply andb_true_iff in E as [E1 E2]; lia.
Qed.

Lemma minuteOfDay_pad2 (h m : Z) :
  0 <= h < 24 -> 0 <= m < 60 ->
  minuteOfDay (pad2 h +:+ ":" +:+ pad2 m) = Some (60 * h + m).
Proof.
  intros Hh Hm. unfold pad2. simpl.
  assert (Hdiv : forall n, 0 <= n < 100 -> 0 <= n / 10 <= 9 /\ 0 <= n mod 10 <= 9).
  { intros n Hn. pose proof (Z.mod_pos_bound n 10 ltac:(lia)).
    pose proof (Z.div_pos n 10 ltac:(lia) ltac:(lia)).
    pose proof (Z.div_lt_upper_bound n 10 10 ltac:(lia) ltac:(lia)). lia. }
  destruct (Hdiv h ltac:(lia)) as [Hh1 Hh2]. destruct (Hdiv m ltac:(lia)) as [Hm1 Hm2].
  rewrite !digitValue_digitChar by assumption.
  replace (10 * (h / 10) + h mod 10) with h by (rewrite (Z.div_mod h 10) at 1; lia).
  replace (10 * (m / 10) + m mod 10) with m by (rewrite (Z.div_mod m 10) at 1; lia).
  assert (Hok : (h <=? 23) && (m <=? 59) = true)
    by (apply andb_true_iff; split; apply Z.leb_le; lia).
  rewrite Hok. reflexivity.
Qed.

(** C9 evaluated on the code.  A session at 23:00 with a meeting is
    rescheduled: the meeting is created from 23:00:00 to 00:30:00 of the
    same date, 1350 minutes before its start instead of 90 after. *)
Theorem late_session_window_wraps :
  meetingWindow sampleEnv "2024-01-10" "23:00:00"
  = mkWindow "2024-01-10" "23:00" "2024-01-10T23:00:00" "2024-01-10T00:30:00"
  /\ windowMinutes (meetingWindow sampleEnv "2024-01-10" "23:00:00") = Some (-1350)
  /\ In (EvCreateMeeting "Cohort Basic 6.0 - Night class"
           "2024-01-10T23:00:00" "2024-01-10T00:30:00"
           ["asha@example.org"; "stu@example.org"])
       (trace (POST sampleEnv lateReschedule lateStore)).
Proof. vm_compute. intuition. Qed.

(** the earlier swap handler adds its 60 minutes to the start instant *)
Lemma legacy_window_is_60 (startTime : Z) :
  SwapLegacy.endTime startTime - startTime = 60 * 60000.
Proof. unfold SwapLegacy.endTime, SwapLegacy.sessionDuration. lia. Qed.

End WindowClaim.

(** * Further properties of the code *)

(** ** Phone numbers *)

Section PhoneFacts.
Import Js SessionUpdate.

Lemma length_append (a b : string) :
  String.length (a +:+ b) = (String.length a + String.length b)%nat.
Proof. induction a as [|c a IH]; simpl; [reflexivity|]. rewrite IH. reflexivity. Qed.

Lemma digitsOnly_digits (s : string) : allChars isDigit (digitsOnly s) = true.
Proof.
  induction s as [|c s IH]; simpl; [reflexivity|].
  destruct (isDigit c) eqn:E; simpl; [rewrite E|]; exact IH.
Qed.

Lemma digitsOnly_id (s : string) : allChars isDigit s = true -> digitsOnly s = s.
Proof.
  induction s as [|c s IH]; simpl; [reflexivity|]. intros H.
  apply andb_true_iff in H as [Hc Hs]. rewrite Hc, (IH Hs). reflexivity.
Qed.

Lemma allChars_append (p : ascii -> bool) (a b : string) :
  allChars p (a +:+ b) = allChars p a && allChars p b.
Proof.
  induction a as [|c a IH]; simpl; [reflexivity|]. rewrite IH, andb_assoc. reflexivity.
Qed.

Lemma formatPhone_fixed (d : string) :
  allChars isDigit d = true ->
  (11 <= String.length d <= 15)%nat ->
  formatPhoneForWhatsApp (Some d) = Some d.
Proof.
  intros Hd Hlen. unfold formatPhoneForWhatsApp.
  assert (Ht : ifTruthyS (Some d) = Some d).
  { apply ifTruthyS_Some. split; [reflexivity|]. intros ->. simpl in Hlen. lia. }
  rewrite Ht, (digitsOnly_id _ Hd).
  destruct (Nat.eqb_spec (String.length d) 10); [lia|].
  assert (Hlo : (10 <=? String.length d)%nat = true) by (apply Nat.leb_le; lia).
  assert (Hhi : (String.length d <=? 15)%nat = true) by (apply Nat.leb_le; lia).
  rewrite Hlo, Hhi. reflexivity.
Qed.

(** A formatted number consists of digits only and has 11 to 15 of
    them: a ten-digit number never comes out as it is, it gets the
    country code 91.  The result is the digits of the input, with or
    without that prefix, and formatting it again changes nothing. *)
Theorem formatted_phone_is_stable (phone : option string) (formatted : string) :
  formatPhoneForWhatsApp phone = Some formatted ->
  allChars isDigit formatted = true
  /\ (11 <= String.length formatted <= 15)%nat
  /\ (exists raw, phone = Some raw
        /\ (formatted = digitsOnly raw
            \/ (String.length (digitsOnly raw) = 10%nat
                /\ formatted = "91" +:+ digitsOnly raw)))
  /\ formatPhoneForWhatsApp (Some formatted) = Some formatted.
Proof.
  unfold formatPhoneForWhatsApp at 1.
  destruct (ifTruthyS phone) as [raw|] eqn:Eraw; [|discriminate].
  apply ifTruthyS_Some in Eraw as [-> Hne].
  pose proof (digitsOnly_digits raw) as Hd.
  destruct (Nat.eqb_spec (String.length (digitsOnly raw)) 10) as [Hten|Hten].
  - rewrite length_append, Hten. simpl. intros [= <-].
    assert (Hlen : String.length ("91" +:+ digitsOnly raw) = 12%nat)
      by (rewrite length_append, Hten; reflexivity).
    assert (Hall : allChars isDigit ("91" +:+ digitsOnly raw) = true)
      by (rewrite allChars_append, Hd; reflexivity).
    split; [exact Hall|]. split; [lia|]. split; [eauto|].
    apply formatPhone_fixed; [exact Hall | lia].
  - destruct (_ && _) eqn:Erange; [|discriminate]. intros [= <-].
    apply andb_true_iff in Erange as [Hlo Hhi].
    apply Nat.leb_le in Hlo, Hhi.
    split; [exact Hd|]. split; [lia|]. split; [eauto|].
    apply formatPhone_fixed; [exact Hd | lia].
Qed.

Lemma formatted_phone_is_stable_witness :
  allChars isDigit "919876543210" = true
  /\ formatPhoneForWhatsApp (Some "919876543210") = Some "919876543210".
Proof.
  destruct (formatted_phone_is_stable (Some "+91 98765-43210") "919876543210" eq_refl)
    as (Hd & _ & _ & Hs).
  split; [exact Hd | exact Hs].
Defined.

(** A number with exactly ten digits is a local number: whatever
    separators it is written with, it comes out as 91 and its digits. *)
Theorem local_phone_gets_country_code (raw : string) :
  String.length (digitsOnly raw) = 10%nat ->
  formatPhoneForWhatsApp (Some raw) = Some ("91" +:+ digitsOnly raw)
  /\ SwapLegacy.formatPhoneForWhatsApp (Some raw) = Some ("91" +:+ digitsOnly raw).
Proof.
  intros Hten.
  assert (Hne : raw <> EmptyString) by (intros ->; discriminate Hten).
  assert (Ht : ifTruthyS (Some raw) = Some raw) by (apply ifTruthyS_Some; auto).
  unfold formatPhoneForWhatsApp, SwapLegacy.formatPhoneForWhatsApp.
  rewrite Ht, Hten. cbn [Nat.eqb]. rewrite !length_append, Hten. split; reflexivity.
Qed.

Lemma local_phone_gets_country_code_witness :
  formatPhoneForWhatsApp (Some "98765 43210") = Some "919876543210"
  /\ SwapLegacy.formatPhoneForWhatsApp (Some "98765 43210") = Some "919876543210".
Proof. apply (local_phone_gets_country_code "98765 43210"). reflexivity. Defined.

Lemma stripPrefix_plus_digits (s : string) :
  allChars isDigit s = true -> stripPrefix "+" s = None.
Proof.
  destruct s as [|c s]; [reflexivity|]. cbn [stripPrefix allChars]. intros H.
  apply andb_true_iff in H as [Hc _].
  destruct (Ascii.eqb "+" c) eqn:E; [|reflexivity].
  apply Ascii.eqb_eq in E. subst c. discriminate Hc.
Qed.

(** The two handlers' phone formatters give the same answer unless the
    digits begin with 0 and are not ten: only then does the earlier one
    put 91 in place of the 0. *)
Theorem phone_formatters_agree (phone : option string) :
  (forall raw, phone = Some raw ->
     String.length (digitsOnly raw) = 10%nat \/ stripPrefix "0" (digitsOnly raw) = None) ->
  SwapLegacy.formatPhoneForWhatsApp phone = formatPhoneForWhatsApp phone.
Proof.
  intros H. unfold SwapLegacy.formatPhoneForWhatsApp, formatPhoneForWhatsApp.
  destruct (ifTruthyS phone) as [raw|] eqn:Eraw; [|reflexivity].
  apply ifTruthyS_Some in Eraw as [-> Hne]. specialize (H raw eq_refl).
  destruct (Nat.eqb_spec (String.length (digitsOnly raw)) 10) as [Hten|Hten].
  - rewrite length_append, Hten. reflexivity.
  - destruct H as [H|H]; [contradiction|].
    rewrite H, (stripPrefix_plus_digits _ (digitsOnly_digits raw)).
    destruct (Nat.ltb_spec (String.length (digitsOnly raw)) 10) as [Hlt|Hge];
      destruct (Nat.ltb_spec 15 (String.length (digitsOnly raw))) as [Hgt|Hle];
      destruct (Nat.leb_spec 10 (String.length (digitsOnly raw)));
      destruct (Nat.leb_spec (String.length (digitsOnly raw)) 15);
      simpl; try reflexivity; lia.
Qed.

Lemma phone_formatters_agree_witness :
  SwapLegacy.formatPhoneForWhatsApp (Some "+1 (415) 555-2671")
  = formatPhoneForWhatsApp (Some "+1 (415) 555-2671").
Proof.
  apply (phone_formatters_agree (Some "+1 (415) 555-2671")).
  intros raw [= <-]. right. reflexivity.
Defined.

End PhoneFacts.

(** ** Table names *)

Section CohortFacts.
Import Js SessionUpdate.

Lemma append_cons (x : ascii) (a b : string) : String x a +:+ b = String x (a +:+ b).
Proof. reflexivity. Qed.

Lemma append_assoc (a b c : string) : (a +:+ b) +:+ c = a +:+ (b +:+ c).
Proof.
  induction a as [|x a IH]; [reflexivity|]. rewrite !append_cons. f_equal. exact IH.
Qed.

Lemma append_empty_r (a : string) : a +:+ "" = a.
Proof.
  induction a as [|x a IH]; [reflexivity|]. rewrite append_cons. f_equal. exact IH.
Qed.

Lemma stopsAt_disjoint (p q : ascii -> bool) (s : string) :
  (forall c, q c = true -> p c = false) -> run q s -> stopsAt p s.
Proof.
  intros Hpq [Hall Hne]. destruct s as [|c s]; [exact I|]. simpl in *.
  apply andb_true_iff in Hall as [Hc _]. apply Hpq, Hc.
Qed.

Lemma append_nil_l (b : string) : "" +:+ b = b.
Proof. reflexivity. Qed.

(** [span] cuts exactly at the first character outside the class *)
Lemma span_cut (p : ascii -> bool) (s a r : string) :
  span p s = (a, r) <-> s = a +:+ r /\ allChars p a = true /\ stopsAt p r.
Proof.
  revert a r. induction s as [|c s IH]; intros a r; cbn [span].
  - split.
    + intros [= <- <-]. repeat split; exact I.
    + intros (Hs & _ & _). destruct a; [|discriminate].
      rewrite append_nil_l in Hs. subst r. reflexivity.
  - destruct (p c) eqn:Ec.
    + destruct (span p s) as [a' r'] eqn:Es. split.
      * intros [= <- <-]. destruct (proj1 (IH a' r') eq_refl) as (-> & Ha & Hr).
        rewrite append_cons. cbn [allChars]. rewrite Ec, Ha. auto.
      * intros (Hs & Ha & Hr). destruct a as [|x a].
        -- rewrite append_nil_l in Hs. subst r. unfold stopsAt in Hr. congruence.
        -- rewrite append_cons in Hs. cbn [allChars] in Ha. injection Hs as <- Hs.
           apply andb_true_iff in Ha as [_ Ha].
           pose proof (proj2 (IH a r) (conj Hs (conj Ha Hr))) as [= -> ->]. reflexivity.
    + split.
      * intros [= <- <-]. repeat split. exact Ec.
      * intros (Hs & Ha & Hr). destruct a as [|x a].
        -- rewrite append_nil_l in Hs. subst r. reflexivity.
        -- rewrite append_cons in Hs. cbn [allChars] in Ha. injection Hs as <- Hs.
           apply andb_true_iff in Ha as [Ha _]. congruence.
Qed.

Lemma letter_not_digit (c : ascii) : isDigit c = true -> isLetter c = false.
Proof.
  unfold isDigit, isLetter, isUpper, isLower. intros H.
  apply andb_true_iff in H as [H1 H2]. apply N.leb_le in H1, H2.
  apply orb_false_iff. split; apply andb_false_iff; left; apply N.leb_gt; lia.
Qed.

Lemma underscore_is_neither :
  isLetter "_" = false /\ isDigit "_" = false.
Proof. split; reflexivity. Qed.

(** The pattern [^([a-zA-Z]+)(\d+)_(\d+)$] accepts exactly a run of
    letters, a run of digits, an underscore and a run of digits, and its
    three groups are those runs. *)
Lemma matchCohort_iff (name typeRaw major minor : string) :
  matchCohort name = Some (typeRaw, major, minor)
  <-> name = typeRaw +:+ major +:+ "_" +:+ minor
      /\ run isLetter typeRaw /\ run isDigit major /\ run isDigit minor.
Proof.
  unfold matchCohort, run. split.
  - destruct (span isLetter name) as [a r1] eqn:E1.
    destruct (span isDigit r1) as [b r2] eqn:E2.
    destruct r2 as [|u r3]; [discriminate|].
    destruct (Ascii.eqb_spec u "_") as [->|Hu].
    2:{ destruct u as [[] [] [] [] [] [] [] []]; try discriminate; contradiction. }
    destruct (span isDigit r3) as [m r4] eqn:E3.
    destruct (_ && _) eqn:Eok; [|discriminate]. intros [= <- <- <-].
    apply span_cut in E1 as (-> & Ha & _).
    apply span_cut in E2 as (-> & Hb & _).
    apply span_cut in E3 as (-> & Hm & _).
    repeat (apply andb_true_iff in Eok as [Eok ?]).
    rewrite !truthyS_true in *.
    destruct r4; [|discriminate]. rewrite append_empty_r. auto 10.
  - intros (-> & [Ha Hane] & [Hb Hbne] & [Hm Hmne]).
    assert (E1 : span isLetter (typeRaw +:+ major +:+ "_" +:+ minor)
                 = (typeRaw, major +:+ "_" +:+ minor)).
    { apply span_cut. split; [reflexivity|]. split; [exact Ha|].
      destruct major as [|c major]; [contradiction|]. rewrite append_cons.
      cbn [allChars] in Hb. apply andb_true_iff in Hb as [Hc _].
      apply letter_not_digit, Hc. }
    assert (E2 : span isDigit (major +:+ "_" +:+ minor) = (major, "_" +:+ minor)).
    { apply span_cut. split; [reflexivity|]. split; [exact Hb | reflexivity]. }
    assert (E3 : span isDigit minor = (minor, "")).
    { apply span_cut. split; [symmetry; apply append_empty_r|].
      split; [exact Hm | exact I]. }
    rewrite E1, E2, append_cons, append_nil_l. cbv beta iota. rewrite E3.
    apply truthyS_true in Hane, Hbne, Hmne. rewrite Hane, Hbne, Hmne. reflexivity.
Qed.

End CohortFacts.

Section CohortNames.
Import Js SessionUpdate.

Lemma removeFirst_step (pat : string) (c : ascii) (s : string) :
  removeFirst pat (String c s)
  = match stripPrefix pat (String c s) with
    | Some rest => rest
    | None => String c (removeFirst pat s)
    end.
Proof. reflexivity. Qed.

Lemma eqb_class (p : ascii -> bool) (x c : ascii) :
  p x = false -> p c = true -> Ascii.eqb x c = false.
Proof.
  intros Hx Hc. destruct (Ascii.eqb x c) eqn:E; [|reflexivity].
  apply Ascii.eqb_eq in E. subst. congruence.
Qed.

(** a run without underscore is stepped over by [replace('_schedule', '')] *)
Lemma removeFirst_run (p : ascii -> bool) (x rest : string) :
  p "_"%char = false ->
  allChars p x = true ->
  removeFirst "_schedule" (x +:+ rest) = x +:+ removeFirst "_schedule" rest.
Proof.
  intros Hp. induction x as [|c x IH]; [reflexivity|]. cbn [allChars]. intros H.
  apply andb_true_iff in H as [Hc Hx].
  rewrite !append_cons, removeFirst_step. cbn [stripPrefix].
  rewrite (eqb_class p _ _ Hp Hc), (IH Hx). reflexivity.
Qed.

Lemma removeFirst_suffix (typeRaw major minor : string) :
  run isLetter typeRaw -> run isDigit major -> run isDigit minor ->
  removeFirst "_schedule" (typeRaw +:+ major +:+ "_" +:+ minor +:+ "_schedule")
  = typeRaw +:+ major +:+ "_" +:+ minor.
Proof.
  intros [Ha _] [Hb _] [Hm Hmne].
  rewrite (removeFirst_run isLetter) by (reflexivity || exact Ha).
  rewrite (removeFirst_run isDigit) by (reflexivity || exact Hb).
  do 2 f_equal. rewrite append_cons, append_nil_l, removeFirst_step.
  destruct minor as [|d minor]; [contradiction|].
  cbn [allChars] in Hm. apply andb_true_iff in Hm as [Hd Hm].
  rewrite append_cons. cbn [stripPrefix]. rewrite Ascii.eqb_refl.
  assert (Es : Ascii.eqb "s" d = false) by (apply (eqb_class isDigit); [reflexivity | exact Hd]).
  rewrite Es. f_equal. rewrite removeFirst_step. cbn [stripPrefix].
  assert (Eu : Ascii.eqb "_" d = false) by (apply (eqb_class isDigit); [reflexivity | exact Hd]).
  rewrite Eu. f_equal.
  rewrite (removeFirst_run isDigit) by (reflexivity || exact Hm).
  change (removeFirst "_schedule" "_schedule") with "". apply append_empty_r.
Qed.

(** [parseCohortFromTableName] resolves exactly the names that, once the
    first ["_schedule"] is taken out, are a run of letters, a run of
    digits, an underscore and a run of digits; the cohort is the
    capitalised letters and ["major.minor"]. *)
Theorem parseCohort_resolves_exactly (tableName : string) (cohortInfo : CohortInfo) :
  parseCohortFromTableName tableName = Some cohortInfo
  <-> exists typeRaw major minor,
        removeFirst "_schedule" tableName = typeRaw +:+ major +:+ "_" +:+ minor
        /\ run isLetter typeRaw /\ run isDigit major /\ run isDigit minor
        /\ cohortInfo = mkCohort (capitalize typeRaw) (major +:+ "." +:+ minor).
Proof.
  unfold parseCohortFromTableName. split.
  - destruct (matchCohort _) as [[[a b] m]|] eqn:E; [|discriminate]. intros [= <-].
    apply matchCohort_iff in E as (Hn & Ha & Hb & Hm). exists a, b, m. auto.
  - intros (a & b & m & Hn & Ha & Hb & Hm & ->).
    rewrite (proj2 (matchCohort_iff _ a b m) (conj Hn (conj Ha (conj Hb Hm)))).
    reflexivity.
Qed.

Lemma matchBatch_wellformed (typeRaw major minor : string) :
  run isLetter typeRaw -> run isDigit major -> run isDigit minor ->
  SwapMentor.matchBatch (typeRaw +:+ major +:+ "_" +:+ minor +:+ "_schedule")
  = Some (typeRaw, major, minor).
Proof.
  intros [Ha Hane] [Hb Hbne] [Hm Hmne]. unfold SwapMentor.matchBatch.
  assert (E1 : span isLetter (typeRaw +:+ major +:+ "_" +:+ minor +:+ "_schedule")
               = (typeRaw, major +:+ "_" +:+ minor +:+ "_schedule")).
  { apply span_cut. split; [reflexivity|]. split; [exact Ha|].
    destruct major as [|c major]; [contradiction|]. rewrite append_cons.
    cbn [allChars] in Hb. apply andb_true_iff in Hb as [Hc _].
    apply letter_not_digit, Hc. }
  assert (E2 : span isDigit (major +:+ "_" +:+ minor +:+ "_schedule")
               = (major, "_" +:+ minor +:+ "_schedule")).
  { apply span_cut. split; [reflexivity|]. split; [exact Hb | reflexivity]. }
  assert (E3 : span isDigit (minor +:+ "_schedule") = (minor, "_schedule")).
  { apply span_cut. split; [reflexivity|]. split; [exact Hm | reflexivity]. }
  rewrite E1, E2, append_cons, append_nil_l. cbv beta iota. rewrite E3.
  apply truthyS_true in Hane, Hbne, Hmne. rewrite Hane, Hbne, Hmne. reflexivity.
Qed.

(** On a table name of the agreed form, letters, digits, underscore,
    digits and ["_schedule"], the orchestrator's parser and the conflict
    scan's batch name agree: the cohort is the capitalised letters with
    ["major.minor"], and the batch name is its type, a space, its number. *)
Theorem wellformed_name_resolves (typeRaw major minor : string) :
  run isLetter typeRaw -> run isDigit major -> run isDigit minor ->
  let tableName := typeRaw +:+ major +:+ "_" +:+ minor +:+ "_schedule" in
  parseCohortFromTableName tableName
  = Some (mkCohort (capitalize typeRaw) (major +:+ "." +:+ minor))
  /\ SwapMentor.batchNameOf tableName
     = capitalize typeRaw +:+ " " +:+ major +:+ "." +:+ minor.
Proof.
  intros Ha Hb Hm tableName. subst tableName. split.
  - unfold parseCohortFromTableName.
    rewrite (proj2 (matchCohort_iff _ typeRaw major minor)); [reflexivity|].
    split; [apply removeFirst_suffix; assumption | auto].
  - unfold SwapMentor.batchNameOf. rewrite matchBatch_wellformed by assumption.
    reflexivity.
Qed.

Lemma wellformed_name_resolves_witness :
  parseCohortFromTableName "basic6_0_schedule" = Some (mkCohort "Basic" "6.0")
  /\ SwapMentor.batchNameOf "basic6_0_schedule" = "Basic 6.0".
Proof.
  apply (wellformed_name_resolves "basic" "6" "0"); split; (reflexivity || discriminate).
Defined.

End CohortNames.

(** ** What the orchestrator leaves alone *)

Section FrameFacts.
Import Js SessionUpdate.

Lemma touchesOnly_refl (t : string) (i : Z) (st : Store) : touchesOnly t i st st.
Proof.
  intros t'. split; [reflexivity|]. destruct (st !! t') as [rows|]; [|exact I].
  induction rows; constructor; auto.
Qed.

Lemma touchesOnly_trans (t : string) (i : Z) (st1 st2 st3 : Store) :
  touchesOnly t i st1 st2 -> touchesOnly t i st2 st3 -> touchesOnly t i st1 st3.
Proof.
  intros H12 H23 t'. destruct (H12 t') as [E12 F12]. destruct (H23 t') as [E23 F23].
  split; [intros Hne; rewrite E23, E12 by exact Hne; reflexivity|].
  destruct (st1 !! t') as [r1|], (st2 !! t') as [r2|], (st3 !! t') as [r3|];
    try contradiction; try exact I.
  eapply Forall2_trans; [|exact F12|exact F23].
  intros x y z [Hxy Hxy'] [Hyz Hyz']. split; [congruence|].
  intros Hne. rewrite Hyz', Hxy'; congruence.
Qed.

Lemma updateRows_touches (st st' : Store) (t : string) (i : Z) (patch : list Assign) :
  updateRows st t (ById i) patch = Some st' -> touchesOnly t i st st'.
Proof.
  unfold updateRows. destruct (st !! t) as [rows|] eqn:E; [|discriminate].
  intros [= <-] t'. split; [intros Hne; apply lookup_insert_ne; congruence|].
  destruct (decide (t' = t)) as [->|Hne].
  - rewrite E, lookup_insert_eq. clear E.
    induction rows as [|r rows IH]; constructor; [|exact IH].
    unfold updateRow. simpl. destruct (decide (id r = i)) as [Hi|Hi].
    + rewrite bool_decide_eq_true_2 by exact Hi.
      split; [apply applyPatch_keys | contradiction].
    + rewrite bool_decide_eq_false_2 by exact Hi. auto.
  - rewrite lookup_insert_ne by congruence.
    destruct (st !! t') as [others|]; [|exact I]. induction others; constructor; auto.
Qed.

Lemma updateIgnoringError_touches (st : Store) (t : string) (i : Z) (patch : list Assign) :
  touchesOnly t i st (updateIgnoringError st t (ById i) patch).
Proof.
  unfold updateIgnoringError. destruct (updateRows st t (ById i) patch) as [st'|] eqn:E.
  - apply (updateRows_touches _ _ _ _ _ E).
  - apply touchesOnly_refl.
Qed.

Lemma handleMeeting_touches (env : Env) (req : Request) (t : string) (i : Z)
    (session : Session) (st : Store) :
  touchesOnly t i st (ms_store (handleMeeting env req t i session st)).
Proof.
  unfold handleMeeting, createAndStore, noMeetingAction.
  repeat match goal with
         | |- context [match ?x with _ => _ end] => destruct x; simpl
         end;
    first [apply touchesOnly_refl | apply updateIgnoringError_touches].
Qed.

Lemma resetFlags_touches (t : string) (i : Z) (session : Session) (st : Store) :
  touchesOnly t i st (resetFlags t i session st).1.
Proof.
  unfold resetFlags. destruct (flagsWereSet session); simpl;
    [apply updateIgnoringError_touches | apply touchesOnly_refl].
Qed.

Lemma linkRewritten_frame (session s1 : Session) :
  linkRewritten session s1 -> onlyLinkAndFlags session s1.
Proof. intros [->|[v ->]]; repeat split. Qed.

(** The orchestrator writes one row and three of its columns.  After
    a run on a found session every other table and every other row is
    what it was; the session's row agrees with the old one outside
    [teams_meeting_link], [email_sent] and [whatsapp_sent]; and the two
    flags are both false if one of them was true, untouched otherwise. *)
Theorem orchestrator_writes_link_and_flags_only (env : Env) (req : Request)
    (st : Store) (t : string) (i : Z) (session : Session) :
  ifTruthyS (tableName req) = Some t ->
  ifTruthyZ (sessionId req) = Some i ->
  single (selectRows st t (ById i)) = Some session ->
  let out := POST env req st in
  touchesOnly t i st (store_after out)
  /\ exists rowAfter,
       single (selectRows (store_after out) t (ById i)) = Some rowAfter
       /\ onlyLinkAndFlags session rowAfter
       /\ (flagsWereSet session = true ->
           email_sent rowAfter = Some false /\ whatsapp_sent rowAfter = Some false)
       /\ (flagsWereSet session = false ->
           email_sent rowAfter = email_sent session
           /\ whatsapp_sent rowAfter = whatsapp_sent session
           /\ Forall (fun e => writesFlags e = false) (trace out)).
Proof.
  intros Ht Hi Hs out. subst out.
  rewrite (POST_runs env req st t i session Ht Hi Hs). cbv zeta. simpl.
  split.
  - eapply touchesOnly_trans; [apply handleMeeting_touches | apply resetFlags_touches].
  - destruct (handleMeeting_row env req t i session st Hs) as (s1 & Hs1 & Hrw).
    pose proof (linkRewritten_frame _ _ Hrw) as Hframe.
    pose proof (linkRewritten_flags _ _ Hrw) as [He Hw].
    unfold resetFlags. destruct (flagsWereSet session) eqn:Ef; simpl.
    + exists (applyPatch resetPatch s1).
      split; [apply updateIgnoringError_single, Hs1|].
      split; [exact Hframe|]. split; [auto | discriminate].
    + exists s1. split; [exact Hs1|]. split; [exact Hframe|].
      split; [discriminate|]. intros _. split; [exact He|]. split; [exact Hw|].
      rewrite app_nil_r. apply Forall_app. split.
      * eapply Forall_impl; [apply handleMeeting_events|].
        apply isMeetingEvent_keeps_flags.
      * eapply Forall_impl; [apply dispatch_sends|]. intros [] Hsend; simpl in *; congruence.
Qed.

End FrameFacts.

(** ** The meeting step *)

Section MeetingFacts.
Import Js SessionUpdate Samples.

Lemma orchestrator_writes_link_and_flags_only_witness :
  touchesOnly "demo_schedule" 1 demoStore
    (store_after (POST sampleEnv demoReschedule demoStore)).
Proof.
  exact (proj1 (orchestrator_writes_link_and_flags_only sampleEnv demoReschedule
                  demoStore "demo_schedule" 1 rowDemo eq_refl eq_refl eq_refl)).
Defined.

Lemma createAndStore_link (env : Env) (st : Store) (t : string) (i : Z)
    (session : Session) (accessToken : string) (w : MeetingWindow) (deleted : bool)
    (before : list Event) :
  single (selectRows st t (ById i)) = Some session ->
  let ms := createAndStore env st t i session accessToken w deleted before in
  (ms_created ms = true <-> is_Some (ms_newLink ms))
  /\ ms_cleared ms = false
  /\ forall l, ms_newLink ms = Some l ->
       l <> EmptyString
       /\ single (selectRows (ms_store ms) t (ById i))
          = Some (assign (set_teams_meeting_link (Some l)) session).
Proof.
  intros Hs ms. subst ms. unfold createAndStore.
  destruct (createTeamsMeeting env _ _ _ _ _) as [newLink| |]; simpl.
  - destruct (truthyS newLink) eqn:E; simpl.
    + split; [split; eauto|]. split; [reflexivity|]. intros l [= <-].
      split; [apply truthyS_true, E|].
      rewrite (updateIgnoringError_single _ _ _ _ _ Hs). reflexivity.
    + split; [split; [discriminate | intros [? ?]; discriminate]|].
      split; [reflexivity | discriminate].
  - split; [split; [discriminate | intros [? ?]; discriminate]|].
    split; [reflexivity | discriminate].
  - split; [split; [discriminate | intros [? ?]; discriminate]|].
    split; [reflexivity | discriminate].
Qed.

Lemma handleMeeting_link (env : Env) (req : Request) (t : string) (i : Z)
    (session : Session) (st : Store) :
  single (selectRows st t (ById i)) = Some session ->
  let ms := handleMeeting env req t i session st in
  (ms_created ms = true <-> is_Some (ms_newLink ms))
  /\ forall l, ms_newLink ms = Some l ->
       l <> EmptyString
       /\ single (selectRows (ms_store ms) t (ById i))
          = Some (assign (set_teams_meeting_link (Some l)) session).
Proof.
  intros Hs ms. subst ms. unfold handleMeeting, noMeetingAction.
  repeat match goal with
         | |- context [match ?x with _ => _ end] =>
             lazymatch x with
             | createAndStore _ _ _ _ _ _ _ _ _ => fail
             | _ => destruct x; simpl
             end
         end;
    try (split; [split; [discriminate | intros [? ?]; discriminate] | discriminate]);
    match goal with
    | |- context [createAndStore ?e ?s ?tt ?ii ?ss ?a ?w ?d ?b] =>
        destruct (createAndStore_link e s tt ii ss a w d b Hs) as (H1 & _ & H2);
        split; [exact H1 | exact H2]
    end.
Qed.

(** The link the response reports is the link that was stored: the run
    reports a new meeting link exactly when it reports a meeting as
    created, the link is not empty, and the session's row then holds it. *)
Theorem reported_link_is_stored (env : Env) (req : Request) (st : Store)
    (t : string) (i : Z) (session : Session) :
  ifTruthyS (tableName req) = Some t ->
  ifTruthyZ (sessionId req) = Some i ->
  single (selectRows st t (ById i)) = Some session ->
  let out := POST env req st in
  exists results,
    response out = Status200 results
    /\ (meetingCreated results = true <-> is_Some (newMeetingLink results))
    /\ forall l, newMeetingLink results = Some l ->
         l <> EmptyString
         /\ exists rowAfter,
              single (selectRows (store_after out) t (ById i)) = Some rowAfter
              /\ teams_meeting_link rowAfter = Some l.
Proof.
  intros Ht Hi Hs out. subst out.
  rewrite (POST_runs env req st t i session Ht Hi Hs). cbv zeta. simpl.
  destruct (handleMeeting_link env req t i session st Hs) as [Hiff Hlink].
  eexists. split; [reflexivity|]. simpl. split; [exact Hiff|].
  intros l Hl. destruct (Hlink l Hl) as [Hne Hrow]. split; [exact Hne|].
  destruct (resetFlags_row t i session _ _ Hrow) as (s2 & Hs2 & Hl2).
  exists s2. split; [exact Hs2|]. rewrite Hl2. reflexivity.
Qed.

End MeetingFacts.

Section MeetingCalls.
Import Js SessionUpdate Samples.

Lemma filter_meeting_sends (l : list Event) :
  Forall (fun e => isSend e = true) l -> List.filter isMeetingCall l = [].
Proof.
  induction 1 as [|e l He _ IH]; [reflexivity|]. simpl. rewrite IH.
  destruct e; simpl in *; congruence.
Qed.

(** the provider calls of a run are those of its first step *)
Lemma POST_meeting_calls (env : Env) (req : Request) (st : Store) (t : string)
    (i : Z) (session : Session) :
  ifTruthyS (tableName req) = Some t ->
  ifTruthyZ (sessionId req) = Some i ->
  single (selectRows st t (ById i)) = Some session ->
  List.filter isMeetingCall (trace (POST env req st))
  = List.filter isMeetingCall (ms_events (handleMeeting env req t i session st)).
Proof.
  intros Ht Hi Hs. rewrite (POST_runs env req st t i session Ht Hi Hs). cbv zeta. simpl.
  rewrite !List.filter_app, (filter_meeting_sends _ (dispatch_sends _ _ _ _ _)).
  unfold resetFlags. destruct (flagsWereSet session); simpl; rewrite app_nil_r; reflexivity.
Qed.

Lemma handleMeeting_no_token (env : Env) (req : Request) (t : string) (i : Z)
    (session : Session) (st : Store) :
  getAccessToken env = None ->
  handleMeeting env req t i session st = noMeetingAction st.
Proof.
  intros H. unfold handleMeeting. rewrite H.
  repeat match goal with
         | |- context [match ?x with _ => _ end] => destruct x
         end; reflexivity.
Qed.

(** Without a provider token the run degrades to "no meeting change":
    no meeting is deleted or created and the stored link stays, while the
    run still answers 200 and sends what the dispatcher sends for a run
    without a new link. *)
Theorem no_token_no_meeting_change (env : Env) (req : Request) (st : Store)
    (t : string) (i : Z) (session : Session) :
  getAccessToken env = None ->
  ifTruthyS (tableName req) = Some t ->
  ifTruthyZ (sessionId req) = Some i ->
  single (selectRows st t (ById i)) = Some session ->
  let out := POST env req st in
  List.filter isMeetingCall (trace out) = []
  /\ (exists results,
        response out = Status200 results
        /\ meetingDeleted results = false /\ meetingCreated results = false
        /\ newMeetingLink results = None /\ meetingLinkCleared results = false)
  /\ (exists rowAfter,
        single (selectRows (store_after out) t (ById i)) = Some rowAfter
        /\ teams_meeting_link rowAfter = teams_meeting_link session)
  /\ List.filter isSend (trace out) = (dispatch env req t session None).2.
Proof.
  intros Htok Ht Hi Hs out. subst out.
  pose proof (handleMeeting_no_token env req t i session st Htok) as Hms.
  split; [|split; [|split]].
  - rewrite (POST_meeting_calls env req st t i session Ht Hi Hs), Hms. reflexivity.
  - rewrite (POST_runs env req st t i session Ht Hi Hs). cbv zeta. rewrite Hms. simpl.
    eexists. split; [reflexivity|]. simpl. auto.
  - rewrite (POST_runs env req st t i session Ht Hi Hs). cbv zeta. rewrite Hms. simpl.
    destruct (resetFlags_row t i session session st Hs) as (s2 & Hs2 & Hl2). eauto.
  - rewrite (POST_sends env req st t i session Ht Hi Hs), Hms. reflexivity.
Qed.

End MeetingCalls.

Section MeetingShape.
Import Js SessionUpdate Samples MoreSamples.

Lemma no_token_no_meeting_change_witness :
  List.filter isMeetingCall (trace (POST envNoToken announcedReschedule announcedStore)) = []
  /\ exists rowAfter,
       single (selectRows (store_after (POST envNoToken announcedReschedule announcedStore))
                 "basic6_0_schedule" (ById 1)) = Some rowAfter
       /\ teams_meeting_link rowAfter = teams_meeting_link rowAnnounced.
Proof.
  destruct (no_token_no_meeting_change envNoToken announcedReschedule announcedStore
              "basic6_0_schedule" 1 rowAnnounced eq_refl eq_refl eq_refl eq_refl)
    as (Hcalls & _ & Hrow & _).
  split; [exact Hcalls | exact Hrow].
Defined.

Lemma reported_link_is_stored_witness :
  exists results,
    response (POST sampleEnv announcedReschedule announcedStore) = Status200 results
    /\ (meetingCreated results = true <-> is_Some (newMeetingLink results)).
Proof.
  destruct (reported_link_is_stored sampleEnv announcedReschedule announcedStore
              "basic6_0_schedule" 1 rowAnnounced eq_refl eq_refl eq_refl)
    as (results & Hr & Hiff & _).
  exists results. split; [exact Hr | exact Hiff].
Defined.

Lemma createAndStore_calls (env : Env) (st : Store) (t : string) (i : Z)
    (session : Session) (accessToken : string) (w : MeetingWindow) (deleted : bool)
    (before : list Event) :
  List.filter isMeetingCall
    (ms_events (createAndStore env st t i session accessToken w deleted before))
  = (List.filter isMeetingCall before
     ++ [EvCreateMeeting (meetingSubject (parseCohortFromTableName t) session)
           (startDateTime w) (endDateTime w)
           (attendeeEmails env (parseCohortFromTableName t) session)])%list.
Proof.
  unfold createAndStore.
  destruct (createTeamsMeeting env _ _ _ _ _) as [newLink| |]; simpl;
    try (destruct (truthyS newLink); simpl);
    rewrite List.filter_app; reflexivity.
Qed.

(** The provider calls of a run, in order.  There are four cases: no
    call; the stored meeting deleted because the type changes into
    contest; the stored meeting deleted and then a new one created, for a
    session that is no contest and whose regeneration is not suppressed;
    a first meeting created for a new session without a link.  A meeting
    is created with the subject, window and attendees of the session,
    the window taken from the request's new date and time when given. *)
Theorem meeting_calls_in_order (env : Env) (req : Request) (st : Store)
    (t : string) (i : Z) (session : Session) :
  ifTruthyS (tableName req) = Some t ->
  ifTruthyZ (sessionId req) = Some i ->
  single (selectRows st t (ById i)) = Some session ->
  let calls := List.filter isMeetingCall (trace (POST env req st)) in
  let contest :=
    isContestType (session_type session) || isContestType (newSessionType req) in
  let create w :=
    EvCreateMeeting (meetingSubject (parseCohortFromTableName t) session)
      (startDateTime w) (endDateTime w)
      (attendeeEmails env (parseCohortFromTableName t) session) in
  calls = []
  \/ (exists link,
        ifTruthyS (teams_meeting_link session) = Some link
        /\ isContestType (newSessionType req) = true
        /\ calls = [EvDeleteMeeting link])
  \/ (exists link,
        ifTruthyS (teams_meeting_link session) = Some link
        /\ contest = false /\ skipMeetingRegeneration req = false
        /\ calls = [EvDeleteMeeting link;
                    create (meetingWindow env (orElse (newDate req) (date session))
                              (orElse (orS (newTime req) (time session)) "19:00"))])
  \/ (ifTruthyS (teams_meeting_link session) = None
      /\ contest = false /\ isNewSession req = true
      /\ calls = [create (meetingWindow env (date session)
                            (orElse (time session) "19:00"))]).
Proof.
  intros Ht Hi Hs calls contest create. subst calls contest create.
  rewrite (POST_meeting_calls env req st t i session Ht Hi Hs).
  unfold handleMeeting, noMeetingAction.
  destruct (isContestType (session_type session) || isContestType (newSessionType req))
    eqn:Ec.
  - destruct (ifTruthyS (teams_meeting_link session)) as [link|] eqn:El; [|left; reflexivity].
    destruct (isContestType (newSessionType req)) eqn:En; [|left; reflexivity].
    destruct (getAccessToken env); [|left; reflexivity].
    right. left. exists link. auto.
  - destruct (ifTruthyS (teams_meeting_link session)) as [link|] eqn:El.
    + destruct (skipMeetingRegeneration req) eqn:Esk; [left; reflexivity|]. simpl.
      destruct (getAccessToken env); [|left; reflexivity].
      right. right. left. exists link. rewrite createAndStore_calls. auto.
    + destruct (isNewSession req) eqn:Enew; [|left; reflexivity].
      destruct (getAccessToken env); [|left; reflexivity].
      right. right. right. rewrite createAndStore_calls. auto.
Qed.

Lemma meeting_calls_in_order_witness :
  List.filter isMeetingCall (trace (POST sampleEnv announcedReschedule announcedStore))
  = [EvDeleteMeeting "https://teams.example/old";
     EvCreateMeeting "Cohort Basic 6.0 - Graphs" "2024-01-12T14:00:00"
       "2024-01-12T15:30:00" ["asha@example.org"; "stu@example.org"]].
Proof.
  destruct (meeting_calls_in_order sampleEnv announcedReschedule announcedStore
              "basic6_0_schedule" 1 rowAnnounced eq_refl eq_refl eq_refl)
    as [H|[(link & _ & Hc & _)|[(link & Hl & _ & _ & H)|(Hl & _)]]].
  - discriminate H.
  - discriminate Hc.
  - injection Hl as <-. exact H.
  - discriminate Hl.
Defined.

End MeetingShape.

(** ** Who is written to *)

Section RecipientFacts.
Import Js SessionUpdate.
Variable env : Env.

Lemma emits_skip (P : Event -> Prop) : emits P skip.
Proof. intros r. constructor. Qed.

Lemma emits_andThen (P : Event -> Prop) (a b : Step) :
  emits P a -> emits P b -> emits P (a >=> b).
Proof.
  intros Ha Hb r. rewrite andThen_events. apply Forall_app. split; [apply Ha | apply Hb].
Qed.

Lemma emits_forEach {A} (P : Event -> Prop) (f : A -> Step) (l : list A) :
  (forall x, emits P (f x)) -> emits P (forEach f l).
Proof.
  intros Hf. induction l as [|x l IH]; simpl; [apply emits_skip|].
  apply emits_andThen; [apply Hf | exact IH].
Qed.

Lemma emits_tryEmail (rule : Role -> Prop) (who : Role) (to : string) (f : ResultField) :
  rule who -> emits (addressed rule) (tryEmail env who to f).
Proof. intros H r. repeat constructor. intros w [= <-]. exact H. Qed.

Lemma emits_whatsAppIfPhone (rule : Role -> Prop) (who : Role)
    (rawPhone : option string) (f : ResultField) :
  rule who -> emits (addressed rule) (whatsAppIfPhone env who rawPhone f).
Proof.
  intros H. unfold whatsAppIfPhone.
  destruct (formatPhoneForWhatsApp rawPhone); [|apply emits_skip].
  intros r. repeat constructor. intros w [= <-]. exact H.
Qed.

Lemma emits_notifyMentor (rule : Role -> Prop) (who : Role) (m : option MentorRow)
    (f g : ResultField) :
  (is_Some m -> rule who) -> emits (addressed rule) (notifyMentor env who m f g).
Proof.
  intros H. unfold notifyMentor. destruct m as [row|]; [|apply emits_skip].
  destruct (ifTruthyS (mentor_Email_address row)); [|apply emits_skip].
  apply emits_andThen; [apply emits_tryEmail | apply emits_whatsAppIfPhone]; eauto.
Qed.

Lemma emits_notifyStudent (rule : Role -> Prop) (student : StudentRow) :
  rule Student -> emits (addressed rule) (notifyStudent env student).
Proof.
  intros H. unfold notifyStudent.
  apply emits_andThen; [|apply emits_whatsAppIfPhone, H].
  destruct (ifTruthyS (student_Email student)); [apply emits_tryEmail, H | apply emits_skip].
Qed.

Lemma emits_notifySupermentor (rule : Role -> Prop) (supermentor : SupermentorRow) :
  rule Supermentor -> emits (addressed rule) (notifySupermentor env supermentor).
Proof.
  intros H. unfold notifySupermentor.
  apply emits_andThen; [|apply emits_whatsAppIfPhone, H].
  destruct (ifTruthyS (supermentor_email supermentor));
    [apply emits_tryEmail, H | apply emits_skip].
Qed.

Lemma lookupMentor_Some (guard : bool) (mentorId : option Z) :
  is_Some (lookupMentor env guard mentorId) ->
  guard = true /\ is_Some (ifTruthyZ mentorId).
Proof.
  unfold lookupMentor. destruct guard; [|intros [? ?]; discriminate].
  destruct (ifTruthyZ mentorId); [eauto | intros [? ?]; discriminate].
Qed.

(** Whoever the dispatcher writes to satisfies the rule of its role: the
    students only for a reschedule or a details update; the current
    mentor and the old and new owner only when the change is no swap;
    the original, the covering and the previous covering mentor only on
    a swap, the previous one not when it is the new one; an old or a new
    mentor only when its id is given and differs from the mentor in
    place. *)
Theorem recipients_follow_rules (params : Params) :
  Forall (addressed (recipientRule params)) (sendUpdateNotifications env params).2.
Proof.
  unfold sendUpdateNotifications.
  destruct (parseCohortFromTableName (p_tableName params)) as [cohortInfo|];
    [|constructor].
  cbv zeta.
  match goal with
  | |- Forall _ (?step emptyResult).2 =>
      enough (emits (addressed (recipientRule params)) step) as Hen by apply Hen
  end.
  destruct (decide (p_changedField params = Some "swapped_mentor_id")) as [Hs|Hs];
    [rewrite (bool_decide_eq_true_2 _ Hs) | rewrite (bool_decide_eq_false_2 _ Hs)];
    repeat apply emits_andThen;
    try (apply emits_notifyMentor; intros [Hg Hid]%lookupMentor_Some; simpl;
         try (apply andb_true_iff in Hg as [Hne Hns]; apply bool_decide_eq_true in Hne;
              simpl in Hns);
         try discriminate; tauto).
  all: try (destruct (supermentor_details env); [|apply emits_skip];
            apply emits_forEach; intros s; apply emits_notifySupermentor; exact I).
  all: try (destruct (onboarding env _ _) as [students|]; [|apply emits_skip];
            destruct (forStudents (p_updateType params)) eqn:Eu;
              [|rewrite andb_false_r; apply emits_skip];
            destruct (_ && _); [|apply emits_skip];
            apply emits_forEach; intros student; apply emits_notifyStudent; simpl;
            destruct (p_updateType params); try discriminate; auto).
  destruct (bool_decide _) eqn:Eid; [|apply emits_skip].
  apply emits_notifyMentor. intros [_ Hid]%lookupMentor_Some. simpl.
  split; [exact Hs|]. split; [exact Hid|]. intros Heq.
  apply bool_decide_eq_true in Eid. apply Eid. rewrite Heq. reflexivity.
Qed.

End RecipientFacts.

Section Reach.
Import Js SessionUpdate Samples MoreSamples.
Variable env : Env.

Lemma andThen_In_left (a b : Step) (e : Event) (r : NotificationResult) :
  In e (a r).2 -> In e ((a >=> b) r).2.
Proof. intros H. rewrite andThen_events. apply in_or_app. left. exact H. Qed.

Lemma andThen_In_right (a b : Step) (e : Event) :
  (forall r, In e (b r).2) -> forall r, In e ((a >=> b) r).2.
Proof. intros H r. rewrite andThen_events. apply in_or_app. right. apply H. Qed.

Lemma forEach_In {A} (f : A -> Step) (l : list A) (x : A) (e : Event) :
  x ∈ l -> (forall r, In e (f x r).2) -> forall r, In e (forEach f l r).2.
Proof.
  intros Hx He. induction l as [|y l IH]; [inversion Hx|]. intros r. simpl.
  apply elem_of_cons in Hx as [<-|Hx].
  - apply andThen_In_left, He.
  - apply andThen_In_right. apply IH, Hx.
Qed.

Lemma notifyStudent_mail (student : StudentRow) (address : string) :
  ifTruthyS (student_Email student) = Some address ->
  forall r, In (EvEmail Student address (sendEmail env Student address))
              (notifyStudent env student r).2.
Proof.
  intros H r. unfold notifyStudent. apply andThen_In_left. rewrite H. left. reflexivity.
Qed.

Lemma notifyStudent_chat (student : StudentRow) (phone : string) :
  formatPhoneForWhatsApp (student_Phone_Number student) = Some phone ->
  forall r, In (EvWhatsApp Student phone (sendWhatsAppMessage env Student phone))
              (notifyStudent env student r).2.
Proof.
  intros H. unfold notifyStudent. apply andThen_In_right. intros r.
  unfold whatsAppIfPhone. rewrite H. left. reflexivity.
Qed.

Lemma notifySupermentor_mail (supermentor : SupermentorRow) (address : string) :
  ifTruthyS (supermentor_email supermentor) = Some address ->
  forall r, In (EvEmail Supermentor address (sendEmail env Supermentor address))
              (notifySupermentor env supermentor r).2.
Proof.
  intros H r. unfold notifySupermentor. apply andThen_In_left. rewrite H. left. reflexivity.
Qed.

Lemma notifySupermentor_chat (supermentor : SupermentorRow) (phone : string) :
  formatPhoneForWhatsApp (supermentor_phone_num supermentor) = Some phone ->
  forall r, In (EvWhatsApp Supermentor phone (sendWhatsAppMessage env Supermentor phone))
              (notifySupermentor env supermentor r).2.
Proof.
  intros H. unfold notifySupermentor. apply andThen_In_right. intros r.
  unfold whatsAppIfPhone. rewrite H. left. reflexivity.
Qed.

(** Once the cohort resolves, the fan-out is complete and no failed send
    cuts it short: every administrator with an address is mailed and
    every one with a valid phone gets the chat message, whatever the
    change; for a reschedule or a details update the same holds of every
    student of the cohort. *)
Theorem fan_out_is_complete (params : Params) (cohortInfo : CohortInfo) :
  parseCohortFromTableName (p_tableName params) = Some cohortInfo ->
  let sends := (sendUpdateNotifications env params).2 in
  (forall supermentors supermentor,
     supermentor_details env = Some supermentors -> supermentor ∈ supermentors ->
     (forall address, ifTruthyS (supermentor_email supermentor) = Some address ->
        In (EvEmail Supermentor address (sendEmail env Supermentor address)) sends)
     /\ (forall phone,
           formatPhoneForWhatsApp (supermentor_phone_num supermentor) = Some phone ->
           In (EvWhatsApp Supermentor phone (sendWhatsAppMessage env Supermentor phone))
             sends))
  /\ (forall students student,
        onboarding env (type cohortInfo) (number cohortInfo) = Some students ->
        forStudents (p_updateType params) = true -> student ∈ students ->
        (forall address, ifTruthyS (student_Email student) = Some address ->
           In (EvEmail Student address (sendEmail env Student address)) sends)
        /\ (forall phone,
              formatPhoneForWhatsApp (student_Phone_Number student) = Some phone ->
              In (EvWhatsApp Student phone (sendWhatsAppMessage env Student phone))
                sends)).
Proof.
  intros Hp sends. subst sends. unfold sendUpdateNotifications. rewrite Hp. cbv zeta.
  split.
  - intros supermentors supermentor Hs Hin. rewrite Hs.
    split; intros x Hx; do 4 apply andThen_In_right;
      apply (forEach_In _ _ supermentor); auto using notifySupermentor_mail, notifySupermentor_chat.
  - intros students student Hs Hu Hin. rewrite Hs, Hu.
    assert (Hlen : (0 <? List.length students)%nat = true).
    { destruct students; [inversion Hin | reflexivity]. }
    rewrite Hlen. simpl.
    split; intros x Hx; apply andThen_In_left;
      apply (forEach_In _ _ student); auto using notifyStudent_mail, notifyStudent_chat.
Qed.

End Reach.

Section ReachSample.
Import Js SessionUpdate Samples MoreSamples.

Lemma fan_out_is_complete_witness :
  In (EvEmail Supermentor "admin@example.org" (Sent true))
    (sendUpdateNotifications sampleEnv
       (notificationParams announcedReschedule "basic6_0_schedule" rowAnnounced None)).2
  /\ In (EvEmail Student "stu@example.org" (Sent true))
       (sendUpdateNotifications sampleEnv
          (notificationParams announcedReschedule "basic6_0_schedule" rowAnnounced None)).2.
Proof.
  pose proof (fan_out_is_complete sampleEnv
                (notificationParams announcedReschedule "basic6_0_schedule" rowAnnounced None)
                (mkCohort "Basic" "6.0") eq_refl) as [Hadmins Hstudents].
  split.
  - refine (proj1 (Hadmins _ (mkSupermentor (Some "Admin") (Some "admin@example.org") None)
                     eq_refl _) "admin@example.org" eq_refl).
    apply list_elem_of_singleton. reflexivity.
  - refine (proj1 (Hstudents _ (mkStudent (Some "Stu") (Some "stu@example.org") None)
                     eq_refl eq_refl _) "stu@example.org" eq_refl).
    apply list_elem_of_singleton. reflexivity.
Defined.

End ReachSample.

(** ** The reported counts *)

Section CountFacts.
Import Js SessionUpdate Samples MoreSamples.
Variable env : Env.

Ltac tally_arith :=
  repeat match goal with |- (_, _) = (_, _) => f_equal end; lia.

Lemma tallyOf_app (a b : list Event) : tallyOf (a ++ b) = addTally (tallyOf a) (tallyOf b).
Proof.
  unfold tallyOf, countIf, addTally. rewrite !List.filter_app, !length_app. reflexivity.
Qed.

Lemma addTally_assoc (a b c : nat * nat * nat * nat) :
  addTally (addTally a b) c = addTally a (addTally b c).
Proof.
  destruct a as [[[a1 a2] a3] a4], b as [[[b1 b2] b3] b4], c as [[[c1 c2] c3] c4].
  unfold addTally. tally_arith.
Qed.

Lemma addTally_zero (a : nat * nat * nat * nat) : addTally a (0, 0, 0, 0)%nat = a.
Proof. destruct a as [[[a1 a2] a3] a4]. unfold addTally. tally_arith. Qed.

Lemma counting_skip : counting skip.
Proof. intros r. symmetry. apply (addTally_zero (tally r)). Qed.

Lemma counting_andThen (a b : Step) : counting a -> counting b -> counting (a >=> b).
Proof.
  intros Ha Hb r. rewrite andThen_events, tallyOf_app, <- addTally_assoc, <- Ha.
  unfold andThen. specialize (Hb (a r).1).
  destruct (a r) as [r1 e1]. simpl in *. destruct (b r1) as [r2 e2]. exact Hb.
Qed.

Lemma counting_forEach {A} (f : A -> Step) (l : list A) :
  (forall x, counting (f x)) -> counting (forEach f l).
Proof.
  intros Hf. induction l as [|x l IH]; simpl; [apply counting_skip|].
  apply counting_andThen; [apply Hf | exact IH].
Qed.

Lemma counting_tryEmail (who : Role) (to : string) (f : ResultField) :
  mailField who f = true -> counting (tryEmail env who to f).
Proof.
  intros Hp r. unfold tryEmail. cbn [fst snd].
  destruct (sendEmail env who to) as [[|]|];
    destruct who, f; try discriminate Hp;
    unfold tally, tallyOf, countIf, addTally; simpl; tally_arith.
Qed.

Lemma counting_tryWhatsApp (who : Role) (to : string) (f : ResultField) :
  chatField who f = true -> counting (tryWhatsApp env who to f).
Proof.
  intros Hp r. unfold tryWhatsApp. cbn [fst snd].
  destruct (sendWhatsAppMessage env who to);
    destruct who, f; try discriminate Hp;
    unfold tally, tallyOf, countIf, addTally; simpl; tally_arith.
Qed.

Lemma counting_whatsAppIfPhone (who : Role) (rawPhone : option string) (f : ResultField) :
  chatField who f = true -> counting (whatsAppIfPhone env who rawPhone f).
Proof.
  intros Hp. unfold whatsAppIfPhone. destruct (formatPhoneForWhatsApp rawPhone);
    [apply counting_tryWhatsApp, Hp | apply counting_skip].
Qed.

Lemma counting_notifyMentor (who : Role) (m : option MentorRow) (f g : ResultField) :
  mailField who f = true -> chatField who g = true ->
  counting (notifyMentor env who m f g).
Proof.
  intros Hf Hg. unfold notifyMentor. destruct m as [row|]; [|apply counting_skip].
  destruct (ifTruthyS (mentor_Email_address row)); [|apply counting_skip].
  apply counting_andThen; [apply counting_tryEmail, Hf | apply counting_whatsAppIfPhone, Hg].
Qed.

(** The counts the dispatcher reports are the sends the providers
    accepted: [studentsSent] and [supermentorsSent] are the numbers of
    accepted mails to students and to administrators, and the two chat
    counters the numbers of accepted chat messages; a send that fails or
    throws adds nothing. *)
Theorem counts_are_accepted_sends (params : Params) :
  let result := (sendUpdateNotifications env params).1 in
  let sends := (sendUpdateNotifications env params).2 in
  studentsSent result = countIf (mailed Student) sends
  /\ supermentorsSent result = countIf (mailed Supermentor) sends
  /\ wa_students (whatsappSent result) = countIf (chatted Student) sends
  /\ wa_supermentors (whatsappSent result) = countIf (chatted Supermentor) sends.
Proof.
  intros result sends.
  enough (H : tally result = tallyOf sends) by (injection H; auto).
  subst result sends. unfold sendUpdateNotifications.
  destruct (parseCohortFromTableName (p_tableName params)) as [cohortInfo|];
    [|reflexivity].
  cbv zeta.
  match goal with
  | |- tally (?step emptyResult).1 = _ =>
      enough (Hc : counting step) by (rewrite Hc; reflexivity)
  end.
  repeat apply counting_andThen;
    try (apply counting_notifyMentor; reflexivity).
  - destruct (onboarding env _ _); [|apply counting_skip].
    destruct (_ && _); [|apply counting_skip].
    apply counting_forEach. intros student. unfold notifyStudent.
    apply counting_andThen; [|apply counting_whatsAppIfPhone; reflexivity].
    destruct (ifTruthyS _); [apply counting_tryEmail; reflexivity | apply counting_skip].
  - destruct (bool_decide _).
    + repeat apply counting_andThen; try (apply counting_notifyMentor; reflexivity).
      destruct (bool_decide _); [apply counting_notifyMentor; reflexivity | apply counting_skip].
    + apply counting_notifyMentor; reflexivity.
  - destruct (supermentor_details env); [|apply counting_skip].
    apply counting_forEach. intros supermentor. unfold notifySupermentor.
    apply counting_andThen; [|apply counting_whatsAppIfPhone; reflexivity].
    destruct (ifTruthyS _); [apply counting_tryEmail; reflexivity | apply counting_skip].
Qed.

End CountFacts.

(** ** More on the session materials *)

Section MaterialRoute.
Import Js Material Samples.

Lemma mergeGet_elem (initialLinks sessionLinks : list string) (x : string) :
  x ∈ mergeGet initialLinks sessionLinks <-> x ∈ initialLinks \/ x ∈ sessionLinks.
Proof.
  rewrite mergeGet_spec, elem_of_app, dedupe_elem, list_elem_of_filter.
  destruct (decide (x ∈ initialLinks)); tauto.
Qed.

Lemma offered_elem (newLinks : list string) (link : string) :
  link ∈ filter (fun l => l <> EmptyString) (trim <$> newLinks) <-> offered newLinks link.
Proof.
  rewrite list_elem_of_filter, list_elem_of_fmap. unfold offered.
  split; intros [Hne (raw & H1 & H2)]; split; eauto.
Qed.

(** the POST merge in closed form *)
Lemma mergePost_split (existingLinks newLinks : list string) :
  exists added,
    mergePost existingLinks newLinks = (existingLinks ++ added)%list
    /\ NoDup added
    /\ forall link, link ∈ added <-> (link ∉ existingLinks) /\ offered newLinks link.
Proof.
  rewrite mergePost_mergeGet, mergeGet_spec. eexists. split; [reflexivity|].
  split; [apply dedupe_NoDup|]. intros link.
  rewrite dedupe_elem, list_elem_of_filter, offered_elem. tauto.
Qed.

Lemma POST_runs_on_row (req : PostRequest) (st : Store) (t : string)
    (newLinks : list string) (sel : Selector) (session : Session) :
  ifTruthyS (post_tableName req) = Some t ->
  post_newLinks req = Some newLinks -> newLinks <> [] ->
  postSelector req = Some sel ->
  single (selectRows st t sel) = Some session ->
  let allLinks := mergePost (parseLinks (orEmpty (session_material session))) newLinks in
  let patch := [set_session_material (join ", " allLinks)] in
  exists st',
    POST req st = mkOutcome (PostOk (join ", " allLinks) (List.length allLinks)) st'
                    [EvUpdate t sel patch]
    /\ updateRows st t sel patch = Some st'
    /\ single (selectRows st' t sel)
       = Some (assign (set_session_material (join ", " allLinks)) session).
Proof.
  intros Ht Hn Hne Hsel Hs allLinks patch.
  destruct (update_single st t sel patch session Hs) as (st' & Hup & Hrow & _).
  exists st'. split; [|split; [exact Hup | exact Hrow]].
  unfold POST. rewrite Ht, Hn, Hsel, Hs.
  destruct newLinks as [|n0 rest]; [contradiction|]. simpl List.length. simpl Nat.eqb.
  cbv zeta. fold allLinks. fold patch. rewrite Hup. reflexivity.
Qed.

(** An append keeps what the column holds and adds what is new.  A POST
    that finds its session answers with, and stores, the links the
    column already listed, in their order, followed by the added ones:
    each added link once, and a link is added exactly when it is the
    trimmed form of a requested link, is not blank and was not listed.
    Only [session_material] of the row changes. *)
Theorem post_keeps_and_appends (req : PostRequest) (st : Store) (t : string)
    (newLinks : list string) (sel : Selector) (session : Session) :
  ifTruthyS (post_tableName req) = Some t ->
  post_newLinks req = Some newLinks -> newLinks <> [] ->
  postSelector req = Some sel ->
  single (selectRows st t sel) = Some session ->
  let existingLinks := parseLinks (orEmpty (session_material session)) in
  let out := POST req st in
  exists added,
    response out = PostOk (join ", " (existingLinks ++ added))
                     (List.length existingLinks + List.length added)
    /\ single (selectRows (store_after out) t sel)
       = Some (assign (set_session_material (join ", " (existingLinks ++ added))) session)
    /\ NoDup added
    /\ forall link, link ∈ added <-> (link ∉ existingLinks) /\ offered newLinks link.
Proof.
  intros Ht Hn Hne Hsel Hs existingLinks out. subst out.
  destruct (POST_runs_on_row req st t newLinks sel session Ht Hn Hne Hsel Hs)
    as (st' & Hout & _ & Hrow).
  destruct (mergePost_split existingLinks newLinks) as (added & Hall & Hnd & Hadded).
  fold existingLinks in Hout, Hrow. rewrite Hall in Hout, Hrow.
  exists added. rewrite Hout. simpl. rewrite length_app.
  split; [reflexivity|]. split; [exact Hrow|]. split; [exact Hnd | exact Hadded].
Qed.

Lemma post_keeps_and_appends_witness :
  exists added,
    response (POST postAnother blankStore) = PostOk (join ", " ([] ++ added)) (0 + List.length added)
    /\ NoDup added.
Proof.
  assert (Hsome : ["c"] <> @nil string) by discriminate.
  destruct (post_keeps_and_appends postAnother blankStore "basic6_0_schedule" ["c"]
              (ById 9) rowBlank eq_refl eq_refl Hsome eq_refl eq_refl)
    as (added & Hres & _ & Hnd & _).
  exists added. split; [exact Hres | exact Hnd].
Defined.

(** Parsing is a normal form.  The links parsed from any column value
    are trimmed, not empty and free of commas, and writing them back
    with [", "] and parsing again gives the same list. *)
Theorem parsed_links_round_trip (materials : string) :
  Forall linkOk (parseLinks materials)
  /\ parseLinks (join ", " (parseLinks materials)) = parseLinks materials.
Proof. split; [apply parseLinks_ok | apply parseLinks_join, parseLinks_ok]. Qed.

(** GET lists the union of the two columns: the links of
    [initial_session_material] first, as they are, then the links that
    only [session_material] has; the count is the length of that list,
    and the list repeats no link unless the initial column does. *)
Theorem get_lists_both_columns (session : Session) :
  let initialLinks := parseLinks (orEmpty (initial_session_material session)) in
  let sessionLinks := parseLinks (orEmpty (session_material session)) in
  exists rest,
    getMaterials session
    = GetOk (join ", " (initialLinks ++ rest)) (initialLinks ++ rest)
        (List.length initialLinks + List.length rest) initialLinks sessionLinks
    /\ (forall link, link ∈ rest <-> link ∈ sessionLinks /\ link ∉ initialLinks)
    /\ (forall link, link ∈ linksOf (getMaterials session)
                     <-> link ∈ initialLinks \/ link ∈ sessionLinks)
    /\ (NoDup (linksOf (getMaterials session)) <-> NoDup initialLinks).
Proof.
  intros initialLinks sessionLinks. unfold getMaterials. fold initialLinks sessionLinks.
  cbv zeta. simpl linksOf.
  exists (dedupe (filter (fun link => link ∉ initialLinks) sessionLinks)).
  split; [rewrite mergeGet_spec, length_app; reflexivity|].
  split; [intros link; rewrite dedupe_elem, list_elem_of_filter; tauto|].
  split; [intros link; apply mergeGet_elem | apply mergeGet_NoDup].
Qed.

Lemma linkOk_all (existingLinks newLinks : list string) :
  Forall linkOk existingLinks -> commaFree newLinks ->
  Forall linkOk (mergePost existingLinks newLinks).
Proof.
  intros Hex Hfree. destruct (mergePost_split existingLinks newLinks)
    as (added & -> & _ & Hadded).
  apply Forall_app. split; [exact Hex|]. apply Forall_forall. intros link Hin.
  apply Hadded in Hin as [_ [Hne (raw & Hraw & ->)]].
  unfold commaFree in Hfree. rewrite Forall_forall in Hfree.
  split; [apply Hfree, Hraw|]. split; [apply trim_idem | exact Hne].
Qed.

Lemma mergePost_again (existingLinks newLinks : list string) :
  mergePost (mergePost existingLinks newLinks) newLinks = mergePost existingLinks newLinks.
Proof.
  rewrite (mergePost_mergeGet (mergePost existingLinks newLinks)).
  apply mergeGet_known. intros link Hin.
  rewrite mergePost_mergeGet. apply mergeGet_elem. right. exact Hin.
Qed.

Lemma updateRow_again (sel : Selector) (patch : list Assign) (r : Session) :
  applyPatch patch (applyPatch patch r) = applyPatch patch r ->
  updateRow sel patch (updateRow sel patch r) = updateRow sel patch r.
Proof.
  intros H. unfold updateRow. destruct (matches sel r) eqn:E.
  - rewrite matches_applyPatch, E. exact H.
  - rewrite E. reflexivity.
Qed.

Lemma updateRows_again (st st' : Store) (t : string) (sel : Selector) (v : string) :
  updateRows st t sel [set_session_material v] = Some st' ->
  updateRows st' t sel [set_session_material v] = Some st'.
Proof.
  unfold updateRows. destruct (st !! t) as [rows|] eqn:E; [|discriminate].
  intros [= <-]. rewrite lookup_insert_eq. f_equal.
  rewrite List.map_map.
  rewrite (List.map_ext _ (updateRow sel [set_session_material v]))
    by (intros r; apply updateRow_again; reflexivity).
  apply insert_insert_eq.
Qed.

(** Appending the same links again changes nothing, as long as no link
    of the request holds a comma: the second POST gives the answer of
    the first and leaves the database as the first left it. *)
Theorem post_twice_is_post_once (req : PostRequest) (st : Store) (t : string)
    (newLinks : list string) (sel : Selector) (session : Session) :
  ifTruthyS (post_tableName req) = Some t ->
  post_newLinks req = Some newLinks -> newLinks <> [] ->
  postSelector req = Some sel ->
  single (selectRows st t sel) = Some session ->
  commaFree newLinks ->
  let first := POST req st in
  let second := POST req (store_after first) in
  response second = response first /\ store_after second = store_after first.
Proof.
  intros Ht Hn Hne Hsel Hs Hfree first second. subst first second.
  destruct (POST_runs_on_row req st t newLinks sel session Ht Hn Hne Hsel Hs)
    as (st' & Hout & Hup & Hrow).
  rewrite Hout. simpl store_after. simpl response.
  destruct (POST_runs_on_row req st' t newLinks sel _ Ht Hn Hne Hsel Hrow)
    as (st'' & Hout2 & Hup2 & _).
  simpl session_material in Hout2, Hup2. unfold orEmpty in Hout2, Hup2 at 1.
  simpl default in Hout2, Hup2.
  rewrite parseLinks_join in Hout2, Hup2
    by (apply linkOk_all; [apply parseLinks_ok | exact Hfree]).
  rewrite mergePost_again in Hout2, Hup2.
  rewrite (updateRows_again _ _ _ _ _ Hup) in Hup2. injection Hup2 as <-.
  rewrite Hout2. split; reflexivity.
Qed.

Lemma post_twice_is_post_once_witness :
  response (POST postAnother (store_after (POST postAnother blankStore)))
  = response (POST postAnother blankStore).
Proof.
  refine (proj1 (post_twice_is_post_once postAnother blankStore "basic6_0_schedule" ["c"]
                   (ById 9) rowBlank eq_refl eq_refl _ eq_refl eq_refl _)).
  - discriminate.
  - repeat constructor.
Defined.

(** What POST reports is what GET will find, as long as no link of the
    request holds a comma: read from the row the POST left, the links of
    [session_material] are as many as the reported count, join to the
    reported string, and every requested link that is not blank is in
    the merged list. *)
Theorem post_then_get_agree (req : PostRequest) (st : Store) (t : string)
    (newLinks : list string) (sel : Selector) (session : Session) :
  ifTruthyS (post_tableName req) = Some t ->
  post_newLinks req = Some newLinks -> newLinks <> [] ->
  postSelector req = Some sel ->
  single (selectRows st t sel) = Some session ->
  commaFree newLinks ->
  let out := POST req st in
  exists rowAfter,
    single (selectRows (store_after out) t sel) = Some rowAfter
    /\ response out
       = PostOk (join ", " (sessionLinksOf (getMaterials rowAfter)))
           (List.length (sessionLinksOf (getMaterials rowAfter)))
    /\ forall link, offered newLinks link -> link ∈ linksOf (getMaterials rowAfter).
Proof.
  intros Ht Hn Hne Hsel Hs Hfree out. subst out.
  destruct (POST_runs_on_row req st t newLinks sel session Ht Hn Hne Hsel Hs)
    as (st' & Hout & _ & Hrow).
  rewrite Hout. simpl store_after. simpl response.
  eexists. split; [exact Hrow|].
  pose proof (parseLinks_join _ (linkOk_all _ _ (parseLinks_ok
                (orEmpty (session_material session))) Hfree)) as Hparse.
  unfold getMaterials. simpl sessionLinksOf. simpl linksOf.
  simpl session_material. unfold orEmpty in *. simpl default. rewrite !Hparse.
  split; [reflexivity|]. intros link Hoff.
  apply mergeGet_elem. right. rewrite mergePost_mergeGet. apply mergeGet_elem.
  destruct (decide (link ∈ parseLinks (default "" (session_material session))));
    [left; assumption | right; apply offered_elem, Hoff].
Qed.

Lemma post_then_get_agree_witness :
  exists rowAfter,
    single (selectRows (store_after (POST postAnother blankStore)) "basic6_0_schedule"
              (ById 9)) = Some rowAfter
    /\ response (POST postAnother blankStore)
       = PostOk (join ", " (sessionLinksOf (getMaterials rowAfter)))
           (List.length (sessionLinksOf (getMaterials rowAfter))).
Proof.
  assert (Hsome : ["c"] <> @nil string) by discriminate.
  assert (Hfree : commaFree ["c"]) by (repeat constructor).
  destruct (post_then_get_agree postAnother blankStore "basic6_0_schedule" ["c"]
              (ById 9) rowBlank eq_refl eq_refl Hsome eq_refl eq_refl Hfree)
    as (rowAfter & Hrow & Hres & _).
  exists rowAfter. split; [exact Hrow | exact Hres].
Defined.

(** One delete may not remove a link from view.  After a PUT that found
    its link, GET on the row still lists the link exactly when both
    columns held it: the delete took it from [initial_session_material]
    and [session_material] keeps its copy. *)
Theorem deleted_link_survives_iff_in_both (req : PutRequest) (st : Store)
    (t d tm linkToDelete : string) (session : Session) :
  ifTruthyS (put_tableName req) = Some t ->
  ifTruthyS (put_date req) = Some d ->
  ifTruthyS (put_time req) = Some tm ->
  ifTruthyS (put_linkToDelete req) = Some linkToDelete ->
  single (selectRows st t (ByDateTime d tm)) = Some session ->
  let initialLinks := parseLinks (orEmpty (initial_session_material session)) in
  let sessionLinks := parseLinks (orEmpty (session_material session)) in
  linkToDelete ∈ initialLinks \/ linkToDelete ∈ sessionLinks ->
  let out := PUT req st in
  exists rowAfter,
    single (selectRows (store_after out) t (ByDateTime d tm)) = Some rowAfter
    /\ (linkToDelete ∈ linksOf (getMaterials rowAfter)
        <-> linkToDelete ∈ initialLinks /\ linkToDelete ∈ sessionLinks)
    /\ forall link, link <> linkToDelete ->
         (link ∈ linksOf (getMaterials rowAfter) <-> link ∈ linksOf (getMaterials session)).
Proof.
  intros Ht Hd Htm Hl Hs initialLinks sessionLinks Hfound out. subst out.
  unfold PUT. rewrite Ht, Hd, Htm, Hl. cbv zeta. rewrite Hs.
  destruct (decide (linkToDelete ∈ initialLinks)) as [Hin|Hout].
  - rewrite (updateData_initial _ _ Hin).
    destruct (update_single st t (ByDateTime d tm)
                [set_initial_session_material
                   (join ", " (filter (fun link => link <> linkToDelete) initialLinks))]
                session Hs) as (st' & Hu & Hs' & _).
    fold initialLinks. rewrite Hu. simpl store_after.
    eexists. split; [exact Hs'|].
    destruct (rewritten_column (initial_session_material session) linkToDelete Hin)
      as (Hp & _ & _).
    fold initialLinks in Hp. cbv zeta in Hp.
    unfold getMaterials. simpl linksOf. simpl initial_session_material.
    simpl session_material. unfold orEmpty at 1 3. simpl default. rewrite Hp.
    fold sessionLinks initialLinks.
    split; [|intros link Hne]; rewrite !mergeGet_elem, list_elem_of_filter; tauto.
  - destruct Hfound as [Hin|Hin]; [contradiction|].
    rewrite (updateData_session _ _ Hout Hin).
    destruct (update_single st t (ByDateTime d tm)
                [set_session_material
                   (join ", " (filter (fun link => link <> linkToDelete) sessionLinks))]
                session Hs) as (st' & Hu & Hs' & _).
    fold sessionLinks. rewrite Hu. simpl store_after.
    eexists. split; [exact Hs'|].
    destruct (rewritten_column (session_material session) linkToDelete Hin)
      as (Hp & _ & _).
    fold sessionLinks in Hp. cbv zeta in Hp.
    unfold getMaterials. simpl linksOf. simpl initial_session_material.
    simpl session_material. unfold orEmpty at 2 3. simpl default. rewrite Hp.
    fold sessionLinks initialLinks.
    split; [|intros link Hne]; rewrite !mergeGet_elem, list_elem_of_filter; tauto.
Qed.

Lemma deleted_link_survives_iff_in_both_witness :
  exists rowAfter,
    single (selectRows (store_after (PUT putReq putStore)) "basic6_0_schedule"
              (ByDateTime "2024-03-05" "18:00:00")) = Some rowAfter
    /\ "https://a.io/1" ∈ linksOf (getMaterials rowAfter).
Proof.
  assert (Hfound : "https://a.io/1" ∈ parseLinks (orEmpty (initial_session_material putRow))
                   \/ "https://a.io/1" ∈ parseLinks (orEmpty (session_material putRow)))
    by (left; compute_done).
  destruct (deleted_link_survives_iff_in_both putReq putStore "basic6_0_schedule"
              "2024-03-05" "18:00:00" "https://a.io/1" putRow
              eq_refl eq_refl eq_refl eq_refl eq_refl Hfound)
    as (rowAfter & Hrow & Hiff & _).
  exists rowAfter. split; [exact Hrow|]. apply Hiff. split; compute_done.
Defined.

End MaterialRoute.

(** ** The meeting window, at every start time *)

Section WindowFacts.
Import Js SessionUpdate Samples.

(** [setMinutes(getMinutes() + d)] moves the local time value by [d]
    minutes *)
Lemma local_fields_add (t d : Z) :
  MakeDate (Day t)
    (MakeTime (HourFromTime t) (MinFromTime t + d) (SecFromTime t) (msFromTime t))
  = t + d * msPerMinute.
Proof.
  unfold MakeDate, MakeTime, Day, HourFromTime, MinFromTime, SecFromTime, msFromTime,
    msPerDay, msPerHour, msPerMinute, msPerSecond.
  Z.to_euclidean_division_equations. lia.
Qed.

(** the clock of a local time value that is a whole number of minutes *)
Lemma clock_of_minutes (day k : Z) :
  let t := MakeDate day (k * msPerMinute) in
  HourFromTime t = (k / 60) mod 24 /\ MinFromTime t = k mod 60 /\ SecFromTime t = 0.
Proof.
  unfold MakeDate, HourFromTime, MinFromTime, SecFromTime,
    msPerDay, msPerHour, msPerMinute, msPerSecond. cbv zeta.
  repeat split; Z.to_euclidean_division_equations; lia.
Qed.

Lemma stripPrefix_date (d rest : string) :
  stripPrefix (d +:+ "T") (d +:+ "T" +:+ rest) = Some rest.
Proof.
  induction d as [|c d IH]; [reflexivity|].
  rewrite !append_cons. cbn [stripPrefix]. rewrite Ascii.eqb_refl. exact IH.
Qed.

Lemma clockMinute_start (hhmm : string) (start : Z) :
  minuteOfDay hhmm = Some start -> clockMinute (hhmm +:+ ":00") = Some start.
Proof.
  destruct hhmm as [|h1 [|h2 [|colon [|m1 [|m2 [|]]]]]]; try discriminate.
  intros H. unfold clockMinute. cbn [String.append dropChars substring0].
  rewrite String.eqb_refl. exact H.
Qed.

Lemma clockMinute_pad2 (h m : Z) :
  0 <= h < 24 -> 0 <= m < 60 ->
  clockMinute (pad2 h +:+ ":" +:+ pad2 m +:+ ":" +:+ pad2 0) = Some (60 * h + m).
Proof.
  intros Hh Hm. rewrite <- (minuteOfDay_pad2 h m Hh Hm). reflexivity.
Qed.

(** The window handed to the meeting provider, on every host.  When the
    host cannot read the start string, the end is the date followed by
    ["TInvalid "] and the window has no length.  When the host reads it
    as the clock it spells and the local time 90 minutes later exists
    in the zone, both datetimes carry the session's date and the end
    clock is the start plus 90 minutes modulo a day: the window is 90
    minutes long only for starts before 22:30, and from 22:30 on the end
    lies 1350 minutes before the start. *)
Theorem window_is_90_only_before_2230 (env : Env) (dateValue timeValue : string) :
  let w := meetingWindow env dateValue timeValue in
  startDateTime w = dateOnly dateValue +:+ "T" +:+ substring0 5 timeValue +:+ ":00"
  /\ (Date_parse env (startDateTime w) = None ->
      endDateTime w = dateOnly dateValue +:+ "TInvalid " /\ windowMinutes w = None)
  /\ (forall day start,
        minuteOfDay (substring0 5 timeValue) = Some start ->
        readsAs env (startDateTime w) (MakeDate day (start * msPerMinute)) ->
        steadyAt env (MakeDate day ((start + 90) * msPerMinute)) ->
        endDateTime w
        = dateOnly dateValue +:+ "T" +:+ pad2 (((start + 90) / 60) mod 24)
            +:+ ":" +:+ pad2 ((start + 90) mod 60) +:+ ":00"
        /\ windowMinutes w = Some (if start <? 1350 then 90 else 90 - 1440)).
Proof.
  intros w. subst w. split; [reflexivity|]. split.
  - cbn [meetingWindow startDateTime endDateTime]. intros Hnone.
    unfold windowMinutes. cbn [meetingWindow effectiveDate startDateTime endDateTime].
    unfold timeStringAfter. rewrite Hnone. cbn [getMinutes setMinutes toTimeString8 fmap option_fmap option_map].
    split; [reflexivity|]. rewrite !stripPrefix_date.
    destruct (clockMinute (substring0 5 timeValue +:+ ":00")); reflexivity.
  - intros day start Hstart [Hparse Hlocal] [Hsteady Hrange].
    cbn [meetingWindow startDateTime] in Hparse.
    assert (Hend : timeStringAfter env
                     (dateOnly dateValue +:+ "T" +:+ substring0 5 timeValue +:+ ":00") 90
                   = pad2 (((start + 90) / 60) mod 24) +:+ ":"
                       +:+ pad2 ((start + 90) mod 60) +:+ ":" +:+ pad2 0).
    { unfold timeStringAfter. rewrite Hparse.
      cbn [getMinutes setMinutes fmap option_fmap option_map]. rewrite Hlocal.
      rewrite local_fields_add.
      replace (MakeDate day (start * msPerMinute) + 90 * msPerMinute)
        with (MakeDate day ((start + 90) * msPerMinute)) by (unfold MakeDate; lia).
      unfold TimeClip. apply Z.leb_le in Hrange. rewrite Hrange.
      cbn [toTimeString8]. rewrite Hsteady.
      destruct (clock_of_minutes day (start + 90)) as (Hh & Hm & Hs).
      cbv zeta in Hh, Hm, Hs. rewrite Hh, Hm, Hs. reflexivity. }
    cbn [meetingWindow endDateTime]. unfold windowMinutes.
    cbn [meetingWindow effectiveDate startDateTime endDateTime]. rewrite Hend. split.
    + unfold pad2. reflexivity.
    + rewrite !stripPrefix_date, (clockMinute_start _ _ Hstart).
      pose proof (minuteOfDay_range _ _ Hstart) as Hr.
      rewrite clockMinute_pad2
        by (try apply Z.mod_pos_bound; lia).
      f_equal. destruct (Z.ltb_spec start 1350);
        Z.to_euclidean_division_equations; lia.
Qed.

Lemma window_is_90_only_before_2230_witness :
  endDateTime (meetingWindow sampleEnv "2024-02-01" "09:00:00") = "2024-02-01T10:30:00"
  /\ windowMinutes (meetingWindow sampleEnv "2024-02-01" "09:00:00") = Some 90
  /\ endDateTime (meetingWindow sampleEnv "2024-1-5" "09:00:00") = "2024-1-5TInvalid ".
Proof.
  destruct (window_is_90_only_before_2230 sampleEnv "2024-02-01" "09:00:00")
    as (_ & _ & Hreads).
  destruct (Hreads 19754 540 eq_refl) as [Hend Hlen].
  - split; reflexivity.
  - split; [reflexivity | vm_compute; discriminate].
  - destruct (window_is_90_only_before_2230 sampleEnv "2024-1-5" "09:00:00")
      as (_ & Hinvalid & _).
    destruct (Hinvalid eq_refl) as [Hbad _].
    split; [exact Hend|]. split; [exact Hlen | exact Hbad].
Defined.

End WindowFacts.

(** ** More on the swap handler *)

Section ScanFacts.
Import Js SwapMentor Samples MoreSamples.

Lemma firstConflict_none (st : Store) (tableName : string) (sessionId : Z)
    (session : Session) (candidate : Z) (c : string) (conflicts : list Session) :
  rowsAt st c (date session) (time session) = Some conflicts ->
  firstConflict c tableName sessionId candidate conflicts = None ->
  ~ hasConflict st tableName sessionId session candidate c.
Proof.
  intros Hat Hnone (rows & tm & row & Hrows & Htm & Hin & Hd & Ht & Hother & Hbusy).
  unfold rowsAt in Hat. rewrite Htm in Hat. unfold selectRows in Hat.
  rewrite Hrows in Hat. simpl in Hat. injection Hat as <-.
  assert (Hmatch : In row (List.filter (matches (ByDateTime (date session) tm)) rows)).
  { apply List.filter_In. split; [apply list_elem_of_In, Hin|].
    simpl. rewrite Hd, Ht. rewrite !bool_decide_eq_true_2 by reflexivity. reflexivity. }
  assert (Hc : isConflict c tableName sessionId candidate row = true).
  { unfold isConflict. apply isSameSession_false in Hother. rewrite Hother.
    apply isBusy_rule, Hbusy. }
  destruct (find_hit _ _ _ Hmatch Hc) as [y Hy]. unfold firstConflict in Hnone. congruence.
Qed.

Lemma rowsAt_none (st : Store) (tableName : string) (sessionId : Z)
    (session : Session) (candidate : Z) (c : string) :
  rowsAt st c (date session) (time session) = None ->
  ~ hasConflict st tableName sessionId session candidate c.
Proof.
  intros Hat (rows & tm & row & Hrows & Htm & _).
  unfold rowsAt in Hat. rewrite Htm in Hat. unfold selectRows in Hat.
  rewrite Hrows in Hat. discriminate.
Qed.

(** The scan stops at the first table, in registry order, that holds a
    colliding row: the conflict it reports names that table, and no
    table listed before it holds a collision.  Tables that cannot be
    read are passed over. *)
Theorem scan_reports_first_table (st : Store) (tableName : string) (sessionId : Z)
    (session : Session) (candidate : Z) (tables : list string)
    (details : ConflictDetails) :
  scanTables st tableName sessionId session candidate tables = Some details ->
  exists earlier later,
    tables = (earlier ++ conflict_tableName details :: later)%list
    /\ (forall c, c ∈ earlier ->
          ~ hasConflict st tableName sessionId session candidate c)
    /\ hasConflict st tableName sessionId session candidate (conflict_tableName details)
    /\ conflict_batchName details = batchNameOf (conflict_tableName details).
Proof.
  induction tables as [|c rest IH]; [discriminate|]. simpl.
  assert (Hskip : ~ hasConflict st tableName sessionId session candidate c ->
                  scanTables st tableName sessionId session candidate rest = Some details ->
                  exists earlier later,
                    c :: rest = (earlier ++ conflict_tableName details :: later)%list
                    /\ (forall c', c' ∈ earlier ->
                          ~ hasConflict st tableName sessionId session candidate c')
                    /\ hasConflict st tableName sessionId session candidate
                         (conflict_tableName details)
                    /\ conflict_batchName details = batchNameOf (conflict_tableName details)).
  { intros Hno H. destruct (IH H) as (earlier & later & -> & Hbefore & Hhit & Hname).
    exists (c :: earlier), later. split; [reflexivity|]. split; [|auto].
    intros c' [->|Hin]%elem_of_cons; auto. }
  destruct (rowsAt st c (date session) (time session)) as [conflicts|] eqn:Eat.
  2:{ apply Hskip. eapply rowsAt_none, Eat. }
  destruct (firstConflict c tableName sessionId candidate conflicts) as [hit|] eqn:Ef.
  2:{ apply Hskip. eapply firstConflict_none; eauto. }
  intros [= <-]. exists [], rest. split; [reflexivity|].
  split; [intros c' Hin; inversion Hin|]. split; [|reflexivity]. simpl.
  assert (Hscan : scanTables st tableName sessionId session candidate [c]
                  = Some (conflictDetailsOf c hit)) by (simpl; rewrite Eat, Ef; reflexivity).
  apply scanTables_sound in Hscan
    as (ck & rows & tm & row & Hin & H2 & H3 & H4 & H5 & H6 & H7 & H8 & _).
  apply list_elem_of_singleton in Hin. subst ck.
  exists rows, tm, row. auto 10.
Qed.

Lemma scan_reports_first_table_witness :
  exists earlier later,
    ["basic6_0_schedule"; "adv3_1_schedule"]
    = (earlier ++ "adv3_1_schedule" :: later)%list
    /\ (forall c, c ∈ earlier -> ~ hasConflict swapStore "basic6_0_schedule" 1 rowBasic 7 c).
Proof.
  destruct (scan_reports_first_table swapStore "basic6_0_schedule" 1 rowBasic 7
              ["basic6_0_schedule"; "adv3_1_schedule"]
              (mkConflict "adv3_1_schedule" "Adv 3.1" "Trees") eq_refl)
    as (earlier & later & Heq & Hbefore & _).
  exists earlier, later. split; [exact Heq | exact Hbefore].
Defined.

End ScanFacts.

Section SwapOutcome.
Import Js SwapMentor Samples MoreSamples.

Lemma single_elem (st : Store) (t : string) (i : Z) (row : Session) :
  single (selectRows st t (ById i)) = Some row ->
  exists rows, st !! t = Some rows /\ row ∈ rows /\ id row = i.
Proof.
  intros Hs. apply single_Some in Hs. unfold selectRows in Hs.
  destruct (st !! t) as [rows|]; [|discriminate]. simpl in Hs. injection Hs as Hs.
  assert (Hin : In row (List.filter (matches (ById i)) rows)) by (rewrite Hs; left; reflexivity).
  apply List.filter_In in Hin as [Hin Hm]. simpl in Hm.
  exists rows. split; [reflexivity|]. split; [apply list_elem_of_In, Hin|].
  exact (bool_decide_eq_true_1 _ Hm).
Qed.

(** what a run of the orchestrator on a found session does to its row *)
Lemma orchestrator_row (env : Env) (req : SessionUpdate.Request) (st : Store)
    (t : string) (i : Z) (session : Session) :
  ifTruthyS (SessionUpdate.tableName req) = Some t ->
  ifTruthyZ (SessionUpdate.sessionId req) = Some i ->
  single (selectRows st t (ById i)) = Some session ->
  let out := SessionUpdate.POST env req st in
  (exists results, response out = SessionUpdate.Status200 results)
  /\ touchesOnly t i st (store_after out)
  /\ exists rowAfter,
       single (selectRows (store_after out) t (ById i)) = Some rowAfter
       /\ onlyLinkAndFlags session rowAfter.
Proof.
  intros Ht Hi Hs out. subst out.
  rewrite (POST_runs env req st t i session Ht Hi Hs). cbv zeta. simpl.
  split; [eauto|]. split.
  - eapply touchesOnly_trans; [apply handleMeeting_touches | apply resetFlags_touches].
  - destruct (handleMeeting_row env req t i session st Hs) as (s1 & Hs1 & Hrw).
    pose proof (linkRewritten_frame _ _ Hrw) as Hframe.
    unfold SessionUpdate.resetFlags. destruct (SessionUpdate.flagsWereSet session); simpl.
    + exists (applyPatch SessionUpdate.resetPatch s1).
      split; [apply updateIgnoringError_single, Hs1 | exact Hframe].
    + exists s1. auto.
Qed.

Lemma ifTruthyS_again (o : option string) (s : string) :
  ifTruthyS o = Some s -> ifTruthyS (Some s) = Some s.
Proof.
  destruct o as [x|]; simpl; [|discriminate].
  destruct (truthyS x) eqn:E; [|discriminate]. intros [= <-]. rewrite E. reflexivity.
Qed.

Lemma ifTruthyZ_again (o : option Z) (z : Z) :
  ifTruthyZ o = Some z -> ifTruthyZ (Some z) = Some z.
Proof.
  destruct o as [x|]; simpl; [|discriminate].
  destruct (x =? 0) eqn:E; [discriminate|]. intros [= <-]. rewrite E. reflexivity.
Qed.

(** the handler once the scan found nothing *)
Lemma swap_runs (env : Env) (req : Request) (st : Store) (t : string) (i : Z)
    (session : Session) :
  ifTruthyS (tableName req) = Some t ->
  ifTruthyZ (sessionId req) = Some i ->
  single (selectRows st t (ById i)) = Some session ->
  checkConflicts env st t i session (swappedMentorId req) = None ->
  let out := POST env req st in
  (exists link notes,
     response out = Status200 (truthyOZ (swappedMentorId req)) link notes)
  /\ touchesOnly t i st (store_after out)
  /\ exists rowAfter,
       single (selectRows (store_after out) t (ById i)) = Some rowAfter
       /\ onlyLinkAndFlags
            (assign (set_swapped_mentor_id (ifTruthyZ (swappedMentorId req))) session)
            rowAfter.
Proof.
  intros Ht Hi Hs Hfree out. subst out. unfold POST. rewrite Ht, Hi, Hs, Hfree.
  destruct (update_single st t (ById i)
              [set_swapped_mentor_id (ifTruthyZ (swappedMentorId req))] session Hs)
    as (st1 & Hup & Hrow & _).
  rewrite Hup. pose proof (updateRows_touches _ _ _ _ _ Hup) as Htouch.
  assert (Htruthy : truthyOZ (swappedMentorId req)
                    = match ifTruthyZ (swappedMentorId req) with
                      | Some _ => true | None => false end).
  { destruct (swappedMentorId req) as [z|]; simpl; [destruct (z =? 0)|]; reflexivity. }
  rewrite Htruthy.
  destruct (ifTruthyZ (swappedMentorId req)) as [candidate|] eqn:Ec.
  - destruct (orchestrator_row env (sessionUpdateRequest t i session candidate) st1 t i _
                (ifTruthyS_again _ _ Ht) (ifTruthyZ_again _ _ Hi) Hrow)
      as ([results Hres] & Hsub & rowAfter & Hafter & Hframe).
    rewrite Hres. simpl. split; [eauto|].
    split; [eapply touchesOnly_trans; eassumption|]. eauto.
  - simpl. split; [eauto|]. split; [exact Htouch|].
    eexists. split; [exact Hrow|]. repeat split.
Qed.

(** An accepted swap request rewrites the cover of one session and
    nothing else that identifies a class: it is answered 200, every
    other row of every table is what it was, and the session's row is
    the old one with [swapped_mentor_id] set to the request's mentor
    (or to null for a falsy one), its owner, date, time, subject, type
    and materials unchanged; only the meeting link and the two
    notification flags may differ besides. *)
Theorem accepted_swap_rewrites_cover_only (env : Env) (req : Request) (st : Store)
    (t : string) (i : Z) (session : Session) :
  ifTruthyS (tableName req) = Some t ->
  ifTruthyZ (sessionId req) = Some i ->
  single (selectRows st t (ById i)) = Some session ->
  checkConflicts env st t i session (swappedMentorId req) = None ->
  let out := POST env req st in
  (exists link notes,
     response out = Status200 (truthyOZ (swappedMentorId req)) link notes)
  /\ touchesOnly t i st (store_after out)
  /\ exists rowAfter,
       single (selectRows (store_after out) t (ById i)) = Some rowAfter
       /\ swapped_mentor_id rowAfter = ifTruthyZ (swappedMentorId req)
       /\ mentor_id rowAfter = mentor_id session
       /\ date rowAfter = date session /\ time rowAfter = time session
       /\ subject_name rowAfter = subject_name session
       /\ session_type rowAfter = session_type session
       /\ session_material rowAfter = session_material session
       /\ initial_session_material rowAfter = initial_session_material session.
Proof.
  intros Ht Hi Hs Hfree out.
  destruct (swap_runs env req st t i session Ht Hi Hs Hfree)
    as (Hres & Htouch & rowAfter & Hafter & Hframe).
  split; [exact Hres|]. split; [exact Htouch|].
  exists rowAfter. split; [exact Hafter|].
  destruct Hframe as (_ & H2 & H3 & H4 & H5 & H6 & H7 & H8 & H9). simpl in *. auto 10.
Qed.

Lemma accepted_swap_rewrites_cover_only_witness :
  exists rowAfter,
    single (selectRows (store_after (POST sampleEnv freeSwap swapStore))
              "basic6_0_schedule" (ById 1)) = Some rowAfter
    /\ swapped_mentor_id rowAfter = Some 42
    /\ mentor_id rowAfter = Some 8.
Proof.
  destruct (accepted_swap_rewrites_cover_only sampleEnv freeSwap swapStore
              "basic6_0_schedule" 1 rowBasic eq_refl eq_refl eq_refl eq_refl)
    as (_ & _ & rowAfter & Hafter & Hcover & Howner & _).
  exists rowAfter. split; [exact Hafter|]. split; [exact Hcover | exact Howner].
Defined.

(** Removing a swap is silent.  A request whose [swappedMentorId] is
    falsy skips the conflict scan whatever the tables hold, issues the
    one update that nulls the column and nothing else: no meeting is
    deleted or created, nobody is notified, and the meeting link and the
    notification flags of the row stay what they were. *)
Theorem swap_removal_is_silent (env : Env) (req : Request) (st : Store)
    (t : string) (i : Z) (session : Session) :
  ifTruthyS (tableName req) = Some t ->
  ifTruthyZ (sessionId req) = Some i ->
  single (selectRows st t (ById i)) = Some session ->
  ifTruthyZ (swappedMentorId req) = None ->
  let out := POST env req st in
  response out = Status200 false None None
  /\ trace out = [EvUpdate t (ById i) [set_swapped_mentor_id None]]
  /\ touchesOnly t i st (store_after out)
  /\ single (selectRows (store_after out) t (ById i))
     = Some (assign (set_swapped_mentor_id None) session).
Proof.
  intros Ht Hi Hs Hnone out. subst out. unfold POST, checkConflicts.
  rewrite Ht, Hi, Hs, Hnone.
  destruct (update_single st t (ById i) [set_swapped_mentor_id None] session Hs)
    as (st1 & Hup & Hrow & _).
  rewrite Hup. simpl. split; [reflexivity|]. split; [reflexivity|].
  split; [apply (updateRows_touches _ _ _ _ _ Hup) | exact Hrow].
Qed.

Lemma swap_removal_is_silent_witness :
  trace (POST sampleEnv (mkRequest (Some "adv3_1_schedule") (Some 5) None None) swapStore)
  = [EvUpdate "adv3_1_schedule" (ById 5) [set_swapped_mentor_id None]].
Proof.
  exact (proj1 (proj2 (swap_removal_is_silent sampleEnv
                         (mkRequest (Some "adv3_1_schedule") (Some 5) None None)
                         swapStore "adv3_1_schedule" 5 rowAdv
                         eq_refl eq_refl eq_refl eq_refl))).
Defined.

(** A swap is refused exactly when the candidate is busy.  For a found
    session the answer is 409 if and only if the request names a mentor
    who is committed, in some table of the registry, to another row at
    the session's date and time; a refusal leaves database and trace
    empty-handed. *)
Theorem swap_refused_iff_busy (env : Env) (req : Request) (st : Store)
    (t : string) (i : Z) (session : Session) :
  ifTruthyS (tableName req) = Some t ->
  ifTruthyZ (sessionId req) = Some i ->
  single (selectRows st t (ById i)) = Some session ->
  ((exists details, POST env req st = mkOutcome (Status409 [details]) st [])
   <-> exists candidate,
         ifTruthyZ (swappedMentorId req) = Some candidate
         /\ busyElsewhere env st t i session candidate)
  /\ ((exists details, response (POST env req st) = Status409 details)
      -> store_after (POST env req st) = st /\ trace (POST env req st) = []).
Proof.
  intros Ht Hi Hs.
  destruct (checkConflicts env st t i session (swappedMentorId req)) as [details|] eqn:Ec.
  - assert (Hout : POST env req st = mkOutcome (Status409 [details]) st []).
    { unfold POST. rewrite Ht, Hi, Hs, Ec. reflexivity. }
    split.
    + split; [intros _; apply detector_hit_iff_busy; eauto | eauto].
    + intros _. rewrite Hout. auto.
  - destruct (swap_runs env req st t i session Ht Hi Hs Ec) as ((link & notes & Hres) & _).
    split.
    + split.
      * intros [details Hout]. rewrite Hout in Hres. discriminate Hres.
      * intros Hbusy. apply detector_hit_iff_busy in Hbusy as [details Hhit]. congruence.
    + intros [details Hd]. rewrite Hd in Hres. discriminate Hres.
Qed.

Lemma swap_refused_iff_busy_witness :
  (exists details,
     POST sampleEnv collidingSwap swapStore = mkOutcome (Status409 [details]) swapStore [])
  <-> exists candidate,
        ifTruthyZ (swappedMentorId collidingSwap) = Some candidate
        /\ busyElsewhere sampleEnv swapStore "basic6_0_schedule" 1 rowBasic candidate.
Proof.
  exact (proj1 (swap_refused_iff_busy sampleEnv collidingSwap swapStore
                  "basic6_0_schedule" 1 rowBasic eq_refl eq_refl eq_refl)).
Defined.

(** Two accepted swaps never put one mentor in two places.  After a
    swap request for mentor [M] was answered 200, a request to bring the
    same mentor into another session at the same date and time is
    refused with 409 and changes nothing, provided the registry lists
    the first session's table. *)
Theorem accepted_swap_blocks_double_booking (env : Env) (req1 req2 : Request)
    (st : Store) (t t2 : string) (i i2 M : Z) (link : option string)
    (notes : option SessionUpdate.NotificationResult) (tables : list string)
    (row1 session2 : Session) (slot : string) :
  ifTruthyS (tableName req1) = Some t ->
  ifTruthyZ (sessionId req1) = Some i ->
  ifTruthyZ (swappedMentorId req1) = Some M ->
  response (POST env req1 st) = Status200 true link notes ->
  let st' := store_after (POST env req1 st) in
  get_schedule_tables env = Some tables -> t ∈ tables ->
  single (selectRows st' t (ById i)) = Some row1 ->
  ifTruthyS (tableName req2) = Some t2 ->
  ifTruthyZ (sessionId req2) = Some i2 ->
  ~ (t2 = t /\ i2 = i) ->
  ifTruthyZ (swappedMentorId req2) = Some M ->
  single (selectRows st' t2 (ById i2)) = Some session2 ->
  date session2 = date row1 -> time session2 = Some slot -> time row1 = Some slot ->
  exists details, POST env req2 st' = mkOutcome (Status409 [details]) st' [].
Proof.
  intros Ht Hi HM Hok st' Htables Hlisted Hrow1 Ht2 Hi2 Hother HM2 Hs2 Hdate Hslot2 Hslot1.
  assert (Hcover : swapped_mentor_id row1 = Some M).
  { subst st'. revert Hok Hrow1. 
    destruct (single (selectRows st t (ById i))) as [session|] eqn:Hs.
    2:{ unfold POST. rewrite Ht, Hi, Hs. discriminate. }
    destruct (checkConflicts env st t i session (swappedMentorId req1)) eqn:Ec.
    { unfold POST. rewrite Ht, Hi, Hs, Ec. discriminate. }
    destruct (swap_runs env req1 st t i session Ht Hi Hs Ec)
      as (_ & _ & rowAfter & Hafter & Hframe).
    intros _ Hrow1. rewrite Hafter in Hrow1. injection Hrow1 as <-.
    destruct Hframe as (_ & _ & _ & _ & _ & _ & H7 & _). rewrite H7. simpl. exact HM. }
  destruct (single_elem _ _ _ _ Hrow1) as (rows & Hrows & Hin & Hid).
  assert (Hbusy : exists details,
             checkConflicts env st' t2 i2 session2 (swappedMentorId req2) = Some details).
  { apply detector_hit_iff_busy. exists M. split; [exact HM2|].
    exists tables, t, rows, slot, row1.
    repeat split; auto.
    - intros [Hname Hsame]. apply Hother. split; congruence.
    - right. exact Hcover. }
  destruct Hbusy as [details Hhit]. exists details.
  unfold POST. rewrite Ht2, Hi2, Hs2, Hhit. reflexivity.
Qed.

Lemma accepted_swap_blocks_double_booking_witness :
  exists details,
    POST sampleEnv (mkRequest (Some "adv3_1_schedule") (Some 5) (Some 42) None)
      (store_after (POST sampleEnv freeSwap swapStore))
    = mkOutcome (Status409 [details]) (store_after (POST sampleEnv freeSwap swapStore)) [].
Proof.
  eapply (accepted_swap_blocks_double_booking sampleEnv freeSwap
            (mkRequest (Some "adv3_1_schedule") (Some 5) (Some 42) None)
            swapStore "basic6_0_schedule" "adv3_1_schedule" 1 5 42 _ _
            ["basic6_0_schedule"; "adv3_1_schedule"] _ rowAdv "09:00:00");
    try reflexivity.
  - apply elem_of_cons. left. reflexivity.
  - intros [Hname _]. discriminate Hname.
Defined.

End SwapOutcome.
